(** * Shokuhou: the SMTP test session, embedded and verified

    The repository holds three revisions of one script:
    - [src/unnamed/part_000]: connect, banner, greeting, QUIT;
    - [src/shokuhou.js]: adds MAIL FROM / RCPT TO / DATA, authentication
      is still a TODO comment, the status code is read in line with
      [toString().substring(0,3)];
    - [src/unnamed/part_001]: adds AUTH LOGIN, the verbose flag and the
      helper module [modules/getStatus.js].

    The three are embedded below, statement by statement, in a small
    state-and-exception monad over a scripted transport, with the handler
    of [src/modules/errorHandler.js] that each of them registers. *)

From Stdlib Require Import String Ascii List Bool Arith NArith ZArith Lia.
Import ListNotations.
Local Open Scope string_scope.
Local Open Scope list_scope.

(* ===================================================================== *)
(** * The JavaScript runtime functions the script calls *)
(* ===================================================================== *)

(** A JavaScript string is kept as the Rocq string of the bytes of its
    UTF-8 encoding: a command-line argument as the shell passes it, a
    literal as the source file holds it, the argument of [client.write] as
    the socket sends it.  Two strings are equal exactly when their bytes
    are, a template string is the concatenation of its parts, and [split]
    on an ASCII separator cuts at the bytes that hold it.  A reply [Buffer]
    is the string of its bytes as they came; [decode] below is what
    [Buffer.prototype.toString()] makes of them. *)
Module Js.

Definition CRLF : string := String "013" (String "010" "").

(** [s.substring(0, 3)] as [String.substring 0 3 s]: the first three bytes,
    or all of [s] when it is shorter.  [substring] counts characters (UTF-16
    code units), which are bytes as long as the characters are ASCII; when
    one of the first three characters is not, one of the first three bytes
    is not either, and both the characters and the bytes differ from every
    string of three ASCII characters.  The script uses the result in
    comparisons with such strings only. *)
Definition substring (from to : nat) (s : string) : string :=
  String.substring from (to - from) s.

(** ** [Buffer.prototype.toString()]: UTF-8 decoding *)

(** U+FFFD, the replacement character. *)
Definition replacement : string := String "239" (String "191" (String "189" "")).

(** What a byte starts: a character of its own (ASCII), a character that
    takes [more] bytes after it, the first of them in [lo, hi], or nothing
    (a continuation byte, or a byte no character holds). *)
Inductive lead : Type :=
| Alone
| Lead (more : nat) (lo hi : N)
| NoLead.

Definition lead_of (b : N) : lead :=
  if (b <? 128)%N then Alone
  else if ((194 <=? b) && (b <=? 223))%N then Lead 1 128 191
  else if (b =? 224)%N then Lead 2 160 191
  else if (b =? 237)%N then Lead 2 128 159
  else if ((225 <=? b) && (b <=? 239))%N then Lead 2 128 191
  else if (b =? 240)%N then Lead 3 144 191
  else if (b =? 244)%N then Lead 3 128 143
  else if ((241 <=? b) && (b <=? 243))%N then Lead 3 128 191
  else NoLead.

(** The decoder of the Encoding Standard, which Node follows: [pending]
    holds the bytes of the character being read, [needed] how many more it
    takes, [lo, hi] where the next one must lie.  Well-formed characters
    are kept; each maximal ill-formed run of bytes becomes one U+FFFD, and
    the byte that broke it is read again as the start of a character. *)
Fixpoint decode_from (pending : string) (needed : nat) (lo hi : N) (s : string) : string :=
  match s with
  | EmptyString =>
      match needed with
      | 0 => EmptyString
      | S _ => replacement
      end
  | String c rest =>
      let b := N_of_ascii c in
      let start :=
        match lead_of b with
        | Alone => String c (decode_from EmptyString 0 128 191 rest)
        | Lead n l h => decode_from (String c EmptyString) n l h rest
        | NoLead => (replacement ++ decode_from EmptyString 0 128 191 rest)%string
        end in
      match needed with
      | 0 => start
      | S n =>
          if ((lo <=? b) && (b <=? hi))%N then
            match n with
            | 0 => (pending ++ String c (decode_from EmptyString 0 128 191 rest))%string
            | S _ => decode_from (pending ++ String c EmptyString)%string n 128 191 rest
            end
          else (replacement ++ start)%string
      end
  end.

(** Text of ASCII characters only. *)
Fixpoint ascii_only (s : string) : bool :=
  match s with
  | EmptyString => true
  | String c s' => (N_of_ascii c <? 128)%N && ascii_only s'
  end.

(** [buffer.toString()] on the bytes of a [Buffer]. *)
Definition decode (bytes : string) : string := decode_from EmptyString 0 128 191 bytes.

(** ** [String.prototype.trim] *)

(** The WhiteSpace and LineTerminator characters of ECMAScript, by their
    encoding.  One byte: TAB, LF, VT, FF, CR and SPACE. *)
Definition is_space (c : ascii) : bool :=
  let n := nat_of_ascii c in
  ((9 <=? n)%nat && (n <=? 13)%nat) || (n =? 32)%nat.

(** Two bytes: U+00A0. *)
Definition is_space2 (a b : ascii) : bool :=
  (nat_of_ascii a =? 194)%nat && (nat_of_ascii b =? 160)%nat.

(** Three bytes: U+1680, U+2000 to U+200A, U+2028, U+2029, U+202F, U+205F,
    U+3000 and U+FEFF. *)
Definition is_space3 (a b c : ascii) : bool :=
  let x := nat_of_ascii a in
  let y := nat_of_ascii b in
  let z := nat_of_ascii c in
  ((x =? 225) && (y =? 154) && (z =? 128))%nat ||
  ((x =? 226) && (y =? 128) &&
   (((128 <=? z) && (z <=? 138)) || (z =? 168) || (z =? 169) || (z =? 175)))%nat ||
  ((x =? 226) && (y =? 129) && (z =? 159))%nat ||
  ((x =? 227) && (y =? 128) && (z =? 128))%nat ||
  ((x =? 239) && (y =? 187) && (z =? 191))%nat.

(** [s] is one of these characters. *)
Definition one_space (s : string) : bool :=
  match s with
  | String a EmptyString => is_space a
  | String a (String b EmptyString) => is_space2 a b
  | String a (String b (String c EmptyString)) => is_space3 a b c
  | _ => false
  end.

Fixpoint trimStart (s : string) : string :=
  match s with
  | String a s1 =>
      if is_space a then trimStart s1
      else
        match s1 with
        | String b s2 =>
            if is_space2 a b then trimStart s2
            else
              match s2 with
              | String c s3 => if is_space3 a b c then trimStart s3 else s
              | EmptyString => s
              end
        | EmptyString => s
        end
  | EmptyString => EmptyString
  end.

Fixpoint trimEnd (s : string) : string :=
  match s with
  | String c s' =>
      let t := String c (trimEnd s') in
      if one_space t then EmptyString else t
  | EmptyString => EmptyString
  end.

(** [s.trim()] *)
Definition trim (s : string) : string := trimEnd (trimStart s).

(** [s.split(sep)] for a one-character separator: every occurrence of
    the separator cuts; the empty string splits into one empty piece. *)
Fixpoint split_all (sep : ascii) (s : string) : list string :=
  match s with
  | EmptyString => [EmptyString]
  | String c s' =>
      if Ascii.eqb c sep then EmptyString :: split_all sep s'
      else match split_all sep s' with
           | piece :: pieces => String c piece :: pieces
           | [] => [String c EmptyString]
           end
  end.

(** [s.split(sep, limit)]: the pieces of [s.split(sep)], cut to the first
    [limit] of them. *)
Definition split (sep : ascii) (limit : nat) (s : string) : list string :=
  firstn limit (split_all sep s).

(** [a[i]] on an array: [undefined] past the end. *)
Definition index {A} (a : list A) (i : nat) : option A := nth_error a i.

(** Truthiness of a value that is a string or [undefined]. *)
Definition truthy (v : option string) : bool :=
  match v with
  | Some (String _ _) => true
  | _ => false
  end.

(** String interpolation [`${v}`] of a string or [undefined]. *)
Definition show (v : option string) : string :=
  match v with
  | Some s => s
  | None => "undefined"
  end.

(** [v == s] for [v] a string or a value that is no string and equals
    none ([undefined], [null]), and [s] a string literal. *)
Definition loose_eq (v : option string) (s : string) : bool :=
  match v with
  | Some t => String.eqb t s
  | None => false
  end.

(** ** [btoa] *)

Definition b64_alphabet : string :=
  "ABCDEFGHIJKLMNOPQRSTUVWXYZabcdefghijklmnopqrstuvwxyz0123456789+/".

Definition b64_digit (n : N) : ascii :=
  match String.get (N.to_nat (n mod 64)) b64_alphabet with
  | Some c => c
  | None => "="%char
  end.

Definition byte (c : ascii) : N := N_of_ascii c.

(** Base64 of a string of bytes. *)
Fixpoint base64 (s : string) : string :=
  match s with
  | EmptyString => EmptyString
  | String a EmptyString =>
      let n := (byte a * 65536)%N in
      String (b64_digit (n / 262144)) (String (b64_digit (n / 4096)) "==")
  | String a (String b EmptyString) =>
      let n := (byte a * 65536 + byte b * 256)%N in
      String (b64_digit (n / 262144)) (String (b64_digit (n / 4096))
        (String (b64_digit (n / 64)) "="))
  | String a (String b (String c rest)) =>
      let n := (byte a * 65536 + byte b * 256 + byte c)%N in
      String (b64_digit (n / 262144)) (String (b64_digit (n / 4096))
        (String (b64_digit (n / 64)) (String (b64_digit n) (base64 rest))))
  end.

(** The characters of a text, one byte each, when none of them is above
    U+00FF: an ASCII byte is its character, and C2 or C3 with the
    continuation byte that follows is a character from U+0080 to U+00FF.
    Any other byte starts a character above U+00FF, or no character. *)
Fixpoint latin1 (s : string) : option string :=
  match s with
  | EmptyString => Some EmptyString
  | String a rest =>
      let n := N_of_ascii a in
      if (n <? 128)%N then option_map (String a) (latin1 rest)
      else
        match rest with
        | String b rest' =>
            let m := N_of_ascii b in
            if (((n =? 194) || (n =? 195)) && (128 <=? m) && (m <=? 191))%N
            then option_map (String (ascii_of_N ((n - 194) * 64 + m))) (latin1 rest')
            else None
        | EmptyString => None
        end
  end.

(** [btoa(s)], the global function of Node 16 and later: the base64 text
    of the characters of [s] taken as bytes; [None] when it throws, which
    it does when [s] holds a character above U+00FF. *)
Definition btoa (s : string) : option string := option_map base64 (latin1 s).

End Js.

(* ===================================================================== *)
(** * The process, the console and the promisified socket *)
(* ===================================================================== *)

Module Net.

(** What a [catch (ex)] clause can receive: a thrown string
    ([throw "text"], [throw `text`]) or an [Error] object
    ([throw new Error(text)], a [TypeError], an error of the socket). *)
Inductive exn : Type :=
| Thrown (text : string)
| ErrorObj (name message : string).

(** [ex.message]: [undefined] on a thrown string. *)
Definition message (ex : exn) : option string :=
  match ex with
  | Thrown _ => None
  | ErrorObj _ m => Some m
  end.

(** [`${ex}`]: the string itself, or [Error.prototype.toString()]. *)
Definition to_string (ex : exn) : string :=
  match ex with
  | Thrown text => text
  | ErrorObj EmptyString m => m
  | ErrorObj n EmptyString => n
  | ErrorObj n m => n ++ ": " ++ m
  end.

(** [undefined.toString()]: the [TypeError] of the runtime (the text is
    the engine's, nothing in the script depends on it). *)
Definition TypeError_toString : exn :=
  ErrorObj "TypeError" "Cannot read properties of undefined (reading 'toString')".

(** The rejection of a pending operation once the idle timeout set with
    [client.setTimeout] has fired (the text is the library's, nothing in
    the script depends on it).  How long the timeout is, 5 or 30 seconds,
    is not part of the model. *)
Definition TimeoutError : exn := ErrorObj "TimeoutError" "Socket timed out".

(** The exception of [btoa] on a character above U+00FF (the text is the
    engine's, nothing in the script depends on it). *)
Definition InvalidCharacterError : exn :=
  ErrorObj "InvalidCharacterError" "Invalid character".

(** [clientOpts.port] is [argv.o || 25]: the string given with [-o], or
    the number 25. *)
Inductive portval : Type :=
| PortStr (s : string)
| PortNum (n : N).

(** What one [await client.read()] meets: a chunk of bytes, the end of
    the stream (the promise resolves with [undefined]), or an error of
    the socket (the promise rejects). *)
Inductive incoming : Type :=
| Data (bytes : string)
| Ended
| Broken (ex : exn).

Inductive level : Type := Log | Warn | Error | Debug.

(** What the script does to the outside, in order. *)
Inductive event : Type :=
| Connect (port : portval) (host : string)   (* client.connect({port, host}) *)
| Write (data : string)                      (* client.write(data) *)
| Destroy                                    (* client.destroy() *)
| End                                        (* client.end() *)
| Console (l : level) (text : string).       (* console.log/warn/error/debug *)

(** The scripted peer.  [replies] is consumed one entry per [read]; when
    it runs out the server stays silent and the read times out.
    [write_faults] is consumed one entry per [write] ([None]: the write
    goes through); when it runs out writes go through. *)
Record peer : Type := mkPeer {
  connect_fault : option exn;
  replies : list incoming;
  write_faults : list (option exn)
}.

Definition next_reply (p : peer) : peer :=
  mkPeer (connect_fault p) (tl (replies p)) (write_faults p).

Definition next_write (p : peer) : peer :=
  mkPeer (connect_fault p) (replies p) (tl (write_faults p)).

(** How a piece of script ends: with a value, with an exception on its way
    to the enclosing [catch], or with [process.exit(code)]. *)
Inductive result (A : Type) : Type :=
| Val (a : A)
| Raise (ex : exn)
| Halt (code : Z).
Arguments Val {A} a.
Arguments Raise {A} ex.
Arguments Halt {A} code.

(** A piece of script run against a peer: how it ended, what is left of
    the peer's script, and what it did, in order. *)
Record outcome (A : Type) : Type := Out {
  res : result A;
  rest : peer;
  trace : list event
}.
Arguments Out {A} res rest trace.
Arguments res {A} o.
Arguments rest {A} o.
Arguments trace {A} o.

Definition M (A : Type) : Type := peer -> outcome A.

Definition ret {A} (a : A) : M A := fun p => Out (Val a) p [].

Definition bind {A B} (m : M A) (k : A -> M B) : M B :=
  fun p =>
    match m p with
    | Out (Val a) q t =>
        match k a q with
        | Out r q' t' => Out r q' (t ++ t')
        end
    | Out (Raise ex) q t => Out (Raise ex) q t
    | Out (Halt code) q t => Out (Halt code) q t
    end.

Definition throw {A} (ex : exn) : M A := fun p => Out (Raise ex) p [].

(** [try { body } catch (ex) { handler }]; [process.exit] inside the body
    is not an exception. *)
Definition try_catch {A} (body : M A) (handler : exn -> M A) : M A :=
  fun p =>
    match body p with
    | Out (Raise ex) q t =>
        match handler ex q with
        | Out r q' t' => Out r q' (t ++ t')
        end
    | x => x
    end.

(** [process.exit(code)] *)
Definition exit {A} (code : Z) : M A := fun p => Out (Halt code) p [].

(** [if (c) statement;] *)
Definition when (c : bool) (m : M unit) : M unit :=
  if c then m else ret tt.

Definition console (l : level) (text : string) : M unit :=
  fun p => Out (Val tt) p [Console l text].

(** [await client.connect({port, host})] *)
Definition connect (port : portval) (host : string) : M unit :=
  fun p =>
    match connect_fault p with
    | None => Out (Val tt) p [Connect port host]
    | Some ex => Out (Raise ex) p [Connect port host]
    end.

(** [await client.read()] *)
Definition read : M (option string) :=
  fun p =>
    match replies p with
    | Data bytes :: _ => Out (Val (Some bytes)) (next_reply p) []
    | Ended :: _ => Out (Val None) (next_reply p) []
    | Broken ex :: _ => Out (Raise ex) (next_reply p) []
    | [] => Out (Raise TimeoutError) p []
    end.

(** [await client.write(data)] *)
Definition write (data : string) : M unit :=
  fun p =>
    match write_faults p with
    | Some ex :: _ => Out (Raise ex) (next_write p) [Write data]
    | _ => Out (Val tt) (next_write p) [Write data]
    end.

(** [client.destroy()] *)
Definition destroy : M unit := fun p => Out (Val tt) p [Destroy].

(** [await client.end()] *)
Definition end_ : M unit := fun p => Out (Val tt) p [End].

(** [btoa(s)] *)
Definition btoa (s : string) : M string :=
  match Js.btoa s with
  | Some text => ret text
  | None => throw InvalidCharacterError
  end.

(** [resp.toString()] on what [read] resolved to: the decoded text of a
    [Buffer], a [TypeError] on [undefined]. *)
Definition toString (resp : option string) : M string :=
  match resp with
  | Some bytes => ret (Js.decode bytes)
  | None => throw TypeError_toString
  end.

(** What the engine hands to the handler of rejections and the script
    cannot compute: the stack trace of the reason ([reason.stack],
    [undefined] when the reason is no [Error] object) and the rendering of
    the rejected promise by [util.inspect]. *)
Record engine : Type := mkEngine {
  stack : exn -> option string;
  inspect : exn -> string
}.

(** What [minimist] leaves under the key of an option it is told to read
    as a string: [undefined] when the option is absent, the string given
    with it (the empty string when none is), and, when the option is given
    more than once or with a dotted key, an array or an object.  Of such
    an array or object the script uses three things: it is truthy, it has
    no [split] method, and a template string turns it into a text that is
    not empty, [String c text] (for an array, its items joined by
    commas).  [false], which [--no-u] leaves, is falsy as [undefined] is,
    and the script tests every option before it uses it: [Undefined]
    stands for both. *)
Inductive value : Type :=
| Undefined
| Str (s : string)
| Obj (c : ascii) (text : string).

(** Truthiness of such a value. *)
Definition truthy (v : value) : bool :=
  match v with
  | Undefined => false
  | Str EmptyString => false
  | Str (String _ _) => true
  | Obj _ _ => true
  end.

(** [`${v}`] *)
Definition text_of (v : value) : string :=
  match v with
  | Undefined => "undefined"
  | Str s => s
  | Obj c text => String c text
  end.

(** [x || y] *)
Definition or_else (x y : value) : value := if truthy x then x else y.

(** The [TypeError] of a call of [split] on a value that has no such
    method (the text is the engine's, nothing in the script depends on
    it). *)
Definition TypeError_split : exn :=
  ErrorObj "TypeError" "clientOpts.sender.split is not a function".

(** [v.split(sep, limit)] *)
Definition split (v : value) (sep : ascii) (limit : nat) : M (list string) :=
  match v with
  | Str s => ret (Js.split sep limit s)
  | _ => throw TypeError_split
  end.

(** The result of [minimist(process.argv.slice(2), ...)]: a value for each
    option read as a string, a boolean for each flag. *)
Record argv : Type := mkArgv {
  arg_help : bool;
  arg_u : value;
  arg_s : value;
  arg_r : value;
  arg_h : value;
  arg_p : value;
  arg_o : value;
  arg_v : bool
}.

(** [if (!x) throw text;] *)
Definition required (x : value) (text : string) : M unit :=
  when (negb (truthy x)) (throw (Thrown text)).

End Net.

Declare Scope script_scope.
Delimit Scope script_scope with script.
Notation "x <- c1 ;; c2" := (Net.bind c1 (fun x => c2))
  (at level 61, c1 at next level, right associativity) : script_scope.
Notation "c1 ;; c2" := (Net.bind c1 (fun _ => c2))
  (at level 61, right associativity) : script_scope.
Local Open Scope script_scope.

(* ===================================================================== *)
(** * [src/modules/errorHandler.js] *)
(* ===================================================================== *)

Module ErrorHandler.
Import Net.

Definition LF : string := String "010" "".

(** The text the handler of [unhandledRejection] prints (line 18). *)
Definition rejection_text (e : engine) (reason : exn) : string :=
  "Unhandled rejection: " ++ LF ++ to_string reason ++ LF ++
  "Stack:" ++ LF ++ Js.show (stack e reason) ++ LF ++
  "Promise:" ++ LF ++ inspect e reason.

(** [process.on("unhandledRejection", (reason, p) => {...})] (lines
    17-19): the handler prints and returns; the process is not ended. *)
Definition unhandledRejection (e : engine) (reason : exn) : M unit :=
  console Error (rejection_text e reason).

(** A script with the handlers registered
    ([require("./modules/errorHandler.js")()], line 19 of each script): a
    rejection of the promise of the [async] closure, which nothing in the
    script handles, goes to the handler of [unhandledRejection].  The
    handler of [uncaughtException] (lines 4-10, the one that ends with
    [process.exit(1)]) is never called: outside the closure the script
    throws inside its first [try] block only. *)
Definition handled (e : engine) (script : M unit) : M unit :=
  try_catch script (unhandledRejection e).

End ErrorHandler.

(* ===================================================================== *)
(** * [src/shokuhou.js] *)
(* ===================================================================== *)

Module Shokuhou.
Import Net.

(** [const clientOpts = {}] once the argument block has filled it.  The
    script uses [user], [recipient], [host] and [password] in template
    strings, as the argument of [btoa] and in [connect], which all take
    the text of the value: each field holds that text.  [sender] is a
    string when the block completes, since [split] was called on it;
    [password] is set when [-p] is truthy. *)
Record clientOpts : Type := mkOpts {
  user : string;
  sender : string;
  domain : option string;
  recipient : string;
  host : string;
  password : option string;
  port : portval
}.

(** The body of the first [try] block (lines 30-57). *)
Definition resolveOpts (a : argv) : M clientOpts :=
  when (arg_help a) (throw (Thrown "Help flag set")) ;;
  required (arg_u a) "No user specified" ;;
  let s := or_else (arg_s a) (arg_u a) in
  pieces <- split s "@" 2 ;;
  let d := Js.index pieces 1 in
  required (arg_r a) "No recipient specified" ;;
  required (arg_h a) "No host specified" ;;
  let p := if truthy (arg_p a) then Some (text_of (arg_p a)) else None in
  let o := if truthy (arg_o a) then PortStr (text_of (arg_o a)) else PortNum 25 in
  ret (mkOpts (text_of (arg_u a)) (text_of s) d (text_of (arg_r a))
         (text_of (arg_h a)) p o).

(** Its [catch] clause (lines 58-68). *)
Definition usage : M clientOpts :=
  console Log "Synatx: smtp-checker -h <server hostname/ip> -u <username> -r <recipient address>" ;;
  console Log "Optional parameters:" ;;
  console Log "--help: Displays this help message" ;;
  console Log "-s: Sender address, if different that the username" ;;
  console Log "-p: Password, if login is required" ;;
  console Log "-o: The port that the server is listening on; defaults to 25" ;;
  exit 0.

Section Session.
Variable o : clientOpts.

(** Lines 83-89. *)
Definition connectStage : M unit :=
  try_catch
    (connect (port o) (host o) ;;
     console Log ("[*] Connected to " ++ host o))
    (fun ex =>
       console Error ("An error occurred connecting to the server: " ++ to_string ex) ;;
       exit 0).

(** Lines 92-101. *)
Definition bannerStage : M unit :=
  try_catch
    (banner <- read ;;
     text <- toString banner ;;
     when (negb (Js.substring 0 3 text =? "220"))
       (text <- toString banner ;;
        throw (Thrown ("Improper response: " ++ text))) ;;
     console Log "[*] Received banner from the server")
    (fun ex =>
       console Error ("[X] An error occurred reading the server banner: " ++ to_string ex) ;;
       destroy ;;
       exit 0).

(** Lines 105-121. *)
Definition greetingStage : M unit :=
  try_catch
    (write ("EHLO " ++ Js.show (domain o) ++ Js.CRLF) ;;
     helloResp <- read ;;
     text <- toString helloResp ;;
     helloResp <-
       (if Js.substring 0 3 text =? "502" then
          console Warn "[!] EHLO not supported, attempting HELO greeting" ;;
          write ("HELO " ++ Js.show (domain o) ++ Js.CRLF) ;;
          read
        else ret helloResp) ;;
     text <- toString helloResp ;;
     when (negb (Js.substring 0 3 text =? "250"))
       (text <- toString helloResp ;;
        throw (Thrown ("Improper response: " ++ text))) ;;
     console Log "[*] Successfully greeted the server")
    (fun ex =>
       console Error ("[X] An error occurred during the greeting: " ++ to_string ex) ;;
       destroy ;;
       exit 0).

(** Lines 123-124 are the comment
    [// If the user supplied a password, attempt to use it to authenticate
    with the server  // TODO: Implement authentication]: no statement. *)

(** Lines 128-142. *)
Definition initiationStage : M unit :=
  try_catch
    (write ("MAIL FROM: <" ++ sender o ++ ">" ++ Js.CRLF) ;;
     userResp <- read ;;
     text <- toString userResp ;;
     when (negb (Js.substring 0 3 text =? "250"))
       (text <- toString userResp ;;
        throw (Thrown ("Improper response: " ++ text))) ;;
     write ("RCPT TO: <" ++ recipient o ++ ">" ++ Js.CRLF) ;;
     userResp <- read ;;
     text <- toString userResp ;;
     when (negb (Js.substring 0 3 text =? "250") &&
           negb (Js.substring 0 3 text =? "251"))
       (text <- toString userResp ;;
        throw (Thrown ("Improper response: " ++ text))) ;;
     console Log "[*] Mail transfer initiated")
    (fun ex =>
       console Error ("[X] An error occurred during initiation: " ++ to_string ex) ;;
       destroy ;;
       exit 0).

(** The argument of the second [write] of the message block (line 151). *)
Definition message_data : string :=
  "From: <" ++ sender o ++ ">" ++ Js.CRLF ++
  "To: <" ++ recipient o ++ ">" ++ Js.CRLF ++
  "Subject: SMTP Test Email" ++ Js.CRLF ++ Js.CRLF ++
  "If you have received this email, your SMTP server is configured correctly" ++ Js.CRLF ++
  "." ++ Js.CRLF.

(** Lines 145-160. *)
Definition messageStage : M unit :=
  try_catch
    (write ("DATA" ++ Js.CRLF) ;;
     dataResp <- read ;;
     text <- toString dataResp ;;
     when (negb (Js.substring 0 3 text =? "354"))
       (text <- toString dataResp ;;
        throw (Thrown ("Improper response: " ++ text))) ;;
     write message_data ;;
     dataResp <- read ;;
     text <- toString dataResp ;;
     when (negb (Js.substring 0 3 text =? "250"))
       (text <- toString dataResp ;;
        throw (Thrown ("Improper response: " ++ text))) ;;
     console Log "[*] Message accepted by the SMTP server")
    (fun ex =>
       console Error ("[X] An error occurred sending the message: " ++ to_string ex) ;;
       destroy ;;
       exit 0).

(** Lines 163-165. *)
Definition quitStage : M unit :=
  console Log "[*] Closing connection" ;;
  write ("QUIT" ++ Js.CRLF) ;;
  end_.

(** The body of the [async] closure (lines 79-166).  A [Raise] result is
    a rejection of the closure's promise, which nothing handles. *)
Definition session : M unit :=
  connectStage ;;
  bannerStage ;;
  greetingStage ;;
  initiationStage ;;
  messageStage ;;
  quitStage.

End Session.

(** The statements of the script, in order: the argument block and the
    closure.  A [Raise] result is a rejection of the closure's promise. *)
Definition main (a : argv) : M unit :=
  o <- try_catch (resolveOpts a) (fun _ => usage) ;;
  session o.

(** The whole script, the handlers of line 19 registered. *)
Definition script (e : engine) (a : argv) : M unit :=
  ErrorHandler.handled e (main a).

End Shokuhou.

(* ===================================================================== *)
(** * [modules/getStatus.js] *)
(* ===================================================================== *)

Module GetStatus.

Definition is_digit (c : ascii) : bool :=
  let n := nat_of_ascii c in
  (48 <=? n)%nat && (n <=? 57)%nat.

(** Modelled from the spec: [modules/getStatus.js], the helper that
    [part_001] loads with [require("./modules/getStatus.js")], is not among
    the sources.  The specification (section 4.2) gives it as a pure
    function from the raw reply to its three-character leading status code,
    or to a no-code sentinel when the first three characters are not a
    code field; its glossary calls a status code the three-digit numeric
    prefix of a reply.  The argument is what [client.read()] resolved to (a
    reply, or [undefined]: the function never throws); [None] in the result
    is the sentinel. *)
Definition getStatus (resp : option string) : option string :=
  match resp with
  | Some (String a (String b (String c _))) =>
      if is_digit a && is_digit b && is_digit c
      then Some (String a (String b (String c EmptyString)))
      else None
  | _ => None
  end.

End GetStatus.

(* ===================================================================== *)
(** * [src/unnamed/part_001] *)
(* ===================================================================== *)

Module Part001.
Import Net.

Record clientOpts : Type := mkOpts {
  user : string;
  sender : string;
  domain : option string;
  recipient : string;
  host : string;
  password : option string;
  port : portval;
  verbose : bool
}.

(** The body of the first [try] block (lines 34-62). *)
Definition resolveOpts (a : argv) : M clientOpts :=
  when (arg_help a) (throw (Thrown "Help flag set")) ;;
  required (arg_u a) "No user specified" ;;
  let s := or_else (arg_s a) (arg_u a) in
  pieces <- split s "@" 2 ;;
  let d := Js.index pieces 1 in
  required (arg_r a) "No recipient specified" ;;
  required (arg_h a) "No host specified" ;;
  let p := if truthy (arg_p a) then Some (text_of (arg_p a)) else None in
  let o := if truthy (arg_o a) then PortStr (text_of (arg_o a)) else PortNum 25 in
  let v := if arg_v a then true else false in
  ret (mkOpts (text_of (arg_u a)) (text_of s) d (text_of (arg_r a))
         (text_of (arg_h a)) p o v).

(** Its [catch] clause (lines 63-74). *)
Definition usage : M clientOpts :=
  console Log "Synatx: smtp-checker -h <server hostname/ip> -u <username> -r <recipient address>" ;;
  console Log "Optional parameters:" ;;
  console Log "--help: Displays this help message" ;;
  console Log "-s: Sender address, if different that the username" ;;
  console Log "-p: Password, if login is required" ;;
  console Log "-o: The port that the server is listening on; defaults to 25" ;;
  console Log "-v: Run in verbose mode" ;;
  exit 0.

Section Session.
(** [const getStatus = require("./modules/getStatus.js")]: the session is
    embedded over whatever that module exports, as a function from what
    [read] resolved to, to a status string or a value that equals no
    string. *)
Variable getStatus : option string -> option string.
Variable o : clientOpts.

(** [if (clientOpts.verbose) console.debug(`[>] ${resp.toString().trim()}`)] *)
Definition debug_received (resp : option string) : M unit :=
  when (verbose o)
    (text <- toString resp ;;
     console Debug ("[>] " ++ Js.trim text)).

(** [if (clientOpts.verbose) console.debug(`[<] ${line}`)] *)
Definition debug_sent (line : string) : M unit :=
  when (verbose o) (console Debug ("[<] " ++ line)).

(** [if (clientOpts.verbose) console.debug(`[<] ${btoa(s)}`)] *)
Definition debug_encoded (s : string) : M unit :=
  when (verbose o)
    (line <- btoa s ;;
     console Debug ("[<] " ++ line)).

(** [throw new Error(`Improper response: ${resp.toString().trim()}`)] *)
Definition improper (resp : option string) : M unit :=
  text <- toString resp ;;
  throw (ErrorObj "Error" ("Improper response: " ++ Js.trim text)).

(** Lines 89-95. *)
Definition connectStage : M unit :=
  try_catch
    (connect (port o) (host o) ;;
     console Log ("[*] Connected to " ++ host o))
    (fun ex =>
       console Error ("An error occurred connecting to the server: " ++ Js.show (message ex)) ;;
       exit 0).

(** Lines 98-109. *)
Definition bannerStage : M unit :=
  try_catch
    (banner <- read ;;
     debug_received banner ;;
     when (negb (Js.loose_eq (getStatus banner) "220")) (improper banner) ;;
     console Log "[*] Received banner from the server")
    (fun ex =>
       console Error ("[X] An error occurred reading the server banner: " ++ Js.show (message ex)) ;;
       destroy ;;
       exit 0).

(** Lines 113-137. *)
Definition greetingStage : M unit :=
  try_catch
    (console Log "[*] Attempting to greet the server" ;;
     debug_sent ("EHLO " ++ Js.show (domain o)) ;;
     write ("EHLO " ++ Js.show (domain o) ++ Js.CRLF) ;;
     helloResp <- read ;;
     debug_received helloResp ;;
     helloResp <-
       (if Js.loose_eq (getStatus helloResp) "502" then
          console Warn "[!] EHLO not supported, attempting HELO greeting" ;;
          debug_sent ("HELO " ++ Js.show (domain o)) ;;
          write ("HELO " ++ Js.show (domain o) ++ Js.CRLF) ;;
          helloResp <- read ;;
          debug_received helloResp ;;
          ret helloResp
        else ret helloResp) ;;
     when (negb (Js.loose_eq (getStatus helloResp) "250")) (improper helloResp) ;;
     console Log "[*] Successfully greeted the server")
    (fun ex =>
       console Error ("[X] An error occurred during the greeting: " ++ Js.show (message ex)) ;;
       destroy ;;
       exit 0).

(** Lines 140-169. *)
Definition authenticationStage : M unit :=
  when (Js.truthy (password o))
    (try_catch
       (console Log "[*] Attempting authentication" ;;
        debug_sent "AUTH LOGIN" ;;
        write ("AUTH LOGIN" ++ Js.CRLF) ;;
        loginResp <- read ;;
        debug_received loginResp ;;
        when (negb (Js.loose_eq (getStatus loginResp) "334")) (improper loginResp) ;;
        debug_encoded (user o) ;;
        line <- btoa (user o) ;;
        write (line ++ Js.CRLF) ;;
        loginResp <- read ;;
        debug_received loginResp ;;
        when (negb (Js.loose_eq (getStatus loginResp) "334")) (improper loginResp) ;;
        debug_encoded (Js.show (password o)) ;;
        line <- btoa (Js.show (password o)) ;;
        write (line ++ Js.CRLF) ;;
        loginResp <- read ;;
        debug_received loginResp ;;
        when (negb (Js.loose_eq (getStatus loginResp) "235")) (improper loginResp) ;;
        console Log "[*] Authentication successful")
       (fun ex =>
          console Error ("[X] An error occurred during authentication: " ++ Js.show (message ex)) ;;
          destroy ;;
          exit 0)).

(** Lines 173-196. *)
Definition initiationStage : M unit :=
  try_catch
    (console Log "[*] Initiating mail transfer" ;;
     debug_sent ("MAIL FROM: <" ++ sender o ++ ">") ;;
     write ("MAIL FROM: <" ++ sender o ++ ">" ++ Js.CRLF) ;;
     userResp <- read ;;
     debug_received userResp ;;
     when (negb (Js.loose_eq (getStatus userResp) "250")) (improper userResp) ;;
     debug_sent ("RCPT TO: <" ++ recipient o ++ ">") ;;
     write ("RCPT TO: <" ++ recipient o ++ ">" ++ Js.CRLF) ;;
     userResp <- read ;;
     debug_received userResp ;;
     when (negb (Js.loose_eq (getStatus userResp) "250") &&
           negb (Js.loose_eq (getStatus userResp) "251"))
       (improper userResp) ;;
     console Log "[*] Mail transfer initiated")
    (fun ex =>
       console Error ("[X] An error occurred during initiation: " ++ Js.show (message ex)) ;;
       destroy ;;
       exit 0).

(** The argument of the second [write] of the message block (line 211). *)
Definition message_data : string :=
  "From: <" ++ sender o ++ ">" ++ Js.CRLF ++
  "To: <" ++ recipient o ++ ">" ++ Js.CRLF ++
  "Subject: SMTP Test Email" ++ Js.CRLF ++ Js.CRLF ++
  "If you have received this email, your SMTP server is configured correctly" ++ Js.CRLF ++
  "." ++ Js.CRLF.

(** Lines 199-223. *)
Definition messageStage : M unit :=
  try_catch
    (console Log "[*] Attempting to send message" ;;
     debug_sent "DATA" ;;
     write ("DATA" ++ Js.CRLF) ;;
     dataResp <- read ;;
     debug_received dataResp ;;
     when (negb (Js.loose_eq (getStatus dataResp) "354")) (improper dataResp) ;;
     debug_sent ("From: <" ++ sender o ++ "> To: <" ++ recipient o ++
                 "> Subject: SMTP Test Email If you have received this email, your SMTP server is configured correctly .") ;;
     write message_data ;;
     dataResp <- read ;;
     debug_received dataResp ;;
     when (negb (Js.loose_eq (getStatus dataResp) "250")) (improper dataResp) ;;
     console Log "[*] Message accepted by the SMTP server")
    (fun ex =>
       console Error ("[X] An error occurred sending the message: " ++ Js.show (message ex)) ;;
       destroy ;;
       exit 0).

(** Lines 226-229. *)
Definition quitStage : M unit :=
  console Log "[*] Closing connection" ;;
  debug_sent "QUIT" ;;
  write ("QUIT" ++ Js.CRLF) ;;
  end_.

(** The body of the [async] closure (lines 85-230). *)
Definition session : M unit :=
  connectStage ;;
  bannerStage ;;
  greetingStage ;;
  authenticationStage ;;
  initiationStage ;;
  messageStage ;;
  quitStage.

End Session.

(** The statements of the script, in order: the argument block and the
    closure.  A [Raise] result is a rejection of the closure's promise. *)
Definition main (getStatus : option string -> option string) (a : argv) : M unit :=
  o <- try_catch (resolveOpts a) (fun _ => usage) ;;
  session getStatus o.

(** The whole script, the handlers of line 19 registered. *)
Definition script (getStatus : option string -> option string) (e : engine)
    (a : argv) : M unit :=
  ErrorHandler.handled e (main getStatus a).

End Part001.

(* ===================================================================== *)
(** * Reading a run *)
(* ===================================================================== *)

Module Observe.
Import Net.

(** The data handed to [client.write], in order. *)
Definition writes (t : list event) : list string :=
  flat_map (fun e => match e with Write data => [data] | _ => [] end) t.

Definition sent {A} (x : outcome A) : list string := writes (trace x).

Definition is_release (e : event) : bool :=
  match e with
  | Destroy | End => true
  | _ => false
  end.

(** The run called [client.destroy()] or [client.end()]. *)
Definition released (t : list event) : bool := existsb is_release t.



Definition is_console (e : event) : bool :=
  match e with
  | Console _ _ => true
  | _ => false
  end.

Definition is_debug (e : event) : bool :=
  match e with
  | Console Debug _ => true
  | _ => false
  end.

(** What reaches the socket: the trace without the console. *)
Definition protocol (t : list event) : list event :=
  filter (fun e => negb (is_console e)) t.

(** The trace without the [console.debug] lines. *)
Definition without_debug (t : list event) : list event :=
  filter (fun e => negb (is_debug e)) t.

(** The last thing the run did. *)
Definition ends_with (e : event) (t : list event) : Prop :=
  exists before, t = before ++ [e].

(** Every write still to come goes through. *)
Definition healthy (p : peer) : Prop :=
  Forall (fun f => f = None) (write_faults p).

(** A server that accepts the connection, answers with the given replies
    in turn and then stays silent. *)
Definition serve (rs : list string) : peer := mkPeer None (map Data rs) [].


(** The status [shokuhou.js] reads off a reply: its first three bytes.
    The script compares [resp.toString().substring(0,3)] with a status
    code, which gives the same answer as the comparison of these bytes
    with it (lemma [decode_status]). *)
Definition leading3 (r : string) : option string := Some (Js.substring 0 3 r).

(** The console errors of the [catch] clauses, up to the detail. *)
Definition at_banner : string := "[X] An error occurred reading the server banner: ".
Definition at_greeting : string := "[X] An error occurred during the greeting: ".
Definition at_authentication : string := "[X] An error occurred during authentication: ".
Definition at_initiation : string := "[X] An error occurred during initiation: ".
Definition at_message : string := "[X] An error occurred sending the message: ".

(** The run ended in the [catch] clause of a stage: the console error
    that names the stage, [client.destroy()], [process.exit(0)]. *)
Definition failed_at {A} (stage : string) (x : outcome A) : Prop :=
  res x = Halt 0%Z /\
  exists before detail,
    trace x = before ++ [Console Error (stage ++ detail)%string; Destroy].

(** The stage goes on exactly when [ok], and fails in its [catch] clause
    otherwise. *)
Definition accepted_iff (x : outcome unit) (stage : string) (ok : Prop) : Prop :=
  (res x = Val tt <-> ok) /\ (~ ok -> failed_at stage x).

(** ** The stage contracts of the specification *)

(** Greeting: EHLO, one HELO exactly on a 502, then 250 or failure.
    [status] is the status the script reads off a reply, [x] the run of the
    stage against a peer whose script is [Data r1 :: rs]. *)
Definition greeting_exchange (status : string -> option string) (domain r1 : string)
    (rs : list incoming) (x : outcome unit) : Prop :=
  let ehlo := ("EHLO " ++ domain ++ Js.CRLF)%string in
  let helo := ("HELO " ++ domain ++ Js.CRLF)%string in
  (status r1 <> Some "502" ->
     sent x = [ehlo] /\ replies (rest x) = rs /\
     accepted_iff x at_greeting (status r1 = Some "250")) /\
  (status r1 = Some "502" ->
     sent x = [ehlo; helo] /\
     forall r2 rs', rs = Data r2 :: rs' ->
     replies (rest x) = rs' /\
     accepted_iff x at_greeting (status r2 = Some "250")).

(** Authentication, for a peer whose script is
    [Data r1 :: Data r2 :: Data r3 :: rs].  Each credential is encoded
    when its turn comes, and the block ends in its [catch] clause there
    when [btoa] throws. *)
Definition authentication_exchange (status : string -> option string)
    (login secret r1 r2 r3 : string) (x : outcome unit) : Prop :=
  let auth := ("AUTH LOGIN" ++ Js.CRLF)%string in
  (status r1 <> Some "334" -> sent x = [auth] /\ failed_at at_authentication x) /\
  (status r1 = Some "334" ->
     match Js.btoa login with
     | None => sent x = [auth] /\ failed_at at_authentication x
     | Some login64 =>
         let line1 := (login64 ++ Js.CRLF)%string in
         (status r2 <> Some "334" ->
            sent x = [auth; line1] /\ failed_at at_authentication x) /\
         (status r2 = Some "334" ->
            match Js.btoa secret with
            | None => sent x = [auth; line1] /\ failed_at at_authentication x
            | Some secret64 =>
                sent x = [auth; line1; (secret64 ++ Js.CRLF)%string] /\
                accepted_iff x at_authentication (status r3 = Some "235")
            end)
     end).

(** Recipient-To, after an accepted MAIL FROM: [stage] is the initiation
    block, [next] what the session runs after it, [r2] the reply to
    RCPT TO. *)
Definition rcpt_decision (status : string -> option string) (from to : string)
    (stage next : M unit) (p : peer) (r2 : string) : Prop :=
  let mail := ("MAIL FROM: <" ++ from ++ ">" ++ Js.CRLF)%string in
  let rcpt := ("RCPT TO: <" ++ to ++ ">" ++ Js.CRLF)%string in
  let data := ("DATA" ++ Js.CRLF)%string in
  let ok := status r2 = Some "250" \/ status r2 = Some "251" in
  accepted_iff (stage p) at_initiation ok /\
  sent (stage p) = [mail; rcpt] /\
  (ok -> firstn 3 (sent (bind stage (fun _ => next) p)) = [mail; rcpt; data]) /\
  (~ ok -> forall k : M unit,
     res (bind stage (fun _ => k) p) = Halt 0%Z /\
     trace (bind stage (fun _ => k) p) = trace (stage p)).

(** What the session runs after the initiation block starts by writing
    DATA. *)
Definition starts_with_data (next : M unit) : Prop :=
  forall q, exists more, sent (next q) = ("DATA" ++ Js.CRLF)%string :: more.

(** The two Data stages, for a peer whose script is [Data r1 :: rs]:
    [stage] is the message block, [quit] what the session runs after it,
    [body] the argument of its second write. *)
Definition data_exchange (status : string -> option string) (body : string)
    (stage quit : M unit) (p : peer) (r1 : string) (rs : list incoming) : Prop :=
  let data := ("DATA" ++ Js.CRLF)%string in
  let x := stage p in
  (status r1 <> Some "354" -> sent x = [data] /\ failed_at at_message x) /\
  (status r1 = Some "354" ->
     forall r2 rs', rs = Data r2 :: rs' ->
     sent x = [data; body] /\
     accepted_iff x at_message (status r2 = Some "250") /\
     (status r2 <> Some "250" ->
        let y := bind stage (fun _ => quit) p in
        res y = Halt 0%Z /\
        ~ In ("QUIT" ++ Js.CRLF)%string (sent y) /\
        ends_with Destroy (trace y))) /\
  (exists text, body = (text ++ Js.CRLF ++ "." ++ Js.CRLF)%string).

(** ** Relations between two runs *)

(** Two results end the same way. *)
Definition same_end {A} (r r' : result A) : Prop :=
  match r, r' with
  | Val a, Val a' => a = a'
  | Raise ex, Raise ex' => ex = ex'
  | Halt c, Halt c' => c = c'
  | _, _ => False
  end.

(** Two script entries that differ at most in the bytes of a reply after
    the first three. *)
Definition alike_reply (i i' : incoming) : Prop :=
  match i, i' with
  | Data b, Data b' => Js.substring 0 3 b = Js.substring 0 3 b'
  | Ended, Ended => True
  | Broken ex, Broken ex' => ex = ex'
  | _, _ => False
  end.

Definition alike (p p' : peer) : Prop :=
  connect_fault p = connect_fault p' /\
  write_faults p = write_faults p' /\
  Forall2 alike_reply (replies p) (replies p').

(** Two runs that end the same way, did the same to the socket, and left
    peers that are alike. *)
Definition same_exchange (x x' : outcome unit) : Prop :=
  same_end (res x) (res x') /\
  protocol (trace x) = protocol (trace x') /\
  alike (rest x) (rest x').

(** [m] looks at no more than the first three characters of a reply. *)
Definition prefix_only (m : M unit) : Prop :=
  forall p p', alike p p' -> same_exchange (m p) (m p').

(** The run [y] is the run [x] without its [console.debug] lines. *)
Definition quiet (x y : outcome unit) : Prop :=
  res x = res y /\ rest x = rest y /\ without_debug (trace x) = trace y.

Definition verbosity_only (m m' : M unit) : Prop :=
  forall p, quiet (m p) (m' p).

(** A stage goes on without having released the socket, and leaves a
    peer whose writes all go through such a peer; or it fails after
    [client.destroy()]; it lets no exception through. *)
Definition destroys_on_failure (m : M unit) : Prop :=
  forall p,
    match res (m p) with
    | Val _ => released (trace (m p)) = false /\ (healthy p -> healthy (rest (m p)))
    | Raise _ => False
    | Halt _ => ends_with Destroy (trace (m p))
    end.

(** The rest of a session ends with [client.end()] when it completes and
    with [client.destroy()] when it exits; an exception leaves it only
    from a write of QUIT that fails, which is then the last thing it did,
    with nothing released. *)
Definition releases_at_exit (m : M unit) : Prop :=
  forall p,
    match res (m p) with
    | Val _ => ends_with End (trace (m p))
    | Raise _ =>
        ends_with (Write ("QUIT" ++ Js.CRLF)) (trace (m p)) /\
        released (trace (m p)) = false /\ ~ healthy p
    | Halt _ => ends_with Destroy (trace (m p))
    end.

(** How a run [x] against the peer [p] leaves the socket: [client.destroy()]
    last when it exits, [client.end()] last when it completes; when an
    exception leaves it, a write of the peer's script failed, that write was
    the write of QUIT and the last thing the run did, and the run has called
    neither. *)
Definition leaves_socket (p : peer) (x : outcome unit) : Prop :=
  (forall c, res x = Halt c -> ends_with Destroy (trace x)) /\
  (res x = Val tt -> ends_with End (trace x)) /\
  (forall ex, res x = Raise ex ->
     ends_with (Write ("QUIT" ++ Js.CRLF)) (trace x) /\
     released (trace x) = false /\ ~ healthy p).

(** From [p] to [q] the script has consumed replies only, each of three
    characters at least. *)
Definition consumed (p q : peer) : Prop :=
  exists used,
    replies p = map Data used ++ replies q /\
    Forall (fun r => 3 <= String.length r) used.

(** When [m] goes on, every entry of the peer's script it has consumed was
    a reply of three characters at least. *)
Definition reads_whole_codes (m : M unit) : Prop :=
  forall p, res (m p) = Val tt -> consumed p (rest (m p)).

(** A status code: three decimal digits. *)
Definition is_code (s : string) : bool :=
  match s with
  | String a (String b (String c EmptyString)) =>
      GetStatus.is_digit a && GetStatus.is_digit b && GetStatus.is_digit c
  | _ => false
  end.

(** ** A status read off the first three characters *)

(** [status] looks at the first three characters of a reply only: replies
    that agree on them have the same status, a reply that starts with a
    status code has that code whatever follows, and a reply of fewer than
    three characters has none. *)
Definition first_three_only (status : string -> option string) : Prop :=
  (forall b b', Js.substring 0 3 b = Js.substring 0 3 b' -> status b = status b') /\
  (forall c tail, is_code c = true -> status (c ++ tail)%string = Some c) /\
  (forall b c, String.length b < 3 -> String.length c = 3 -> status b <> Some c).

(** The decision of every stage that reads a reply, for a peer whose
    writes go through and whose script starts with the reply [r1]: the
    stage goes on exactly when the status of the reply it has read last is
    the one it expects, and ends in its [catch] clause otherwise.  The
    greeting reads a second reply [r2] after a 502, the initiation block
    after a 250 to MAIL FROM, the message block after a 354 to DATA. *)
Definition stage_decisions (status : string -> option string)
    (banner greeting initiation message : M unit) : Prop :=
  forall p r1 rs, healthy p -> replies p = Data r1 :: rs ->
    accepted_iff (banner p) at_banner (status r1 = Some "220") /\
    (status r1 <> Some "502" ->
       accepted_iff (greeting p) at_greeting (status r1 = Some "250")) /\
    (status r1 <> Some "250" -> failed_at at_initiation (initiation p)) /\
    (status r1 <> Some "354" -> failed_at at_message (message p)) /\
    (forall r2 rs', rs = Data r2 :: rs' ->
       (status r1 = Some "502" ->
          accepted_iff (greeting p) at_greeting (status r2 = Some "250")) /\
       (status r1 = Some "250" ->
          accepted_iff (initiation p) at_initiation
            (status r2 = Some "250" \/ status r2 = Some "251")) /\
       (status r1 = Some "354" ->
          accepted_iff (message p) at_message (status r2 = Some "250"))).

(** The same for the three replies the authentication block reads, with
    the credentials [user] and [secret]: it goes on exactly when [btoa]
    encodes both and the status of the third reply is 235. *)
Definition login_decisions (status : string -> option string) (login : M unit)
    (user secret : string) : Prop :=
  forall p r1 r2 r3 rs, healthy p ->
    replies p = Data r1 :: Data r2 :: Data r3 :: rs ->
    (status r1 <> Some "334" -> failed_at at_authentication (login p)) /\
    (status r1 = Some "334" -> status r2 <> Some "334" ->
       failed_at at_authentication (login p)) /\
    (status r1 = Some "334" -> status r2 = Some "334" ->
       accepted_iff (login p) at_authentication
         (Js.btoa user <> None /\ Js.btoa secret <> None /\ status r3 = Some "235")).

(** A reply that starts with the expected code is accepted whatever
    follows the code, at every stage. *)
Definition codes_accepted (banner greeting initiation message : M unit) : Prop :=
  forall p t1 t2 rs, healthy p ->
    (replies p = Data ("220" ++ t1) :: rs -> res (banner p) = Val tt) /\
    (replies p = Data ("250" ++ t1) :: rs -> res (greeting p) = Val tt) /\
    (replies p = Data ("502" ++ t1) :: Data ("250" ++ t2) :: rs ->
       res (greeting p) = Val tt) /\
    (replies p = Data ("250" ++ t1) :: Data ("250" ++ t2) :: rs ->
       res (initiation p) = Val tt) /\
    (replies p = Data ("250" ++ t1) :: Data ("251" ++ t2) :: rs ->
       res (initiation p) = Val tt) /\
    (replies p = Data ("354" ++ t1) :: Data ("250" ++ t2) :: rs ->
       res (message p) = Val tt).

Definition login_codes_accepted (login : M unit) (user secret : string) : Prop :=
  forall p t1 t2 t3 rs, healthy p ->
    Js.btoa user <> None -> Js.btoa secret <> None ->
    replies p = Data ("334" ++ t1) :: Data ("334" ++ t2) :: Data ("235" ++ t3) :: rs ->
    res (login p) = Val tt.

(** A stage that reads a reply [b] of fewer than three characters ends in
    its [catch] clause, whatever the peer: as the first reply of the stage,
    or as the second one (which the greeting reads after a 502, the
    initiation block after a 250 and the message block after a 354). *)
Definition short_replies_fail (status : string -> option string)
    (banner greeting initiation message : M unit) : Prop :=
  forall p b, String.length b < 3 ->
    (forall rs, replies p = Data b :: rs ->
       failed_at at_banner (banner p) /\
       failed_at at_greeting (greeting p) /\
       failed_at at_initiation (initiation p) /\
       failed_at at_message (message p)) /\
    (forall r1 rs, replies p = Data r1 :: Data b :: rs ->
       (status r1 = Some "502" -> failed_at at_greeting (greeting p)) /\
       (status r1 = Some "250" -> failed_at at_initiation (initiation p)) /\
       (status r1 = Some "354" -> failed_at at_message (message p))).

(** The same for the authentication block: [b] as its first, second or
    third reply. *)
Definition short_login_replies_fail (status : string -> option string)
    (login : M unit) : Prop :=
  forall p b, String.length b < 3 ->
    (forall rs, replies p = Data b :: rs -> failed_at at_authentication (login p)) /\
    (forall r1 rs, replies p = Data r1 :: Data b :: rs ->
       status r1 = Some "334" -> failed_at at_authentication (login p)) /\
    (forall r1 r2 rs, replies p = Data r1 :: Data r2 :: Data b :: rs ->
       status r1 = Some "334" -> status r2 = Some "334" ->
       failed_at at_authentication (login p)).

(** ** The sender's domain, in the words of the specification *)

(** The number of occurrences of [c] in [s]. *)
Fixpoint occurrences (c : ascii) (s : string) : nat :=
  match s with
  | EmptyString => 0
  | String a s' => (if Ascii.eqb a c then 1 else 0) + occurrences c s'
  end.

(** The substring of [s] following the first [c]. *)
Fixpoint after_first (c : ascii) (s : string) : string :=
  match s with
  | EmptyString => EmptyString
  | String a s' => if Ascii.eqb a c then s' else after_first c s'
  end.

End Observe.

Import Net Observe.

(** [clientOpts] with the verbose flag set or cleared. *)
Definition with_verbose (v : bool) (o : Part001.clientOpts) : Part001.clientOpts :=
  Part001.mkOpts (Part001.user o) (Part001.sender o) (Part001.domain o)
    (Part001.recipient o) (Part001.host o) (Part001.password o)
    (Part001.port o) v.

(** ** Sample runs *)

(** [-h mail.example.test -u alice@example.com -r bob@example.test] *)
Definition argv_plain : argv :=
  mkArgv false (Str "alice@example.com") Undefined (Str "bob@example.test")
         (Str "mail.example.test") Undefined Undefined false.

(** The same with [-p secret]. *)
Definition argv_password : argv :=
  mkArgv false (Str "alice@example.com") Undefined (Str "bob@example.test")
         (Str "mail.example.test") (Str "secret") Undefined false.

(** [-h mail.example.test -u alice -r bob@example.test]: the end-to-end
    scenario of the specification, a sender without [@]. *)
Definition argv_no_at : argv :=
  mkArgv false (Str "alice") Undefined (Str "bob@example.test")
         (Str "mail.example.test") Undefined Undefined false.

Definition opts_plain : Shokuhou.clientOpts :=
  Shokuhou.mkOpts "alice@example.com" "alice@example.com" (Some "example.com")
    "bob@example.test" "mail.example.test" None (PortNum 25).

Definition opts_secret : Shokuhou.clientOpts :=
  Shokuhou.mkOpts "alice@example.com" "alice@example.com" (Some "example.com")
    "bob@example.test" "mail.example.test" (Some "secret") (PortNum 25).

Definition opts_password : Part001.clientOpts :=
  Part001.mkOpts "alice@example.com" "alice@example.com" (Some "example.com")
    "bob@example.test" "mail.example.test" (Some "secret") (PortNum 25) false.

Definition refused : exn := ErrorObj "Error" "connect ECONNREFUSED 192.0.2.1:25".

(** The replies of a run that every stage accepts, cut to their codes:
    banner, greeting, MAIL FROM, RCPT TO, DATA, message. *)
Definition accepted_codes : list string :=
  ["220"; "250"; "250"; "251"; "354"; "250"].

(** The same with the three replies of the authentication block. *)
Definition accepted_codes_with_login : list string :=
  ["220"; "250"; "334"; "334"; "235"; "250"; "251"; "354"; "250"].

(* ===================================================================== *)
(** * [src/unnamed/part_000] *)
(* ===================================================================== *)

(** [part_000] is [shokuhou.js] without its lines 123-160: the argument
    block (lines 30-68) and the connect (83-89), banner (92-101), greeting
    (105-121) and QUIT (124-127) blocks are those of [shokuhou.js],
    character for character; only the idle timeout differs (5 seconds for
    30), which is not part of the model. *)
Module Part000.
Import Net.

(** The body of the [async] closure (lines 79-128). *)
Definition session (o : Shokuhou.clientOpts) : M unit :=
  Shokuhou.connectStage o ;;
  Shokuhou.bannerStage ;;
  Shokuhou.greetingStage o ;;
  Shokuhou.quitStage.

(** The statements of the script, in order: the argument block and the
    closure. *)
Definition main (a : argv) : M unit :=
  o <- try_catch (Shokuhou.resolveOpts a) (fun _ => Shokuhou.usage) ;;
  session o.

(** The whole script, the handlers of line 19 registered. *)
Definition script (e : engine) (a : argv) : M unit :=
  ErrorHandler.handled e (main a).

End Part000.

(* ===================================================================== *)
(** * What the operator sees *)
(* ===================================================================== *)

Module Report.
Import Net.

(** The texts handed to [console.error], in order. *)
Definition errors (t : list event) : list string :=
  flat_map (fun e => match e with Console Error text => [text] | _ => [] end) t.

(** The texts handed to [console.log], in order. *)
Definition logs (t : list event) : list string :=
  flat_map (fun e => match e with Console Log text => [text] | _ => [] end) t.

(** The arguments the first [try] block throws on: [--help], or no
    (or an empty) [-u], [-r] or [-h]. *)
Definition bad_arguments (a : argv) : bool :=
  arg_help a || negb (truthy (arg_u a)) || negb (truthy (arg_r a)) ||
  negb (truthy (arg_h a)).

(** The value is a string. *)
Definition is_text (v : value) : bool :=
  match v with
  | Str _ => true
  | _ => false
  end.

(** What the argument block takes as the sender, [argv.s || argv.u]. *)
Definition sender_of (a : argv) : value := or_else (arg_s a) (arg_u a).

(** The arguments the first [try] block ends in its [catch] clause on:
    those it throws on, and those that make the sender an array or an
    object ([-u], or [-s], given twice or with a dotted key), on which the
    call of [split] throws. *)
Definition refused_arguments (a : argv) : bool :=
  bad_arguments a || negb (is_text (sender_of a)).

(** The help text of [shokuhou.js] and [part_000]. *)
Definition usage_lines : list event :=
  [Console Log "Synatx: smtp-checker -h <server hostname/ip> -u <username> -r <recipient address>";
   Console Log "Optional parameters:";
   Console Log "--help: Displays this help message";
   Console Log "-s: Sender address, if different that the username";
   Console Log "-p: Password, if login is required";
   Console Log "-o: The port that the server is listening on; defaults to 25"].

(** The help text of [part_001]. *)
Definition usage_lines_verbose : list event :=
  usage_lines ++ [Console Log "-v: Run in verbose mode"].

(** The text of [s] before the first [c]; all of [s] when there is none. *)
Fixpoint before_first (c : ascii) (s : string) : string :=
  match s with
  | EmptyString => EmptyString
  | String a s' => if Ascii.eqb a c then EmptyString else String a (before_first c s')
  end.

Definition is_line_break (c : ascii) : bool :=
  Ascii.eqb c "013" || Ascii.eqb c "010".

(** [s] holds a CR or an LF. *)
Fixpoint has_line_break (s : string) : bool :=
  match s with
  | EmptyString => false
  | String c s' => is_line_break c || has_line_break s'
  end.

(** The lines of the transaction. *)
Definition ehlo_line (domain : option string) : string :=
  "EHLO " ++ Js.show domain ++ Js.CRLF.
Definition helo_line (domain : option string) : string :=
  "HELO " ++ Js.show domain ++ Js.CRLF.
Definition mail_line (sender : string) : string :=
  "MAIL FROM: <" ++ sender ++ ">" ++ Js.CRLF.
Definition rcpt_line (recipient : string) : string :=
  "RCPT TO: <" ++ recipient ++ ">" ++ Js.CRLF.
Definition data_line : string := "DATA" ++ Js.CRLF.
Definition quit_line : string := "QUIT" ++ Js.CRLF.

(** [btoa(s)] where it does not throw. *)
Definition encoded (s : string) : string :=
  match Js.btoa s with
  | Some text => text
  | None => EmptyString
  end.

(** The lines of the login, the credentials encoded. *)
Definition auth_lines (user : string) (password : option string) : list string :=
  [("AUTH LOGIN" ++ Js.CRLF)%string; (encoded user ++ Js.CRLF)%string;
   (encoded (Js.show password) ++ Js.CRLF)%string].

(** The first entry of the peer's script is a reply with status 220. *)
Definition banner_ok (status : string -> option string) (p : peer) : bool :=
  match replies p with
  | Data r :: _ => Js.loose_eq (status r) "220"
  | _ => false
  end.

(** A session writes nothing until it is connected and has read a banner
    with status 220; then the first thing it writes is EHLO. *)
Definition banner_gate (status : string -> option string) (run : M unit)
    (ehlo : string) (p : peer) : Prop :=
  (connect_fault p = None -> banner_ok status p = true ->
     hd_error (Observe.sent (run p)) = Some ehlo) /\
  (connect_fault p <> None \/ banner_ok status p = false ->
     Observe.sent (run p) = [] /\ res (run p) = Halt 0%Z).

(** What a stage or a session does on every path: it writes lines of
    [allowed] only; when it goes on it has printed no [console.error] and
    what it wrote is one of [outcomes]; when it exits, the code is 0 and it
    has printed exactly one [console.error]. *)
Definition behaves (m : M unit) (outcomes : list (list string))
    (allowed : list string) : Prop :=
  forall p,
    incl (Observe.sent (m p)) allowed /\
    match res (m p) with
    | Val _ => errors (trace (m p)) = [] /\ In (Observe.sent (m p)) outcomes
    | Raise _ => errors (trace (m p)) = []
    | Halt c => c = 0%Z /\ length (errors (trace (m p))) = 1
    end.

(** The lines of a whole transaction, in order: the greeting with or
    without the fallback, the login when there is one, the envelope, the
    message, QUIT. *)
Definition transaction (domain : option string) (fallback : bool)
    (login : list string) (sender recipient body : string) : list string :=
  [ehlo_line domain] ++ (if fallback then [helo_line domain] else []) ++ login ++
  [mail_line sender; rcpt_line recipient; data_line; body; quit_line].

Definition shokuhou_lines (o : Shokuhou.clientOpts) (fallback : bool) : list string :=
  transaction (Shokuhou.domain o) fallback [] (Shokuhou.sender o)
    (Shokuhou.recipient o) (Shokuhou.message_data o).

Definition part000_lines (o : Shokuhou.clientOpts) (fallback : bool) : list string :=
  [ehlo_line (Shokuhou.domain o)] ++
  (if fallback then [helo_line (Shokuhou.domain o)] else []) ++ [quit_line].

Definition part001_lines (o : Part001.clientOpts) (fallback : bool) : list string :=
  transaction (Part001.domain o) fallback
    (if Js.truthy (Part001.password o)
     then auth_lines (Part001.user o) (Part001.password o) else [])
    (Part001.sender o) (Part001.recipient o) (Part001.message_data o).

(** The options the argument block leaves, read off the arguments: the
    sender is [-s] when it is given and not empty, [-u] otherwise. *)
Definition shokuhou_options (a : argv) : Shokuhou.clientOpts :=
  let sender := text_of (sender_of a) in
  Shokuhou.mkOpts (text_of (arg_u a)) sender (Js.index (Js.split "@" 2 sender) 1)
    (text_of (arg_r a)) (text_of (arg_h a))
    (if truthy (arg_p a) then Some (text_of (arg_p a)) else None)
    (if truthy (arg_o a) then PortStr (text_of (arg_o a)) else PortNum 25).

Definition part001_options (a : argv) : Part001.clientOpts :=
  let sender := text_of (sender_of a) in
  Part001.mkOpts (text_of (arg_u a)) sender (Js.index (Js.split "@" 2 sender) 1)
    (text_of (arg_r a)) (text_of (arg_h a))
    (if truthy (arg_p a) then Some (text_of (arg_p a)) else None)
    (if truthy (arg_o a) then PortStr (text_of (arg_o a)) else PortNum 25)
    (arg_v a).

(** How a run of a whole script reports on itself.  When it exits, the
    code is 0, and it has printed no [console.error] when it exits with
    the help text ([usage]) and exactly one otherwise.  When it does not
    exit, either it has called [client.end()] last and printed no
    [console.error], or the closure was rejected: then the one
    [console.error] is the text of the rejection handler and the last
    thing printed, and the socket has not been released.  No exception
    leaves the script. *)
Definition reports (e : engine) (usage : bool) (x : outcome unit) : Prop :=
  match res x with
  | Val _ =>
      (errors (trace x) = [] /\ Observe.ends_with End (trace x)) \/
      (exists reason,
         errors (trace x) = [ErrorHandler.rejection_text e reason] /\
         Observe.ends_with (Console Error (ErrorHandler.rejection_text e reason))
           (trace x) /\
         Observe.released (trace x) = false)
  | Raise _ => False
  | Halt c => c = 0%Z /\ length (errors (trace x)) = (if usage then 0 else 1)
  end.

(** Every pair of a choice of [xs] followed by a choice of [ys]. *)
Definition followed_by (xs ys : list (list string)) : list (list string) :=
  flat_map (fun x => map (fun y => x ++ y) ys) xs.

(** The run [x] against the run [x'] of a script that goes on with MAIL
    FROM where the first one writes QUIT. *)
Definition quits_where_mail_starts (mail : string) (x x' : outcome unit) : Prop :=
  (forall c, res x = Halt c -> x' = x) /\
  (res x = Val tt ->
     exists before more,
       Observe.sent x = before ++ [quit_line] /\
       Observe.sent x' = before ++ mail :: more).

(** The one [console.error] of the run names the stage and quotes the
    reply. *)
Definition quotes (stage quoted : string) (x : outcome unit) : Prop :=
  errors (trace x) = [(stage ++ "Improper response: " ++ quoted)%string].

(** Every test of the four blocks, for a peer whose script starts with the
    replies [r1] and [r2]: the reply that fails the test is the one
    quoted, as [text] renders its bytes. *)
Definition quotes_the_refused_reply (status : string -> option string)
    (text : string -> string) (banner greeting initiation message : M unit)
    (p : peer) (r1 r2 : string) : Prop :=
  (status r1 <> Some "220" -> quotes at_banner (text r1) (banner p)) /\
  (status r1 <> Some "502" -> status r1 <> Some "250" ->
     quotes at_greeting (text r1) (greeting p)) /\
  (status r1 = Some "502" -> status r2 <> Some "250" ->
     quotes at_greeting (text r2) (greeting p)) /\
  (status r1 <> Some "250" -> quotes at_initiation (text r1) (initiation p)) /\
  (status r1 = Some "250" -> status r2 <> Some "250" -> status r2 <> Some "251" ->
     quotes at_initiation (text r2) (initiation p)) /\
  (status r1 <> Some "354" -> quotes at_message (text r1) (message p)) /\
  (status r1 = Some "354" -> status r2 <> Some "250" ->
     quotes at_message (text r2) (message p)).

(** One line: text without CR or LF, then CRLF. *)
Definition single_line (line : string) : Prop :=
  exists text, line = (text ++ Js.CRLF)%string /\ has_line_break text = false.

End Report.

(** [-u alice -s alice@example.com@evil.test]: a sender with two [@]. *)
Definition argv_two_ats : argv :=
  mkArgv false (Str "alice") (Str "alice@example.com@evil.test")
         (Str "bob@example.test") (Str "mail.example.test") Undefined Undefined false.

(* ===================================================================== *)
(** * Running a script by hand *)
(* ===================================================================== *)

Import Report.

Lemma healthy_cases (wf : list (option exn)) :
  Forall (fun f => f = None) wf ->
  wf = [] \/ exists wf', wf = None :: wf' /\ Forall (fun f => f = None) wf'.
Proof.
  intros H. destruct H as [|f wf' Hf Hwf]; [now left|].
  right. exists wf'. subst f. now split.
Qed.

Lemma loose_eq_true (v : option string) (s : string) :
  v = Some s <-> Js.loose_eq v s = true.
Proof.
  destruct v as [t|]; cbn.
  - rewrite String.eqb_eq. split; congruence.
  - split; discriminate.
Qed.

Lemma loose_eq_false (v : option string) (s : string) :
  v <> Some s <-> Js.loose_eq v s = false.
Proof.
  rewrite loose_eq_true. destruct (Js.loose_eq v s); split; congruence.
Qed.

(** ** Decoding a reply and reading its status *)

Lemma substring_nothing (s : string) : String.substring 0 0 s = EmptyString.
Proof. now destruct s. Qed.

Lemma ascii_eqb_apart (a c : ascii) :
  (N_of_ascii a <? 128)%N = false -> (N_of_ascii c <? 128)%N = true ->
  Ascii.eqb a c = false.
Proof.
  intros A C. apply Ascii.eqb_neq. intros ->. congruence.
Qed.

(** The decoder in the middle of a character gives text that starts with
    a byte that is not ASCII. *)
Lemma decode_pending (s : string) :
  forall a pending needed lo hi,
    (N_of_ascii a <? 128)%N = false ->
    exists x y,
      Js.decode_from (String a pending) (S needed) lo hi s = String x y /\
      (N_of_ascii x <? 128)%N = false.
Proof.
  induction s as [|c rest IH]; intros a pending needed lo hi A.
  - cbn. eexists; eexists; split; [reflexivity | reflexivity].
  - cbn [Js.decode_from].
    destruct ((lo <=? N_of_ascii c) && (N_of_ascii c <=? hi))%N.
    + destruct needed as [|n].
      * cbn [String.append]. eauto.
      * cbn [String.append]. apply IH. exact A.
    + cbn. eexists; eexists; split; [reflexivity | reflexivity].
Qed.

(** [decode] keeps a leading ASCII byte, and turns any other leading byte
    into text that starts with a byte that is not ASCII. *)
Lemma decode_cons (c : ascii) (rest : string) :
  ((N_of_ascii c <? 128)%N = true /\
   Js.decode (String c rest) = String c (Js.decode rest)) \/
  ((N_of_ascii c <? 128)%N = false /\
   exists x y, Js.decode (String c rest) = String x y /\
               (N_of_ascii x <? 128)%N = false).
Proof.
  unfold Js.decode. cbn [Js.decode_from]. unfold Js.lead_of.
  destruct (N_of_ascii c <? 128)%N eqn:A; [left; split; reflexivity|].
  right. split; [reflexivity|].
  repeat match goal with
  | |- context [if ?b then _ else _] => destruct b
  end;
  first [ now apply decode_pending
        | cbn; eexists; eexists; split; reflexivity ].
Qed.

Lemma decode_prefix (n : nat) :
  forall r c, Js.ascii_only c = true ->
    String.eqb (String.substring 0 n (Js.decode r)) c =
    String.eqb (String.substring 0 n r) c.
Proof.
  induction n as [|n IH]; intros r c C.
  - now rewrite !substring_nothing.
  - destruct r as [|a r]; [reflexivity|].
    destruct (decode_cons a r) as [(A & ->)|(A & x & y & -> & X)].
    + cbn [String.substring]. destruct c as [|c1 c]; [reflexivity|].
      cbn [String.eqb]. cbn [Js.ascii_only] in C. apply andb_prop in C.
      now rewrite (IH r c (proj2 C)).
    + cbn [String.substring]. destruct c as [|c1 c]; [reflexivity|].
      cbn [String.eqb]. cbn [Js.ascii_only] in C. apply andb_prop in C.
      now rewrite (ascii_eqb_apart x c1 X (proj1 C)), (ascii_eqb_apart a c1 A (proj1 C)).
Qed.

(** The status test of [shokuhou.js] gives the same answer on the decoded
    text as on the bytes of the reply. *)
Lemma decode_status (r c : string) :
  Js.ascii_only c = true ->
  String.eqb (Js.substring 0 3 (Js.decode r)) c = String.eqb (Js.substring 0 3 r) c.
Proof. apply decode_prefix. Qed.

(** A reply of ASCII characters is its own text. *)
Lemma decode_ascii (r : string) : Js.ascii_only r = true -> Js.decode r = r.
Proof.
  induction r as [|a r IH]; [reflexivity|].
  cbn [Js.ascii_only]. intros C. apply andb_prop in C. destruct C as (A & C).
  destruct (decode_cons a r) as [(_ & ->)|(A' & _)]; [|congruence].
  now rewrite (IH C).
Qed.

(** Take the peer apart. *)
Ltac open_peer p :=
  let cf := fresh "cf" in
  let rs := fresh "rs" in
  let wf := fresh "wf" in
  destruct p as [cf rs wf]; unfold healthy in *;
  cbn [replies write_faults connect_fault] in *.

(** Let the next write of a healthy peer go through. *)
Ltac next_write_ok :=
  match goal with
  | H : Forall (fun f => f = None) ?wf |- _ =>
      let wf' := fresh "wf" in
      let E := fresh "E" in
      let H' := fresh "H" in
      destruct (healthy_cases wf H) as [E | [wf' [E H']]]; subst wf; clear H
  end.

(** Run the script as far as the peer and the tests met so far decide. *)
Ltac exec :=
  cbv beta iota zeta delta
    [bind try_catch ret throw exit when console connect read write destroy
     end_ toString btoa next_reply next_write replies write_faults connect_fault
     res rest trace tl app negb andb
     Shokuhou.connectStage Shokuhou.bannerStage Shokuhou.greetingStage
     Shokuhou.initiationStage Shokuhou.messageStage Shokuhou.quitStage
     Part001.connectStage Part001.bannerStage Part001.greetingStage
     Part001.authenticationStage Part001.initiationStage
     Part001.messageStage Part001.quitStage
     Part001.debug_received Part001.debug_sent Part001.debug_encoded
     Part001.improper].

Ltac exec_in E :=
  cbv beta iota zeta delta
    [bind try_catch ret throw exit when console connect read write destroy
     end_ toString btoa next_reply next_write replies write_faults connect_fault
     res rest trace tl app negb andb
     Shokuhou.connectStage Shokuhou.bannerStage Shokuhou.greetingStage
     Shokuhou.initiationStage Shokuhou.messageStage Shokuhou.quitStage
     Part001.connectStage Part001.bannerStage Part001.greetingStage
     Part001.authenticationStage Part001.initiationStage
     Part001.messageStage Part001.quitStage
     Part001.debug_received Part001.debug_sent Part001.debug_encoded
     Part001.improper] in E.

(** Turn what is known of a status into the test the script makes. *)
Ltac tests :=
  unfold leading3 in *; cbn [Js.loose_eq] in *;
  repeat match goal with
  | H : ~ (_ \/ _) |- _ => apply Decidable.not_or in H; destruct H
  | H : ?v = Some _ :> option string |- _ =>
      lazymatch v with Js.btoa _ => fail | _ => idtac end;
      apply loose_eq_true in H; cbn [Js.loose_eq] in H
  | H : ?v <> Some _ :> option string |- _ =>
      lazymatch v with Js.btoa _ => fail | _ => idtac end;
      apply loose_eq_false in H; cbn [Js.loose_eq] in H
  | H : _ = _ :> string |- _ => apply String.eqb_eq in H
  | H : _ <> _ :> string |- _ => apply String.eqb_neq in H
  end.

Ltac use_tests :=
  rewrite ?decode_status by reflexivity;
  repeat match goal with
  | H : String.eqb _ _ = _ |- _ => rewrite H
  | H : Js.loose_eq _ _ = _ |- _ => rewrite H
  | H : Js.truthy _ = _ |- _ => rewrite H
  | H : Js.btoa _ = _ |- _ => rewrite H
  | H : Part001.verbose _ = _ |- _ => rewrite H
  end.

Ltac use_tests_in E :=
  rewrite ?decode_status in E by reflexivity;
  repeat match goal with
  | H : String.eqb _ _ = _ |- _ => rewrite H in E
  | H : Js.loose_eq _ _ = _ |- _ => rewrite H in E
  | H : Js.truthy _ = _ |- _ => rewrite H in E
  | H : Js.btoa _ = _ |- _ => rewrite H in E
  | H : Part001.verbose _ = _ |- _ => rewrite H in E
  end.

Ltac run := repeat (progress (exec; use_tests)).

Ltac run_in E := repeat (progress (exec_in E; use_tests_in E)).

(** Run the script [f] once against the peer it is applied to in the goal,
    and put the outcome in its place. *)
Ltac outcome_of f :=
  match goal with
  | |- context [f ?p] =>
      let v := fresh "x" in
      let E := fresh "E" in
      remember (f p) as v eqn:E; run_in E; subst v; cbn [res rest trace]
  end.

Ltac show_failed :=
  split; [reflexivity |
    match goal with
    | |- exists before detail, ?t = _ =>
        exists (removelast (removelast t)); eexists; reflexivity
    end].

Ltac show_ends :=
  match goal with
  | |- ends_with _ ?t => exists (removelast t); reflexivity
  end.

(** Close what is left once the run is known: equalities of computed
    values, a test that contradicts what is known, a failure to show. *)
Ltac settle_one :=
  tests;
  first
    [ reflexivity
    | congruence
    | discriminate
    | exact I
    | apply loose_eq_true; cbn [Js.loose_eq]; assumption
    | apply loose_eq_false; cbn [Js.loose_eq]; assumption
    | left; apply loose_eq_true; cbn [Js.loose_eq]; assumption
    | right; apply loose_eq_true; cbn [Js.loose_eq]; assumption
    | unfold failed_at; cbn [res trace]; show_failed
    | show_ends
    | match goal with H : _ \/ _ |- _ => destruct H; tests; congruence end ].

Ltac settle :=
  repeat match goal with
  | |- _ /\ _ => split
  | |- _ <-> _ => split
  | |- forall _, _ => intro
  | |- ~ _ => intro
  end;
  try settle_one.

(** Case analysis on whatever the run waits for: the next entry of the
    peer's script, or a test on a status. *)
Ltac branch :=
  match goal with
  | |- context [match ?v with _ => _ end] =>
      first
        [ is_var v; destruct v
        | match v with
          | String.eqb _ _ => idtac
          | Js.loose_eq _ _ => idtac
          | Js.truthy _ => idtac
          | Js.btoa _ => idtac
          | Part001.verbose _ => idtac
          end;
          destruct v eqn:? ]
  end.

Ltac explore := run; repeat (branch; run).

(* ===================================================================== *)
(** * Greeting *)
(* ===================================================================== *)

Section Greeting.

Lemma shokuhou_greeting (o : Shokuhou.clientOpts) p r1 rs :
  healthy p -> replies p = Data r1 :: rs ->
  greeting_exchange leading3 (Js.show (Shokuhou.domain o)) r1 rs
    (Shokuhou.greetingStage o p).
Proof.
  intros H E. open_peer p. subst.
  unfold greeting_exchange, accepted_iff, at_greeting, sent.
  split.
  - intros N.
    destruct (Js.loose_eq (leading3 r1) "250") eqn:Y; tests;
      do 2 (try next_write_ok); outcome_of (Shokuhou.greetingStage o); settle.
  - intros N. split.
    + tests. do 2 (try next_write_ok); explore; reflexivity.
    + intros r2 rs' ->.
      destruct (Js.loose_eq (leading3 r2) "250") eqn:Y; tests;
        do 2 (try next_write_ok); outcome_of (Shokuhou.greetingStage o); settle.
Qed.

Lemma part001_greeting g (o : Part001.clientOpts) p r1 rs :
  healthy p -> replies p = Data r1 :: rs ->
  greeting_exchange (fun r => g (Some r)) (Js.show (Part001.domain o)) r1 rs
    (Part001.greetingStage g o p).
Proof.
  intros H E. open_peer p. subst.
  unfold greeting_exchange, accepted_iff, at_greeting, sent.
  destruct (Part001.verbose o) eqn:V.
  all: split;
    [ intros N;
      destruct (Js.loose_eq (g (Some r1)) "250") eqn:Y; tests;
      do 2 (try next_write_ok); outcome_of (Part001.greetingStage g o); settle
    | intros N; split;
      [ tests; do 2 (try next_write_ok); explore; reflexivity
      | intros r2 rs' ->;
        destruct (Js.loose_eq (g (Some r2)) "250") eqn:Y; tests;
        do 2 (try next_write_ok); outcome_of (Part001.greetingStage g o); settle ] ].
Qed.

End Greeting.

(** C1.  At the Greeting stage the session first sends [EHLO <domain>];
    exactly when the status of the reply is 502 it sends [HELO <domain>],
    once, and tests the reply to that against 250; whatever the exchange,
    a last reply whose status is not 250 (a second 502 included) ends the
    run in the [catch] clause of the greeting, with nothing more sent.
    Both revisions: [shokuhou.js] reads the status with [substring(0,3)],
    [part_001] with whatever [getStatus] is. *)
Theorem greeting_falls_back_to_helo_once
    (g : option string -> option string)
    (o : Shokuhou.clientOpts) (o' : Part001.clientOpts)
    (p : peer) (r1 : string) (rs : list incoming) :
  healthy p ->
  replies p = Data r1 :: rs ->
  greeting_exchange leading3 (Js.show (Shokuhou.domain o)) r1 rs
    (Shokuhou.greetingStage o p) /\
  greeting_exchange (fun r => g (Some r)) (Js.show (Part001.domain o')) r1 rs
    (Part001.greetingStage g o' p).
Proof.
  intros H E. split.
  - now apply shokuhou_greeting.
  - now apply part001_greeting.
Qed.

Lemma greeting_falls_back_to_helo_once_witness :
  greeting_exchange leading3 "example.com" "502 unknown command"
    [Data "250 hello"]
    (Shokuhou.greetingStage opts_plain
       (serve ["502 unknown command"; "250 hello"])) /\
  greeting_exchange (fun r => GetStatus.getStatus (Some r)) "example.com"
    "502 unknown command" [Data "250 hello"]
    (Part001.greetingStage GetStatus.getStatus opts_password
       (serve ["502 unknown command"; "250 hello"])).
Proof.
  exact (greeting_falls_back_to_helo_once GetStatus.getStatus opts_plain
           opts_password (serve ["502 unknown command"; "250 hello"])
           "502 unknown command" [Data "250 hello"]
           (Forall_nil _) eq_refl).
Defined.

(** The two scenarios of the specification, run. *)
Example fallback_then_accepted :
  let x := Shokuhou.greetingStage opts_plain (serve ["502 no"; "250 hello"]) in
  res x = Val tt /\
  sent x = [("EHLO example.com" ++ Js.CRLF)%string; ("HELO example.com" ++ Js.CRLF)%string].
Proof. split; reflexivity. Qed.

Example fallback_refused_twice :
  let x := Part001.greetingStage GetStatus.getStatus opts_password
             (serve ["502 no"; "502 no"; "250 late"]) in
  res x = Halt 0%Z /\
  sent x = [("EHLO example.com" ++ Js.CRLF)%string; ("HELO example.com" ++ Js.CRLF)%string] /\
  replies (rest x) = [Data "250 late"] /\
  released (trace x) = true.
Proof. repeat split; reflexivity. Qed.

(* ===================================================================== *)
(** * Authentication *)
(* ===================================================================== *)

Lemma part001_no_password g (o : Part001.clientOpts) p :
  Js.truthy (Part001.password o) = false ->
  Part001.authenticationStage g o p = Out (Val tt) p [].
Proof.
  intros T. unfold Part001.authenticationStage. rewrite T. reflexivity.
Qed.

Lemma part001_authentication g (o : Part001.clientOpts) p r1 r2 r3 rs :
  Js.truthy (Part001.password o) = true ->
  healthy p ->
  replies p = Data r1 :: Data r2 :: Data r3 :: rs ->
  authentication_exchange (fun r => g (Some r)) (Part001.user o)
    (Js.show (Part001.password o)) r1 r2 r3
    (Part001.authenticationStage g o p).
Proof.
  intros T H E. open_peer p. subst.
  unfold authentication_exchange, accepted_iff, at_authentication, sent.
  destruct (Part001.verbose o) eqn:V;
    destruct (Js.btoa (Part001.user o)) as [login64|] eqn:B1;
    destruct (Js.btoa (Js.show (Part001.password o))) as [secret64|] eqn:B2.
  all: split; [|intros Y1; try split; try intros Y2].
  all: intros; try destruct (Js.loose_eq (g (Some r3)) "235") eqn:Y; tests;
    do 3 (try next_write_ok); outcome_of (Part001.authenticationStage g o); settle.
Qed.

(* ===================================================================== *)
(** * Recipient-To *)
(* ===================================================================== *)

Lemma shokuhou_message_starts_with_data (o : Shokuhou.clientOpts) :
  starts_with_data (Shokuhou.messageStage o).
Proof.
  intros [cf rs wf]. unfold sent. explore; eexists; reflexivity.
Qed.

Lemma part001_message_starts_with_data g (o : Part001.clientOpts) :
  starts_with_data (Part001.messageStage g o).
Proof.
  intros [cf rs wf]. unfold sent. explore; eexists; reflexivity.
Qed.

Ltac then_data Hnext :=
  run;
  match goal with
  | |- context [match ?next ?q with _ => _ end] =>
      let more := fresh "more" in
      let Em := fresh "Em" in
      destruct (Hnext q) as [more Em]; unfold sent in Em;
      destruct (next q) as [? ? ?]; cbn [trace writes flat_map app] in *;
      rewrite Em; reflexivity
  end.

Lemma shokuhou_rcpt (o : Shokuhou.clientOpts) next p r1 r2 rs :
  starts_with_data next ->
  healthy p ->
  replies p = Data r1 :: Data r2 :: rs ->
  leading3 r1 = Some "250" ->
  rcpt_decision leading3 (Shokuhou.sender o) (Shokuhou.recipient o)
    (Shokuhou.initiationStage o) next p r2.
Proof.
  intros Hnext H E M. open_peer p. subst.
  unfold rcpt_decision, accepted_iff, at_initiation, sent.
  destruct (Js.loose_eq (leading3 r2) "250") eqn:Y1;
    destruct (Js.loose_eq (leading3 r2) "251") eqn:Y2; tests;
    do 2 (try next_write_ok).
  all: split; [outcome_of (Shokuhou.initiationStage o); settle|].
  all: split; [outcome_of (Shokuhou.initiationStage o); reflexivity|].
  all: split; [intros OK; try (exfalso; destruct OK; tests; congruence);
               then_data Hnext
              | intros NOK k; try (exfalso; apply NOK; settle_one);
                run; split; reflexivity ].
Qed.

Lemma part001_rcpt g (o : Part001.clientOpts) next p r1 r2 rs :
  starts_with_data next ->
  healthy p ->
  replies p = Data r1 :: Data r2 :: rs ->
  g (Some r1) = Some "250" ->
  rcpt_decision (fun r => g (Some r)) (Part001.sender o) (Part001.recipient o)
    (Part001.initiationStage g o) next p r2.
Proof.
  intros Hnext H E M. open_peer p. subst.
  unfold rcpt_decision, accepted_iff, at_initiation, sent.
  destruct (Part001.verbose o) eqn:V;
    destruct (Js.loose_eq (g (Some r2)) "250") eqn:Y1;
    destruct (Js.loose_eq (g (Some r2)) "251") eqn:Y2; tests;
    do 2 (try next_write_ok).
  all: split; [outcome_of (Part001.initiationStage g o); settle|].
  all: split; [outcome_of (Part001.initiationStage g o); reflexivity|].
  all: split; [intros OK; try (exfalso; destruct OK; tests; congruence);
               then_data Hnext
              | intros NOK k; try (exfalso; apply NOK; settle_one);
                run; split; reflexivity ].
Qed.

(** C3.  After an accepted MAIL FROM the session writes RCPT TO for the
    configured recipient; it goes on, and the next thing it writes is DATA,
    exactly when the status of the reply is 250 or 251; on every other
    status the run ends in the [catch] clause of the initiation block
    ([client.destroy()], [process.exit(0)]) and nothing that follows in the
    script is run. *)
Theorem rcpt_accepts_250_and_251
    (g : option string -> option string)
    (o : Shokuhou.clientOpts) (o' : Part001.clientOpts)
    (p : peer) (r1 r2 : string) (rs : list incoming) :
  healthy p ->
  replies p = Data r1 :: Data r2 :: rs ->
  leading3 r1 = Some "250" ->
  g (Some r1) = Some "250" ->
  rcpt_decision leading3 (Shokuhou.sender o) (Shokuhou.recipient o)
    (Shokuhou.initiationStage o) (Shokuhou.messageStage o) p r2 /\
  rcpt_decision (fun r => g (Some r)) (Part001.sender o') (Part001.recipient o')
    (Part001.initiationStage g o') (Part001.messageStage g o') p r2.
Proof.
  intros H E M M'. split.
  - apply shokuhou_rcpt with (r1 := r1) (rs := rs); auto.
    apply shokuhou_message_starts_with_data.
  - apply part001_rcpt with (r1 := r1) (rs := rs); auto.
    apply part001_message_starts_with_data.
Qed.

Lemma rcpt_accepts_250_and_251_witness :
  let p := serve ["250 sender ok"; "251 user not local; will forward"; "354 go ahead"] in
  rcpt_decision leading3 "alice@example.com" "bob@example.test"
    (Shokuhou.initiationStage opts_plain) (Shokuhou.messageStage opts_plain)
    p "251 user not local; will forward" /\
  rcpt_decision (fun r => GetStatus.getStatus (Some r))
    "alice@example.com" "bob@example.test"
    (Part001.initiationStage GetStatus.getStatus opts_password)
    (Part001.messageStage GetStatus.getStatus opts_password)
    p "251 user not local; will forward".
Proof.
  exact (rcpt_accepts_250_and_251 GetStatus.getStatus opts_plain opts_password
           (serve ["250 sender ok"; "251 user not local; will forward"; "354 go ahead"])
           "250 sender ok" "251 user not local; will forward" [Data "354 go ahead"]
           (Forall_nil _) eq_refl eq_refl eq_refl).
Defined.

(** The scenario of the specification: [251 forwarding] goes on to DATA. *)
Example rcpt_251_goes_on_to_data :
  sent (bind (Shokuhou.initiationStage opts_plain)
          (fun _ => Shokuhou.messageStage opts_plain)
          (serve ["250 ok"; "251 forwarding"])) =
  [("MAIL FROM: <alice@example.com>" ++ Js.CRLF)%string;
   ("RCPT TO: <bob@example.test>" ++ Js.CRLF)%string;
   ("DATA" ++ Js.CRLF)%string].
Proof. reflexivity. Qed.

(* ===================================================================== *)
(** * Data *)
(* ===================================================================== *)

Lemma append_assoc (a b c : string) :
  ((a ++ b) ++ c = a ++ (b ++ c))%string.
Proof.
  induction a as [|x a IH]; cbn; [reflexivity | now rewrite IH].
Qed.

Lemma shokuhou_message_data_ends_with_dot (o : Shokuhou.clientOpts) :
  exists text,
    Shokuhou.message_data o = (text ++ Js.CRLF ++ "." ++ Js.CRLF)%string.
Proof.
  exists ("From: <" ++ Shokuhou.sender o ++ ">" ++ Js.CRLF ++
          "To: <" ++ Shokuhou.recipient o ++ ">" ++ Js.CRLF ++
          "Subject: SMTP Test Email" ++ Js.CRLF ++ Js.CRLF ++
          "If you have received this email, your SMTP server is configured correctly")%string.
  unfold Shokuhou.message_data. now rewrite !append_assoc.
Qed.

Lemma part001_message_data_ends_with_dot (o : Part001.clientOpts) :
  exists text,
    Part001.message_data o = (text ++ Js.CRLF ++ "." ++ Js.CRLF)%string.
Proof.
  exists ("From: <" ++ Part001.sender o ++ ">" ++ Js.CRLF ++
          "To: <" ++ Part001.recipient o ++ ">" ++ Js.CRLF ++
          "Subject: SMTP Test Email" ++ Js.CRLF ++ Js.CRLF ++
          "If you have received this email, your SMTP server is configured correctly")%string.
  unfold Part001.message_data. now rewrite !append_assoc.
Qed.

Ltac no_quit :=
  cbn [writes flat_map app In]; intros F;
  repeat match goal with
  | H : _ \/ _ |- _ => destruct H
  | H : False |- _ => destruct H
  | H : _ = _ :> string |- _ => cbn in H; discriminate H
  end.

Lemma shokuhou_data (o : Shokuhou.clientOpts) p r1 rs :
  healthy p ->
  replies p = Data r1 :: rs ->
  data_exchange leading3 (Shokuhou.message_data o)
    (Shokuhou.messageStage o) Shokuhou.quitStage p r1 rs.
Proof.
  intros H E. open_peer p. subst.
  unfold data_exchange, accepted_iff, at_message, sent.
  split; [| split; [| apply shokuhou_message_data_ends_with_dot]].
  - intros N. tests. do 2 (try next_write_ok);
      outcome_of (Shokuhou.messageStage o); settle.
  - intros N r2 rs' ->.
    destruct (Js.loose_eq (leading3 r2) "250") eqn:Y; tests;
      do 2 (try next_write_ok).
    all: split; [outcome_of (Shokuhou.messageStage o); reflexivity|].
    all: split; [outcome_of (Shokuhou.messageStage o); settle|].
    all: intros NY; try (tests; congruence).
    all: run; split; [reflexivity | split; [no_quit | show_ends]].
Qed.

Lemma part001_data g (o : Part001.clientOpts) p r1 rs :
  healthy p ->
  replies p = Data r1 :: rs ->
  data_exchange (fun r => g (Some r)) (Part001.message_data o)
    (Part001.messageStage g o) (Part001.quitStage o) p r1 rs.
Proof.
  intros H E. open_peer p. subst.
  unfold data_exchange, accepted_iff, at_message, sent.
  destruct (Part001.verbose o) eqn:V.
  all: split; [| split; [| apply part001_message_data_ends_with_dot]].
  all: try (intros N; tests; do 2 (try next_write_ok);
      outcome_of (Part001.messageStage g o); settle; fail).
  all: intros N r2 rs' ->;
    destruct (Js.loose_eq (g (Some r2)) "250") eqn:Y; tests;
      do 2 (try next_write_ok).
  all: split; [outcome_of (Part001.messageStage g o); reflexivity|].
  all: split; [outcome_of (Part001.messageStage g o); settle|].
  all: intros NY; try (tests; congruence).
  all: run; split; [reflexivity | split; [no_quit | show_ends]].
Qed.

(** C4.  The message block writes DATA; it writes the message only when
    the status of the reply is 354; the message ends with the line [.];
    the block goes on exactly when the status of the reply to the message
    is 250, and on any other status (550, say) the run ends in the [catch]
    clause of the block: QUIT is never written, and [client.destroy()] is
    the last thing the run does. *)
Theorem data_body_needs_354_then_250
    (g : option string -> option string)
    (o : Shokuhou.clientOpts) (o' : Part001.clientOpts)
    (p : peer) (r1 : string) (rs : list incoming) :
  healthy p ->
  replies p = Data r1 :: rs ->
  data_exchange leading3 (Shokuhou.message_data o)
    (Shokuhou.messageStage o) Shokuhou.quitStage p r1 rs /\
  data_exchange (fun r => g (Some r)) (Part001.message_data o')
    (Part001.messageStage g o') (Part001.quitStage o') p r1 rs.
Proof.
  intros H E. split.
  - now apply shokuhou_data.
  - now apply part001_data.
Qed.

Lemma data_body_needs_354_then_250_witness :
  let p := serve ["354 end with ."; "550 rejected"] in
  data_exchange leading3 (Shokuhou.message_data opts_plain)
    (Shokuhou.messageStage opts_plain) Shokuhou.quitStage
    p "354 end with ." [Data "550 rejected"] /\
  data_exchange (fun r => GetStatus.getStatus (Some r))
    (Part001.message_data opts_password)
    (Part001.messageStage GetStatus.getStatus opts_password)
    (Part001.quitStage opts_password)
    p "354 end with ." [Data "550 rejected"].
Proof.
  exact (data_body_needs_354_then_250 GetStatus.getStatus opts_plain
           opts_password (serve ["354 end with ."; "550 rejected"])
           "354 end with ." [Data "550 rejected"] (Forall_nil _) eq_refl).
Defined.

(** The scenario of the specification: 550 to the message. *)
Example body_refused_with_550 :
  let x := Shokuhou.main argv_plain
             (serve ["220 ready"; "250 hello"; "250 ok"; "250 ok";
                     "354 go ahead"; "550 rejected"]) in
  res x = Halt 0%Z /\
  sent x = [("EHLO example.com" ++ Js.CRLF)%string;
            ("MAIL FROM: <alice@example.com>" ++ Js.CRLF)%string;
            ("RCPT TO: <bob@example.test>" ++ Js.CRLF)%string;
            ("DATA" ++ Js.CRLF)%string;
            Shokuhou.message_data opts_plain] /\
  ends_with Destroy (trace x).
Proof.
  cbv zeta. repeat split; try reflexivity. show_ends.
Qed.

(* ===================================================================== *)
(** * Authentication in [shokuhou.js] *)
(* ===================================================================== *)

(** C2, on [shokuhou.js].  Run with [-p secret] against a server that
    accepts every step, the script stores the password and completes
    without ever writing AUTH LOGIN: MAIL FROM follows the greeting. *)
Theorem shokuhou_never_authenticates :
  let p := serve ["220 ready"; "250 hello"; "250 ok"; "250 ok";
                  "354 go ahead"; "250 queued"] in
  (exists o q,
     Shokuhou.resolveOpts argv_password p = Out (Val o) q [] /\
     Shokuhou.password o = Some "secret") /\
  res (Shokuhou.main argv_password p) = Val tt /\
  sent (Shokuhou.main argv_password p) =
    [("EHLO example.com" ++ Js.CRLF)%string;
     ("MAIL FROM: <alice@example.com>" ++ Js.CRLF)%string;
     ("RCPT TO: <bob@example.test>" ++ Js.CRLF)%string;
     ("DATA" ++ Js.CRLF)%string;
     Shokuhou.message_data opts_plain;
     ("QUIT" ++ Js.CRLF)%string] /\
  ~ In ("AUTH LOGIN" ++ Js.CRLF)%string (sent (Shokuhou.main argv_password p)).
Proof.
  cbv zeta. split; [eexists; eexists; split; reflexivity|].
  split; [reflexivity|]. split; [reflexivity|].
  intros F. cbv in F. intuition discriminate.
Qed.

(** The same arguments and the same server with AUTH LOGIN answered, on
    [part_001]: the three lines of the sub-chain go out between the
    greeting and MAIL FROM. *)
Example part001_authenticates :
  let p := serve ["220 ready"; "250 hello"; "334 VXNlcm5hbWU6";
                  "334 UGFzc3dvcmQ6"; "235 authenticated"; "250 ok"; "250 ok";
                  "354 go ahead"; "250 queued"] in
  let x := Part001.main GetStatus.getStatus argv_password p in
  res x = Val tt /\
  sent x =
    [("EHLO example.com" ++ Js.CRLF)%string;
     ("AUTH LOGIN" ++ Js.CRLF)%string;
     ("YWxpY2VAZXhhbXBsZS5jb20=" ++ Js.CRLF)%string;
     ("c2VjcmV0" ++ Js.CRLF)%string;
     ("MAIL FROM: <alice@example.com>" ++ Js.CRLF)%string;
     ("RCPT TO: <bob@example.test>" ++ Js.CRLF)%string;
     ("DATA" ++ Js.CRLF)%string;
     Part001.message_data opts_password;
     ("QUIT" ++ Js.CRLF)%string].
Proof. split; reflexivity. Qed.

(** X1.  The authentication sub-chain of [part_001]: nothing at all without
    a password; with one, AUTH LOGIN (334), base64 of the user on a line
    of its own (334), base64 of the password on a line of its own (235),
    and the [catch] clause of the block on any other status.  Each
    credential is encoded when its line is due: when [btoa] throws on it
    (a character above U+00FF) the block ends in its [catch] clause there,
    with the lines before it written and nothing after. *)
Theorem part001_authentication_chain
    (g : option string -> option string) (o : Part001.clientOpts)
    (p : peer) (r1 r2 r3 : string) (rs : list incoming) :
  (Js.truthy (Part001.password o) = false ->
     Part001.authenticationStage g o p = Out (Val tt) p []) /\
  (Js.truthy (Part001.password o) = true ->
     healthy p ->
     replies p = Data r1 :: Data r2 :: Data r3 :: rs ->
     authentication_exchange (fun r => g (Some r)) (Part001.user o)
       (Js.show (Part001.password o)) r1 r2 r3
       (Part001.authenticationStage g o p)).
Proof.
  split.
  - apply part001_no_password.
  - intros. eapply part001_authentication; eauto.
Qed.

(** A password with a character above U+00FF (here U+65E5, the bytes
    E6 97 A5): [btoa] throws when its turn comes, after AUTH LOGIN and the
    user name have gone out, and the run ends in the [catch] clause of the
    block whatever the server answers. *)
Example password_beyond_latin1 :
  let secret := String "230" (String "151" (String "165" "")) in
  let o := Part001.mkOpts "alice@example.com" "alice@example.com" (Some "example.com")
             "bob@example.test" "mail.example.test" (Some secret) (PortNum 25) false in
  let x := Part001.authenticationStage GetStatus.getStatus o
             (serve ["334 VXNlcm5hbWU6"; "334 UGFzc3dvcmQ6"; "235 ok"]) in
  Js.btoa secret = None /\
  res x = Halt 0%Z /\
  sent x = [("AUTH LOGIN" ++ Js.CRLF)%string;
            ("YWxpY2VAZXhhbXBsZS5jb20=" ++ Js.CRLF)%string] /\
  trace x =
    [Console Log "[*] Attempting authentication";
     Write ("AUTH LOGIN" ++ Js.CRLF);
     Write ("YWxpY2VAZXhhbXBsZS5jb20=" ++ Js.CRLF);
     Console Error "[X] An error occurred during authentication: Invalid character";
     Destroy].
Proof. repeat split. Qed.

(* ===================================================================== *)
(** * Response parsing *)
(* ===================================================================== *)

Lemma getStatus_cases (resp : option string) :
  GetStatus.getStatus resp = None \/
  exists code tail,
    resp = Some (code ++ tail)%string /\ is_code code = true /\
    GetStatus.getStatus resp = Some code.
Proof.
  destruct resp as [[|a [|b [|c tail]]]|]; cbn; auto.
  destruct (GetStatus.is_digit a && GetStatus.is_digit b && GetStatus.is_digit c) eqn:D;
    auto.
  right. exists (String a (String b (String c EmptyString))), tail.
  cbn. auto.
Qed.

Lemma getStatus_idempotent (resp : option string) :
  GetStatus.getStatus (GetStatus.getStatus resp) = GetStatus.getStatus resp.
Proof.
  destruct resp as [[|a [|b [|c tail]]]|]; cbn; auto.
  destruct (GetStatus.is_digit a && GetStatus.is_digit b && GetStatus.is_digit c) eqn:D;
    cbn; [now rewrite D | reflexivity].
Qed.

Lemma substring_idempotent (r : string) :
  Js.substring 0 3 (Js.substring 0 3 r) = Js.substring 0 3 r.
Proof.
  destruct r as [|a [|b [|c tail]]]; cbn; try reflexivity.
  now destruct tail.
Qed.

(** On a status code the helper and the in-line test of [shokuhou.js]
    agree. *)
Lemma getStatus_agrees_with_substring (r code : string) :
  is_code code = true ->
  GetStatus.getStatus (Some r) = Some code <-> Js.substring 0 3 r = code.
Proof.
  intros C.
  destruct code as [|x [|y [|z [|? ?]]]]; try discriminate C.
  destruct r as [|a [|b [|c tail]]]; cbn.
  1-3: split; discriminate.
  assert (S3 : String.substring 0 0 tail = EmptyString) by now destruct tail.
  rewrite S3. split.
  - destruct (GetStatus.is_digit a && GetStatus.is_digit b && GetStatus.is_digit c);
      congruence.
  - intros [= -> -> ->]. cbn in C. now rewrite C.
Qed.

Lemma getStatus_prefix_only (a b : string) :
  Js.substring 0 3 a = Js.substring 0 3 b ->
  GetStatus.getStatus (Some a) = GetStatus.getStatus (Some b).
Proof.
  destruct a as [|a1 [|a2 [|a3 ta]]]; destruct b as [|b1 [|b2 [|b3 tb]]];
    cbn; try discriminate; try reflexivity.
  intros [= -> -> -> _]. reflexivity.
Qed.

Lemma getStatus_of_code (code tail : string) :
  is_code code = true ->
  GetStatus.getStatus (Some (code ++ tail)%string) = Some code.
Proof.
  intros C. destruct code as [|x [|y [|z [|? ?]]]]; try discriminate C.
  cbn in *. now rewrite C.
Qed.

Example same_code_same_status :
  GetStatus.getStatus (Some "250-mail.example.test") =
  GetStatus.getStatus (Some "250 ok").
Proof. now apply getStatus_prefix_only. Qed.

(** C5.  Response parsing is a total function from what was read to a
    status: for every input, the empty reply and [undefined] included, it
    yields the three-character leading status code of the reply, or the
    no-code sentinel when the reply does not start with three digits; it
    yields 220 on [220 ok\r\n]; parsing what was parsed changes nothing.
    The in-line test of [shokuhou.js], [toString().substring(0,3)], is
    idempotent too, yields 220 on the same reply, and agrees with the
    helper on every status code. *)
Theorem response_parsing_total_idempotent :
  (forall resp,
     GetStatus.getStatus resp = None \/
     exists code tail,
       resp = Some (code ++ tail)%string /\ is_code code = true /\
       GetStatus.getStatus resp = Some code) /\
  (forall code tail,
     is_code code = true ->
     GetStatus.getStatus (Some (code ++ tail)%string) = Some code) /\
  GetStatus.getStatus (Some ("220 ok" ++ Js.CRLF)%string) = Some "220" /\
  GetStatus.getStatus (Some EmptyString) = None /\
  GetStatus.getStatus None = None /\
  (forall resp,
     GetStatus.getStatus (GetStatus.getStatus resp) = GetStatus.getStatus resp) /\
  Js.substring 0 3 ("220 ok" ++ Js.CRLF) = "220" /\
  Js.substring 0 3 EmptyString = EmptyString /\
  (forall r, Js.substring 0 3 (Js.substring 0 3 r) = Js.substring 0 3 r) /\
  (forall r code,
     is_code code = true ->
     (GetStatus.getStatus (Some r) = Some code <-> Js.substring 0 3 r = code)).
Proof.
  split; [exact getStatus_cases|].
  split; [exact getStatus_of_code|].
  do 3 (split; [reflexivity|]).
  split; [exact getStatus_idempotent|].
  do 2 (split; [reflexivity|]).
  split; [exact substring_idempotent | exact getStatus_agrees_with_substring].
Qed.

(* ===================================================================== *)
(** * The sender's domain *)
(* ===================================================================== *)

Lemma split_all_no_separator (c : ascii) (s : string) :
  occurrences c s = 0 -> Js.split_all c s = [s].
Proof.
  induction s as [|a s IH]; cbn; [reflexivity|].
  destruct (Ascii.eqb a c); [discriminate|].
  intros H. now rewrite (IH H).
Qed.

Lemma split_all_one_separator (c : ascii) (s : string) :
  occurrences c s = 1 ->
  exists before, Js.split_all c s = [before; after_first c s].
Proof.
  induction s as [|a s IH]; cbn; [discriminate|].
  destruct (Ascii.eqb a c).
  - intros [= H]. exists EmptyString. now rewrite (split_all_no_separator c s H).
  - intros H. destruct (IH H) as [before E]. rewrite E. now exists (String a before).
Qed.

Lemma domain_of_one_at (s : string) :
  occurrences "@" s = 1 ->
  Js.index (Js.split "@" 2 s) 1 = Some (after_first "@" s).
Proof.
  intros H. destruct (split_all_one_separator _ _ H) as [before E].
  unfold Js.split. now rewrite E.
Qed.

Lemma domain_of_no_at (s : string) :
  occurrences "@" s = 0 ->
  Js.index (Js.split "@" 2 s) 1 = None.
Proof.
  intros H. unfold Js.split. now rewrite (split_all_no_separator _ _ H).
Qed.

(** ** What the argument block leaves *)

(** Take the arguments apart, as far as the block looks at them. *)
Ltac open_argv a :=
  destruct a as [hp u s r h pw po v];
  unfold refused_arguments, bad_arguments, sender_of, shokuhou_options,
    part001_options;
  cbv beta iota zeta delta
    [Shokuhou.resolveOpts Part001.resolveOpts required or_else split bind ret
     throw when arg_help arg_u arg_s arg_r arg_h arg_p arg_o arg_v res rest trace
     app];
  destruct hp;
  destruct u as [|[|? ?]|? ?]; destruct s as [|[|? ?]|? ?];
  destruct r as [|[|? ?]|? ?]; destruct h as [|[|? ?]|? ?];
  cbn [truthy text_of is_text negb orb andb app].

Lemma shokuhou_resolves (a : argv) (p : peer) :
  refused_arguments a = false ->
  Shokuhou.resolveOpts a p = Out (Val (shokuhou_options a)) p [].
Proof. open_argv a; intros B; try discriminate B; reflexivity. Qed.

Lemma part001_resolves (a : argv) (p : peer) :
  refused_arguments a = false ->
  Part001.resolveOpts a p = Out (Val (part001_options a)) p [].
Proof.
  open_argv a; intros B; try discriminate B; destruct v; reflexivity.
Qed.

Lemma shokuhou_refuses (a : argv) (p : peer) :
  refused_arguments a = true ->
  exists ex, Shokuhou.resolveOpts a p = Out (Raise ex) p [].
Proof. open_argv a; intros B; try discriminate B; eexists; reflexivity. Qed.

Lemma part001_refuses (a : argv) (p : peer) :
  refused_arguments a = true ->
  exists ex, Part001.resolveOpts a p = Out (Raise ex) p [].
Proof. open_argv a; intros B; try discriminate B; eexists; reflexivity. Qed.

Lemma shokuhou_resolved (a : argv) (p : peer) (o : Shokuhou.clientOpts) :
  res (Shokuhou.resolveOpts a p) = Val o ->
  refused_arguments a = false /\ o = shokuhou_options a.
Proof.
  destruct (refused_arguments a) eqn:B.
  - destruct (shokuhou_refuses a p B) as [ex ->]. discriminate.
  - rewrite (shokuhou_resolves a p B). cbn [res]. intros [= <-]. now split.
Qed.

Lemma part001_resolved (a : argv) (p : peer) (o : Part001.clientOpts) :
  res (Part001.resolveOpts a p) = Val o ->
  refused_arguments a = false /\ o = part001_options a.
Proof.
  destruct (refused_arguments a) eqn:B.
  - destruct (part001_refuses a p B) as [ex ->]. discriminate.
  - rewrite (part001_resolves a p B). cbn [res]. intros [= <-]. now split.
Qed.

Lemma shokuhou_resolved_domain (a : argv) (p : peer) (o : Shokuhou.clientOpts) :
  res (Shokuhou.resolveOpts a p) = Val o ->
  Shokuhou.domain o = Js.index (Js.split "@" 2 (Shokuhou.sender o)) 1.
Proof. intros R. now destruct (shokuhou_resolved a p o R) as (_ & ->). Qed.

Lemma part001_resolved_domain (a : argv) (p : peer) (o : Part001.clientOpts) :
  res (Part001.resolveOpts a p) = Val o ->
  Part001.domain o = Js.index (Js.split "@" 2 (Part001.sender o)) 1.
Proof. intros R. now destruct (part001_resolved a p o R) as (_ & ->). Qed.

Lemma shokuhou_greeting_opens_with_ehlo (o : Shokuhou.clientOpts) (q : peer) :
  hd_error (sent (Shokuhou.greetingStage o q)) =
  Some ("EHLO " ++ Js.show (Shokuhou.domain o) ++ Js.CRLF)%string.
Proof.
  destruct q as [cf rs wf]. unfold sent. explore; reflexivity.
Qed.

Lemma part001_greeting_opens_with_ehlo g (o : Part001.clientOpts) (q : peer) :
  hd_error (sent (Part001.greetingStage g o q)) =
  Some ("EHLO " ++ Js.show (Part001.domain o) ++ Js.CRLF)%string.
Proof.
  destruct q as [cf rs wf]. unfold sent. explore; reflexivity.
Qed.

(** C6.  When the sender holds exactly one [@], the domain the argument
    block stores is the substring of the sender that follows the [@], and
    that is the domain the greeting opens with. *)
Theorem domain_follows_the_at
    (g : option string -> option string) (a : argv) (p q : peer)
    (o : Shokuhou.clientOpts) (o' : Part001.clientOpts) :
  res (Shokuhou.resolveOpts a p) = Val o ->
  res (Part001.resolveOpts a p) = Val o' ->
  occurrences "@" (Shokuhou.sender o) = 1 ->
  Part001.sender o' = Shokuhou.sender o /\
  Shokuhou.domain o = Some (after_first "@" (Shokuhou.sender o)) /\
  Part001.domain o' = Some (after_first "@" (Shokuhou.sender o)) /\
  hd_error (sent (Shokuhou.greetingStage o q)) =
    Some ("EHLO " ++ after_first "@" (Shokuhou.sender o) ++ Js.CRLF)%string /\
  hd_error (sent (Part001.greetingStage g o' q)) =
    Some ("EHLO " ++ after_first "@" (Shokuhou.sender o) ++ Js.CRLF)%string.
Proof.
  intros R R' One.
  assert (S : Part001.sender o' = Shokuhou.sender o).
  { destruct (shokuhou_resolved a p o R) as (_ & ->).
    now destruct (part001_resolved a p o' R') as (_ & ->). }
  assert (D : Shokuhou.domain o = Some (after_first "@" (Shokuhou.sender o))).
  { rewrite (shokuhou_resolved_domain a p o R). now apply domain_of_one_at. }
  assert (D' : Part001.domain o' = Some (after_first "@" (Shokuhou.sender o))).
  { rewrite (part001_resolved_domain a p o' R'), S. now apply domain_of_one_at. }
  repeat split; auto.
  - rewrite shokuhou_greeting_opens_with_ehlo, D. reflexivity.
  - rewrite part001_greeting_opens_with_ehlo, D'. reflexivity.
Qed.

Lemma domain_follows_the_at_witness :
  Part001.sender opts_password = "alice@example.com" /\
  Shokuhou.domain opts_secret = Some "example.com" /\
  Part001.domain opts_password = Some "example.com" /\
  hd_error (sent (Shokuhou.greetingStage opts_secret (serve []))) =
    Some ("EHLO example.com" ++ Js.CRLF)%string /\
  hd_error (sent (Part001.greetingStage GetStatus.getStatus opts_password (serve []))) =
    Some ("EHLO example.com" ++ Js.CRLF)%string.
Proof.
  exact (domain_follows_the_at GetStatus.getStatus argv_password (serve [])
           (serve []) opts_secret opts_password eq_refl eq_refl eq_refl).
Defined.

(** Only the piece after the first [@] is kept when there are more. *)
Example domain_of_two_ats :
  Js.index (Js.split "@" 2 "a@b@c") 1 = Some "b" /\
  after_first "@" "a@b@c" = "b@c".
Proof. split; reflexivity. Qed.

(** C7, on the code.  With a sender that holds no [@]
    ([-u alice -r bob@example.test -h mail.example.test]) the argument
    block does not fail: the domain is [undefined], the session runs, and
    its greeting is the line [EHLO undefined]. *)
Theorem sender_without_at_greets_undefined :
  let p := serve ["220 ready"; "250 hello"; "250 ok"; "250 ok";
                  "354 go ahead"; "250 queued"] in
  (exists o q,
     Shokuhou.resolveOpts argv_no_at p = Out (Val o) q [] /\
     Shokuhou.sender o = "alice" /\ Shokuhou.domain o = None) /\
  res (Shokuhou.main argv_no_at p) = Val tt /\
  hd_error (sent (Shokuhou.main argv_no_at p)) =
    Some ("EHLO undefined" ++ Js.CRLF)%string /\
  res (Part001.main GetStatus.getStatus argv_no_at p) = Val tt /\
  hd_error (sent (Part001.main GetStatus.getStatus argv_no_at p)) =
    Some ("EHLO undefined" ++ Js.CRLF)%string.
Proof.
  cbv zeta. split; [eexists; eexists; repeat split; reflexivity|].
  repeat split; reflexivity.
Qed.

(** The same for every sender without [@]. *)
Lemma no_at_no_domain (a : argv) (p q : peer) (o : Shokuhou.clientOpts) :
  res (Shokuhou.resolveOpts a p) = Val o ->
  occurrences "@" (Shokuhou.sender o) = 0 ->
  Shokuhou.domain o = None /\
  hd_error (sent (Shokuhou.greetingStage o q)) =
    Some ("EHLO undefined" ++ Js.CRLF)%string.
Proof.
  intros R Z.
  assert (D : Shokuhou.domain o = None).
  { rewrite (shokuhou_resolved_domain a p o R). now apply domain_of_no_at. }
  split; [exact D|]. rewrite shokuhou_greeting_opens_with_ehlo, D. reflexivity.
Qed.

(* ===================================================================== *)
(** * Releasing the connection *)
(* ===================================================================== *)

Lemma ends_with_app (e : event) (t t' : list event) :
  ends_with e t' -> ends_with e (t ++ t').
Proof.
  intros [before ->]. exists (t ++ before). now rewrite app_assoc.
Qed.

Lemma released_app (t t' : list event) :
  released (t ++ t') = released t || released t'.
Proof. apply existsb_app. Qed.

Lemma releases_after (m k : M unit) :
  destroys_on_failure m -> releases_at_exit k ->
  releases_at_exit (bind m (fun _ => k)).
Proof.
  intros Hm Hk p. specialize (Hm p). unfold bind.
  destruct (m p) as [[a|ex|c] q t]; cbn [res rest trace] in *.
  - destruct Hm as (N & K). specialize (Hk q).
    destruct (k q) as [[b|ex|c] q' t']; cbn [res trace] in *;
      auto using ends_with_app.
    destruct Hk as (W & N' & U). split; [now apply ends_with_app|].
    split; [now rewrite released_app, N, N' | auto].
  - contradiction.
  - assumption.
Qed.

(** A peer whose writes all go through is still one after some of them. *)
Ltac stays_healthy :=
  unfold healthy; cbn [write_faults rest next_write tl];
  let H := fresh "H" in
  intros H;
  repeat match goal with
  | F : Forall _ (_ :: _) |- _ => inversion F; subst; clear F
  end;
  first [assumption | constructor | discriminate].

Ltac every_exit :=
  intros [cf rs wf]; explore; cbn [res rest trace];
  first
    [ show_ends
    | split; [reflexivity | stays_healthy]
    | split; [show_ends | split; [reflexivity | stays_healthy]] ].

Section ShokuhouRelease.
Variable o : Shokuhou.clientOpts.

Lemma shokuhou_banner_destroys : destroys_on_failure Shokuhou.bannerStage.
Proof. every_exit. Qed.

Lemma shokuhou_greeting_destroys : destroys_on_failure (Shokuhou.greetingStage o).
Proof. every_exit. Qed.

Lemma shokuhou_initiation_destroys : destroys_on_failure (Shokuhou.initiationStage o).
Proof. every_exit. Qed.

Lemma shokuhou_message_destroys : destroys_on_failure (Shokuhou.messageStage o).
Proof. every_exit. Qed.

Lemma shokuhou_quit_releases : releases_at_exit Shokuhou.quitStage.
Proof. every_exit. Qed.

Lemma shokuhou_after_connect_releases :
  releases_at_exit
    (bind Shokuhou.bannerStage (fun _ =>
     bind (Shokuhou.greetingStage o) (fun _ =>
     bind (Shokuhou.initiationStage o) (fun _ =>
     bind (Shokuhou.messageStage o) (fun _ => Shokuhou.quitStage))))).
Proof.
  apply releases_after; [apply shokuhou_banner_destroys|].
  apply releases_after; [apply shokuhou_greeting_destroys|].
  apply releases_after; [apply shokuhou_initiation_destroys|].
  apply releases_after; [apply shokuhou_message_destroys|].
  apply shokuhou_quit_releases.
Qed.

End ShokuhouRelease.

Lemma leaves_socket_of (p : peer) (x : outcome unit) :
  match res x with
  | Val _ => ends_with End (trace x)
  | Raise _ =>
      ends_with (Write ("QUIT" ++ Js.CRLF)) (trace x) /\
      released (trace x) = false /\ ~ healthy p
  | Halt _ => ends_with Destroy (trace x)
  end ->
  leaves_socket p x.
Proof.
  unfold leaves_socket. destruct (res x) as [[]|ex|c]; intros H;
    repeat split; intros; try discriminate; try apply H.
Qed.

Lemma shokuhou_session_releases (o : Shokuhou.clientOpts) (p : peer) :
  connect_fault p = None -> leaves_socket p (Shokuhou.session o p).
Proof.
  intros C. apply leaves_socket_of. destruct p as [cf rs wf]. cbn in C. subst cf.
  pose proof (shokuhou_after_connect_releases o (mkPeer None rs wf)) as T.
  unfold Shokuhou.session.
  set (after := bind Shokuhou.bannerStage _) in *.
  exec.
  destruct (after (mkPeer None rs wf)) as [[a|ex|c] q t]; cbn [res trace] in *.
  - now apply (ends_with_app _ [_; _]).
  - destruct T as (W & N & U). split; [now apply (ends_with_app _ [_; _])|].
    split; [exact N | exact U].
  - now apply (ends_with_app _ [_; _]).
Qed.

Lemma shokuhou_session_unconnected (o : Shokuhou.clientOpts) (p : peer) ex :
  connect_fault p = Some ex ->
  Shokuhou.session o p =
  Out (Halt 0%Z) p
    [Connect (Shokuhou.port o) (Shokuhou.host o);
     Console Error ("An error occurred connecting to the server: " ++ to_string ex)].
Proof.
  intros C. destruct p as [cf rs wf]. cbn in C. subst cf.
  unfold Shokuhou.session. reflexivity.
Qed.

Lemma part000_session_releases (o : Shokuhou.clientOpts) (p : peer) :
  connect_fault p = None -> leaves_socket p (Part000.session o p).
Proof.
  intros C. apply leaves_socket_of. destruct p as [cf rs wf]. cbn in C. subst cf.
  assert (T : releases_at_exit
                (bind Shokuhou.bannerStage (fun _ =>
                 bind (Shokuhou.greetingStage o) (fun _ => Shokuhou.quitStage)))).
  { apply releases_after; [apply shokuhou_banner_destroys|].
    apply releases_after; [apply shokuhou_greeting_destroys|].
    apply shokuhou_quit_releases. }
  specialize (T (mkPeer None rs wf)).
  unfold Part000.session.
  set (after := bind Shokuhou.bannerStage _) in *.
  exec.
  destruct (after (mkPeer None rs wf)) as [[a|ex|c] q t]; cbn [res trace] in *.
  - now apply (ends_with_app _ [_; _]).
  - destruct T as (W & N & U). split; [now apply (ends_with_app _ [_; _])|].
    split; [exact N | exact U].
  - now apply (ends_with_app _ [_; _]).
Qed.

Lemma part000_session_unconnected (o : Shokuhou.clientOpts) (p : peer) ex :
  connect_fault p = Some ex ->
  Part000.session o p =
  Out (Halt 0%Z) p
    [Connect (Shokuhou.port o) (Shokuhou.host o);
     Console Error ("An error occurred connecting to the server: " ++ to_string ex)].
Proof.
  intros C. destruct p as [cf rs wf]. cbn in C. subst cf.
  unfold Part000.session. reflexivity.
Qed.

Section Part001Release.
Variable g : option string -> option string.
Variable o : Part001.clientOpts.

Lemma part001_banner_destroys : destroys_on_failure (Part001.bannerStage g o).
Proof. every_exit. Qed.

Lemma part001_greeting_destroys : destroys_on_failure (Part001.greetingStage g o).
Proof. every_exit. Qed.

Lemma part001_authentication_destroys :
  destroys_on_failure (Part001.authenticationStage g o).
Proof. every_exit. Qed.

Lemma part001_initiation_destroys : destroys_on_failure (Part001.initiationStage g o).
Proof. every_exit. Qed.

Lemma part001_message_destroys : destroys_on_failure (Part001.messageStage g o).
Proof. every_exit. Qed.

Lemma part001_quit_releases : releases_at_exit (Part001.quitStage o).
Proof. every_exit. Qed.

Lemma part001_after_connect_releases :
  releases_at_exit
    (bind (Part001.bannerStage g o) (fun _ =>
     bind (Part001.greetingStage g o) (fun _ =>
     bind (Part001.authenticationStage g o) (fun _ =>
     bind (Part001.initiationStage g o) (fun _ =>
     bind (Part001.messageStage g o) (fun _ => Part001.quitStage o)))))).
Proof.
  apply releases_after; [apply part001_banner_destroys|].
  apply releases_after; [apply part001_greeting_destroys|].
  apply releases_after; [apply part001_authentication_destroys|].
  apply releases_after; [apply part001_initiation_destroys|].
  apply releases_after; [apply part001_message_destroys|].
  apply part001_quit_releases.
Qed.

Lemma part001_session_releases (p : peer) :
  connect_fault p = None -> leaves_socket p (Part001.session g o p).
Proof.
  intros C. apply leaves_socket_of. destruct p as [cf rs wf]. cbn in C. subst cf.
  pose proof (part001_after_connect_releases (mkPeer None rs wf)) as T.
  unfold Part001.session.
  set (after := bind (Part001.bannerStage g o) _) in *.
  exec.
  destruct (after (mkPeer None rs wf)) as [[a|ex|c] q t]; cbn [res trace] in *.
  - now apply (ends_with_app _ [_; _]).
  - destruct T as (W & N & U). split; [now apply (ends_with_app _ [_; _])|].
    split; [exact N | exact U].
  - now apply (ends_with_app _ [_; _]).
Qed.

Lemma part001_session_unconnected (p : peer) ex :
  connect_fault p = Some ex ->
  Part001.session g o p =
  Out (Halt 0%Z) p
    [Connect (Part001.port o) (Part001.host o);
     Console Error ("An error occurred connecting to the server: " ++ Js.show (message ex))].
Proof.
  intros C. destruct p as [cf rs wf]. cbn in C. subst cf.
  unfold Part001.session. reflexivity.
Qed.

End Part001Release.




(** The QUIT that is written outside every [try]: when that write fails
    the closure ends with an unhandled rejection, and nothing is released. *)
Example quit_write_fails :
  let p := mkPeer None
             (map Data ["220 ready"; "250 hello"; "250 ok"; "250 ok";
                        "354 go ahead"; "250 queued"])
             [None; None; None; None; None; Some (ErrorObj "Error" "write EPIPE")] in
  res (Shokuhou.session opts_plain p) = Raise (ErrorObj "Error" "write EPIPE") /\
  ends_with (Write ("QUIT" ++ Js.CRLF)) (trace (Shokuhou.session opts_plain p)) /\
  released (trace (Shokuhou.session opts_plain p)) = false.
Proof. split; [reflexivity|]. split; [show_ends | reflexivity]. Qed.

(* ===================================================================== *)
(** * The verbose flag *)
(* ===================================================================== *)

Lemma without_debug_app (t t' : list event) :
  without_debug (t ++ t') = without_debug t ++ without_debug t'.
Proof. apply filter_app. Qed.

Lemma writes_without_debug (t : list event) :
  writes (without_debug t) = writes t.
Proof.
  unfold writes, without_debug.
  induction t as [|e t IH]; [reflexivity|].
  destruct e as [port host|data| | |[] text]; simpl; rewrite ?IH; reflexivity.
Qed.

Lemma verbosity_only_bind (m m' k k' : M unit) :
  verbosity_only m m' -> verbosity_only k k' ->
  verbosity_only (bind m (fun _ => k)) (bind m' (fun _ => k')).
Proof.
  intros Hm Hk p. destruct (Hm p) as (R & Q & T). unfold quiet, bind.
  destruct (m p) as [r q t], (m' p) as [r' q' t']; cbn [res rest trace] in *.
  subst r' q' t'. destruct r as [a|ex|c]; cbn [res rest trace]; auto.
  destruct (Hk q) as (R2 & Q2 & T2).
  destruct (k q) as [r2 q2 t2], (k' q) as [r2' q2' t2']; cbn [res rest trace] in *.
  subst. now rewrite without_debug_app.
Qed.

(** Read the fields of an explicit [clientOpts]. *)
Ltac project :=
  cbn [with_verbose Part001.verbose Part001.user Part001.sender Part001.domain
       Part001.recipient Part001.host Part001.password Part001.port].

(** [getStatus(undefined)] is no status. *)
Ltac no_status_of_undefined :=
  repeat match goal with
  | H : ?g None = None |- context [?g None] => rewrite H; cbn [Js.loose_eq]
  end.

Ltac with_and_without :=
  intros [cf rs wf];
  match goal with o : Part001.clientOpts |- _ => destruct o end;
  unfold quiet, with_verbose; project;
  exec; project; run;
  repeat (first [progress no_status_of_undefined | branch]; run);
  cbn [res rest trace without_debug filter is_debug negb];
  repeat split.

Section Verbose.
Variable g : option string -> option string.
Hypothesis g_undefined : g None = None.
Variable o : Part001.clientOpts.

Lemma connect_verbosity :
  verbosity_only (Part001.connectStage (with_verbose true o))
                 (Part001.connectStage (with_verbose false o)).
Proof. with_and_without. Qed.

Lemma banner_verbosity :
  verbosity_only (Part001.bannerStage g (with_verbose true o))
                 (Part001.bannerStage g (with_verbose false o)).
Proof. with_and_without. Qed.

Lemma greeting_verbosity :
  verbosity_only (Part001.greetingStage g (with_verbose true o))
                 (Part001.greetingStage g (with_verbose false o)).
Proof. with_and_without. Qed.

Lemma authentication_verbosity :
  verbosity_only (Part001.authenticationStage g (with_verbose true o))
                 (Part001.authenticationStage g (with_verbose false o)).
Proof. with_and_without. Qed.

Lemma initiation_verbosity :
  verbosity_only (Part001.initiationStage g (with_verbose true o))
                 (Part001.initiationStage g (with_verbose false o)).
Proof. with_and_without. Qed.

Lemma message_verbosity :
  verbosity_only (Part001.messageStage g (with_verbose true o))
                 (Part001.messageStage g (with_verbose false o)).
Proof. with_and_without. Qed.

Lemma quit_verbosity :
  verbosity_only (Part001.quitStage (with_verbose true o))
                 (Part001.quitStage (with_verbose false o)).
Proof. with_and_without. Qed.

Lemma session_verbosity :
  verbosity_only (Part001.session g (with_verbose true o))
                 (Part001.session g (with_verbose false o)).
Proof.
  unfold Part001.session.
  apply verbosity_only_bind; [apply connect_verbosity|].
  apply verbosity_only_bind; [apply banner_verbosity|].
  apply verbosity_only_bind; [apply greeting_verbosity|].
  apply verbosity_only_bind; [apply authentication_verbosity|].
  apply verbosity_only_bind; [apply initiation_verbosity|].
  apply verbosity_only_bind; [apply message_verbosity|].
  apply quit_verbosity.
Qed.

End Verbose.

Lemma with_verbose_same (o : Part001.clientOpts) :
  with_verbose (Part001.verbose o) o = o.
Proof. now destruct o. Qed.

(** C10.  Against the same peer, the run with the verbose flag and the
    run without it end the same way, hand the same data to [client.write]
    in the same order and leave the same script unread; the trace of the
    verbose run is the trace of the other with [console.debug] lines
    added.  ([getStatus], which is not among the sources, is taken to give
    no status for [undefined].) *)
Theorem verbose_adds_only_debug_lines
    (g : option string -> option string) (o : Part001.clientOpts) (p : peer) :
  g None = None ->
  let x := Part001.session g (with_verbose true o) p in
  let y := Part001.session g (with_verbose false o) p in
  res x = res y /\
  sent x = sent y /\
  rest x = rest y /\
  without_debug (trace x) = trace y.
Proof.
  intros G. cbv zeta.
  destruct (session_verbosity g G o p) as (R & Q & T).
  repeat split; auto.
  unfold sent. now rewrite <- T, writes_without_debug.
Qed.

Lemma verbose_adds_only_debug_lines_witness :
  let p := serve ["220 ready"; "250 hello"; "334 VXNlcm5hbWU6";
                  "334 UGFzc3dvcmQ6"; "535 authentication failed"] in
  let x := Part001.session GetStatus.getStatus (with_verbose true opts_password) p in
  let y := Part001.session GetStatus.getStatus (with_verbose false opts_password) p in
  res x = res y /\
  sent x = sent y /\
  rest x = rest y /\
  without_debug (trace x) = trace y.
Proof.
  exact (verbose_adds_only_debug_lines GetStatus.getStatus opts_password
           (serve ["220 ready"; "250 hello"; "334 VXNlcm5hbWU6";
                   "334 UGFzc3dvcmQ6"; "535 authentication failed"])
           eq_refl).
Defined.

(** What the flag adds, on a run. *)
Example verbose_greeting_trace :
  trace (Part001.greetingStage GetStatus.getStatus (with_verbose true opts_password)
           (serve [("250 hello" ++ Js.CRLF)%string])) =
  [Console Log "[*] Attempting to greet the server";
   Console Debug "[<] EHLO example.com";
   Write ("EHLO example.com" ++ Js.CRLF);
   Console Debug "[>] 250 hello";
   Console Log "[*] Successfully greeted the server"].
Proof. reflexivity. Qed.

(* ===================================================================== *)
(** * Only the first three characters of a reply decide *)
(* ===================================================================== *)

Lemma protocol_app (t t' : list event) :
  protocol (t ++ t') = protocol t ++ protocol t'.
Proof. apply filter_app. Qed.

Lemma prefix_only_bind (m k : M unit) :
  prefix_only m -> prefix_only k -> prefix_only (bind m (fun _ => k)).
Proof.
  intros Hm Hk p p' A. destruct (Hm p p' A) as (R & T & A').
  unfold same_exchange, bind.
  destruct (m p) as [r q t], (m p') as [r' q' t']; cbn [res rest trace] in *.
  destruct r as [a|ex|c], r' as [a'|ex'|c']; cbn [same_end] in R;
    try contradiction; cbn [res rest trace same_end]; auto.
  destruct (Hk q q' A') as (R2 & T2 & A2).
  destruct (k q) as [r2 q2 t2], (k q') as [r2' q2' t2']; cbn [res rest trace] in *.
  rewrite !protocol_app, T, T2. auto.
Qed.

(** ** The two ways of reading a status *)

Lemma leading3_first_three_only : first_three_only leading3.
Proof.
  unfold first_three_only, leading3. split; [|split].
  - intros b b' E. now rewrite E.
  - intros c tail C.
    destruct c as [|x [|y [|z [|? ?]]]]; try discriminate C.
    cbn. now destruct tail.
  - intros b c S L [= E]. subst c.
    destruct b as [|b1 [|b2 [|b3 tail]]]; cbn in *; try discriminate L. lia.
Qed.

Lemma getStatus_first_three_only :
  first_three_only (fun r => GetStatus.getStatus (Some r)).
Proof.
  split; [|split].
  - exact getStatus_prefix_only.
  - exact getStatus_of_code.
  - intros b c S L. destruct b as [|b1 [|b2 [|b3 tail]]]; cbn in *; try discriminate. lia.
Qed.

Lemma status_needs_three (status : string -> option string) (b c : string) :
  first_three_only status ->
  Js.loose_eq (status b) c = true -> String.length c = 3 -> 3 <= String.length b.
Proof.
  intros (_ & _ & F) E L. apply loose_eq_true in E.
  destruct (le_lt_dec 3 (String.length b)) as [G|S]; [exact G|].
  destruct (F b c S L E).
Qed.

Lemma code_needs_three (b c : string) :
  String.eqb (Js.substring 0 3 b) c = true ->
  String.length c = 3 -> 3 <= String.length b.
Proof.
  intros E L. apply (status_needs_three leading3 b c leading3_first_three_only); auto.
Qed.

Lemma short_has_no_status (status : string -> option string) (b c : string) :
  first_three_only status -> String.length b < 3 -> String.length c = 3 ->
  Js.loose_eq (status b) c = false.
Proof.
  intros (_ & _ & F) S L. apply loose_eq_false. now apply F.
Qed.

Lemma code_has_status (status : string -> option string) (c tail : string) :
  first_three_only status -> is_code c = true ->
  status (c ++ tail)%string = Some c.
Proof. intros (_ & F & _). apply F. Qed.

(** ** Two peers that agree on the first three characters *)

(** Step both runs over the next entry of the two scripts. *)
Ltac pair_step :=
  match goal with
  | H : Forall2 alike_reply ?rs ?rs' |- context [match ?rs with _ => _ end] =>
      inversion H; subst; clear H
  | H : Forall2 alike_reply ?rs ?rs' |- context [match ?rs' with _ => _ end] =>
      inversion H; subst; clear H
  | H : alike_reply ?i ?i' |- _ =>
      destruct i, i'; cbn [alike_reply] in H; try contradiction; try subst
  | H : Js.substring 0 3 ?b = Js.substring 0 3 ?b' |- context [Js.substring 0 3 ?b] =>
      rewrite H
  | H : Js.substring 0 3 ?b = Js.substring 0 3 ?b',
    F : first_three_only (fun r => ?g (Some r))
    |- context [?g (Some ?b)] =>
      rewrite (proj1 F b b' H)
  end.

Ltac side_by_side :=
  intros [cf rs wf] [cf' rs' wf'] (C & W & R);
  cbn [connect_fault write_faults replies] in C, W, R; subst cf' wf';
  run; repeat (first [pair_step | branch]; run);
  unfold same_exchange, alike;
  cbn [res rest trace same_end protocol filter is_console negb
       connect_fault write_faults replies];
  repeat split; try reflexivity; try assumption; try constructor.

Section ShokuhouPrefix.
Variable o : Shokuhou.clientOpts.

Lemma shokuhou_connect_prefix : prefix_only (Shokuhou.connectStage o).
Proof. side_by_side. Qed.

Lemma shokuhou_banner_prefix : prefix_only Shokuhou.bannerStage.
Proof. side_by_side. Qed.

Lemma shokuhou_greeting_prefix : prefix_only (Shokuhou.greetingStage o).
Proof. side_by_side. Qed.

Lemma shokuhou_initiation_prefix : prefix_only (Shokuhou.initiationStage o).
Proof. side_by_side. Qed.

Lemma shokuhou_message_prefix : prefix_only (Shokuhou.messageStage o).
Proof. side_by_side. Qed.

Lemma shokuhou_quit_prefix : prefix_only Shokuhou.quitStage.
Proof. side_by_side. Qed.

Lemma shokuhou_session_prefix : prefix_only (Shokuhou.session o).
Proof.
  unfold Shokuhou.session.
  apply prefix_only_bind; [apply shokuhou_connect_prefix|].
  apply prefix_only_bind; [apply shokuhou_banner_prefix|].
  apply prefix_only_bind; [apply shokuhou_greeting_prefix|].
  apply prefix_only_bind; [apply shokuhou_initiation_prefix|].
  apply prefix_only_bind; [apply shokuhou_message_prefix|].
  apply shokuhou_quit_prefix.
Qed.

End ShokuhouPrefix.

Section Part001Prefix.
Variable g : option string -> option string.
Hypothesis g_first : first_three_only (fun r => g (Some r)).
Variable o : Part001.clientOpts.

Lemma part001_connect_prefix : prefix_only (Part001.connectStage o).
Proof. side_by_side. Qed.

Lemma part001_banner_prefix : prefix_only (Part001.bannerStage g o).
Proof. side_by_side. Qed.

Lemma part001_greeting_prefix : prefix_only (Part001.greetingStage g o).
Proof. side_by_side. Qed.

Lemma part001_authentication_prefix : prefix_only (Part001.authenticationStage g o).
Proof. side_by_side. Qed.

Lemma part001_initiation_prefix : prefix_only (Part001.initiationStage g o).
Proof. side_by_side. Qed.

Lemma part001_message_prefix : prefix_only (Part001.messageStage g o).
Proof. side_by_side. Qed.

Lemma part001_quit_prefix : prefix_only (Part001.quitStage o).
Proof. side_by_side. Qed.

Lemma part001_session_prefix : prefix_only (Part001.session g o).
Proof.
  unfold Part001.session.
  apply prefix_only_bind; [apply part001_connect_prefix|].
  apply prefix_only_bind; [apply part001_banner_prefix|].
  apply prefix_only_bind; [apply part001_greeting_prefix|].
  apply prefix_only_bind; [apply part001_authentication_prefix|].
  apply prefix_only_bind; [apply part001_initiation_prefix|].
  apply prefix_only_bind; [apply part001_message_prefix|].
  apply part001_quit_prefix.
Qed.

End Part001Prefix.

(** ** A stage that goes on has read whole codes *)

Example accepted_banner_has_three_characters (b : string) :
  String.eqb (Js.substring 0 3 b) "220" = true \/
  Js.loose_eq (GetStatus.getStatus (Some b)) "220" = true ->
  3 <= String.length b.
Proof.
  intros [H|H]; [exact (code_needs_three b _ H eq_refl)|].
  exact (status_needs_three _ b _ getStatus_first_three_only H eq_refl).
Qed.

Lemma reads_whole_codes_bind (m k : M unit) :
  reads_whole_codes m -> reads_whole_codes k ->
  reads_whole_codes (bind m (fun _ => k)).
Proof.
  intros Hm Hk p. specialize (Hm p). unfold bind.
  destruct (m p) as [[[]|ex|c] q t]; cbn [res rest] in *; try discriminate.
  specialize (Hk q). destruct (k q) as [r q' t']; cbn [res rest] in *.
  intros R. destruct (Hm eq_refl) as (u1 & E1 & F1).
  destruct (Hk R) as (u2 & E2 & F2).
  exists (u1 ++ u2). split.
  - now rewrite E1, E2, map_app, app_assoc.
  - now apply Forall_app.
Qed.

Ltac used_of l r :=
  lazymatch l with
  | r => constr:(@nil string)
  | Data ?b :: ?l' => let u := used_of l' r in constr:(b :: u)
  end.

Ltac three_chars :=
  match goal with
  | H : String.eqb (Js.substring 0 3 ?b) ?c = true |- 3 <= String.length ?b =>
      exact (code_needs_three b c H eq_refl)
  | H : Js.loose_eq (?g (Some ?b)) ?c = true,
    F : first_three_only (fun r => ?g (Some r))
    |- 3 <= String.length ?b =>
      exact (status_needs_three (fun r => g (Some r)) b c F H eq_refl)
  end.

Ltac whole_codes :=
  intros [cf rs wf];
  run; repeat (first [progress no_status_of_undefined | branch]; run);
  cbn [res]; intros R; try discriminate R;
  unfold consumed; cbn [replies];
  match goal with
  | |- exists used, ?l = map Data used ++ ?r /\ _ =>
      let u := used_of l r in exists u
  end;
  (split;
   [ reflexivity
   | repeat first [apply Forall_nil | apply Forall_cons; [cbv beta; three_chars|]] ]).

Section ShokuhouCodes.
Variable o : Shokuhou.clientOpts.

Lemma shokuhou_connect_codes : reads_whole_codes (Shokuhou.connectStage o).
Proof. whole_codes. Qed.

Lemma shokuhou_banner_codes : reads_whole_codes Shokuhou.bannerStage.
Proof. whole_codes. Qed.

Lemma shokuhou_greeting_codes : reads_whole_codes (Shokuhou.greetingStage o).
Proof. whole_codes. Qed.

Lemma shokuhou_initiation_codes : reads_whole_codes (Shokuhou.initiationStage o).
Proof. whole_codes. Qed.

Lemma shokuhou_message_codes : reads_whole_codes (Shokuhou.messageStage o).
Proof. whole_codes. Qed.

Lemma shokuhou_quit_codes : reads_whole_codes Shokuhou.quitStage.
Proof. whole_codes. Qed.

Lemma shokuhou_session_codes : reads_whole_codes (Shokuhou.session o).
Proof.
  unfold Shokuhou.session.
  apply reads_whole_codes_bind; [apply shokuhou_connect_codes|].
  apply reads_whole_codes_bind; [apply shokuhou_banner_codes|].
  apply reads_whole_codes_bind; [apply shokuhou_greeting_codes|].
  apply reads_whole_codes_bind; [apply shokuhou_initiation_codes|].
  apply reads_whole_codes_bind; [apply shokuhou_message_codes|].
  apply shokuhou_quit_codes.
Qed.

End ShokuhouCodes.

Section Part001Codes.
Variable g : option string -> option string.
Hypothesis g_first : first_three_only (fun r => g (Some r)).
Hypothesis g_undefined : g None = None.
Variable o : Part001.clientOpts.

Lemma part001_connect_codes : reads_whole_codes (Part001.connectStage o).
Proof. whole_codes. Qed.

Lemma part001_banner_codes : reads_whole_codes (Part001.bannerStage g o).
Proof. whole_codes. Qed.

Lemma part001_greeting_codes : reads_whole_codes (Part001.greetingStage g o).
Proof. whole_codes. Qed.

Lemma part001_authentication_codes :
  reads_whole_codes (Part001.authenticationStage g o).
Proof. whole_codes. Qed.

Lemma part001_initiation_codes : reads_whole_codes (Part001.initiationStage g o).
Proof. whole_codes. Qed.

Lemma part001_message_codes : reads_whole_codes (Part001.messageStage g o).
Proof. whole_codes. Qed.

Lemma part001_quit_codes : reads_whole_codes (Part001.quitStage o).
Proof. whole_codes. Qed.

Lemma part001_session_codes : reads_whole_codes (Part001.session g o).
Proof.
  unfold Part001.session.
  apply reads_whole_codes_bind; [apply part001_connect_codes|].
  apply reads_whole_codes_bind; [apply part001_banner_codes|].
  apply reads_whole_codes_bind; [apply part001_greeting_codes|].
  apply reads_whole_codes_bind; [apply part001_authentication_codes|].
  apply reads_whole_codes_bind; [apply part001_initiation_codes|].
  apply reads_whole_codes_bind; [apply part001_message_codes|].
  apply part001_quit_codes.
Qed.

End Part001Codes.

(** ** The decision of each stage *)

(** A stage whose test fails ends in its [catch] clause, whatever the
    peer does with the writes. *)
Ltac refused :=
  intros; match goal with p : peer |- _ => open_peer p end; subst; tests; explore;
  unfold failed_at, at_banner, at_greeting, at_authentication, at_initiation,
    at_message; cbn [res trace]; show_failed.

Section ShokuhouRefuses.
Variable o : Shokuhou.clientOpts.

Lemma shokuhou_banner_refuses p r rs :
  replies p = Data r :: rs -> leading3 r <> Some "220" ->
  failed_at at_banner (Shokuhou.bannerStage p).
Proof. refused. Qed.

Lemma shokuhou_greeting_refuses p r rs :
  replies p = Data r :: rs -> leading3 r <> Some "502" -> leading3 r <> Some "250" ->
  failed_at at_greeting (Shokuhou.greetingStage o p).
Proof. refused. Qed.

Lemma shokuhou_fallback_refuses p r1 r rs :
  replies p = Data r1 :: Data r :: rs ->
  leading3 r1 = Some "502" -> leading3 r <> Some "250" ->
  failed_at at_greeting (Shokuhou.greetingStage o p).
Proof. refused. Qed.

Lemma shokuhou_mail_refuses p r rs :
  replies p = Data r :: rs -> leading3 r <> Some "250" ->
  failed_at at_initiation (Shokuhou.initiationStage o p).
Proof. refused. Qed.

Lemma shokuhou_rcpt_refuses p r1 r rs :
  replies p = Data r1 :: Data r :: rs ->
  leading3 r1 = Some "250" -> leading3 r <> Some "250" -> leading3 r <> Some "251" ->
  failed_at at_initiation (Shokuhou.initiationStage o p).
Proof. refused. Qed.

Lemma shokuhou_data_refuses p r rs :
  replies p = Data r :: rs -> leading3 r <> Some "354" ->
  failed_at at_message (Shokuhou.messageStage o p).
Proof. refused. Qed.

Lemma shokuhou_body_refuses p r1 r rs :
  replies p = Data r1 :: Data r :: rs ->
  leading3 r1 = Some "354" -> leading3 r <> Some "250" ->
  failed_at at_message (Shokuhou.messageStage o p).
Proof. refused. Qed.

Lemma shokuhou_banner_decides p r rs :
  replies p = Data r :: rs ->
  accepted_iff (Shokuhou.bannerStage p) at_banner (leading3 r = Some "220").
Proof.
  intros E. split; [|intros N; now apply (shokuhou_banner_refuses p r rs)].
  open_peer p. subst.
  destruct (Js.loose_eq (leading3 r) "220") eqn:Y; tests;
    outcome_of Shokuhou.bannerStage; settle.
Qed.

Lemma shokuhou_stage_decisions :
  stage_decisions leading3 Shokuhou.bannerStage (Shokuhou.greetingStage o)
    (Shokuhou.initiationStage o) (Shokuhou.messageStage o).
Proof.
  intros p r1 rs H E.
  destruct (shokuhou_greeting o p r1 rs H E) as (G1 & G2).
  destruct (shokuhou_data o p r1 rs H E) as (D1 & D2 & _).
  split; [now apply (shokuhou_banner_decides p r1 rs)|].
  split; [intros N; apply (proj2 (proj2 (G1 N)))|].
  split; [intros N; now apply (shokuhou_mail_refuses p r1 rs)|].
  split; [intros N; apply (proj2 (D1 N))|].
  intros r2 rs' ->. split; [|split].
  - intros Y. now apply (proj2 (G2 Y) r2 rs').
  - intros Y.
    apply (shokuhou_rcpt o (Shokuhou.messageStage o) p r1 r2 rs'); auto.
    apply shokuhou_message_starts_with_data.
  - intros Y. now apply (proj1 (proj2 (D2 Y r2 rs' eq_refl))).
Qed.

End ShokuhouRefuses.

Section Part001Refuses.
Variable g : option string -> option string.
Variable o : Part001.clientOpts.

Lemma part001_banner_refuses p r rs :
  replies p = Data r :: rs -> g (Some r) <> Some "220" ->
  failed_at at_banner (Part001.bannerStage g o p).
Proof. refused. Qed.

Lemma part001_greeting_refuses p r rs :
  replies p = Data r :: rs -> g (Some r) <> Some "502" -> g (Some r) <> Some "250" ->
  failed_at at_greeting (Part001.greetingStage g o p).
Proof. refused. Qed.

Lemma part001_fallback_refuses p r1 r rs :
  replies p = Data r1 :: Data r :: rs ->
  g (Some r1) = Some "502" -> g (Some r) <> Some "250" ->
  failed_at at_greeting (Part001.greetingStage g o p).
Proof. refused. Qed.

Lemma part001_login_refuses p r rs :
  Js.truthy (Part001.password o) = true ->
  replies p = Data r :: rs -> g (Some r) <> Some "334" ->
  failed_at at_authentication (Part001.authenticationStage g o p).
Proof. refused. Qed.

Lemma part001_user_refuses p r1 r rs :
  Js.truthy (Part001.password o) = true ->
  replies p = Data r1 :: Data r :: rs ->
  g (Some r1) = Some "334" -> g (Some r) <> Some "334" ->
  failed_at at_authentication (Part001.authenticationStage g o p).
Proof. refused. Qed.

Lemma part001_password_refuses p r1 r2 r rs :
  Js.truthy (Part001.password o) = true ->
  replies p = Data r1 :: Data r2 :: Data r :: rs ->
  g (Some r1) = Some "334" -> g (Some r2) = Some "334" -> g (Some r) <> Some "235" ->
  failed_at at_authentication (Part001.authenticationStage g o p).
Proof. refused. Qed.

Lemma part001_mail_refuses p r rs :
  replies p = Data r :: rs -> g (Some r) <> Some "250" ->
  failed_at at_initiation (Part001.initiationStage g o p).
Proof. refused. Qed.

Lemma part001_rcpt_refuses p r1 r rs :
  replies p = Data r1 :: Data r :: rs ->
  g (Some r1) = Some "250" -> g (Some r) <> Some "250" -> g (Some r) <> Some "251" ->
  failed_at at_initiation (Part001.initiationStage g o p).
Proof. refused. Qed.

Lemma part001_data_refuses p r rs :
  replies p = Data r :: rs -> g (Some r) <> Some "354" ->
  failed_at at_message (Part001.messageStage g o p).
Proof. refused. Qed.

Lemma part001_body_refuses p r1 r rs :
  replies p = Data r1 :: Data r :: rs ->
  g (Some r1) = Some "354" -> g (Some r) <> Some "250" ->
  failed_at at_message (Part001.messageStage g o p).
Proof. refused. Qed.

Lemma part001_banner_decides p r rs :
  replies p = Data r :: rs ->
  accepted_iff (Part001.bannerStage g o p) at_banner (g (Some r) = Some "220").
Proof.
  intros E. split; [|intros N; now apply (part001_banner_refuses p r rs)].
  open_peer p. subst.
  destruct (Part001.verbose o) eqn:V;
    destruct (Js.loose_eq (g (Some r)) "220") eqn:Y; tests;
    outcome_of (Part001.bannerStage g o); settle.
Qed.

Lemma part001_stage_decisions :
  stage_decisions (fun r => g (Some r)) (Part001.bannerStage g o)
    (Part001.greetingStage g o) (Part001.initiationStage g o)
    (Part001.messageStage g o).
Proof.
  intros p r1 rs H E.
  destruct (part001_greeting g o p r1 rs H E) as (G1 & G2).
  destruct (part001_data g o p r1 rs H E) as (D1 & D2 & _).
  split; [now apply (part001_banner_decides p r1 rs)|].
  split; [intros N; apply (proj2 (proj2 (G1 N)))|].
  split; [intros N; now apply (part001_mail_refuses p r1 rs)|].
  split; [intros N; apply (proj2 (D1 N))|].
  intros r2 rs' ->. split; [|split].
  - intros Y. now apply (proj2 (G2 Y) r2 rs').
  - intros Y.
    apply (part001_rcpt g o (Part001.messageStage g o) p r1 r2 rs'); auto.
    apply part001_message_starts_with_data.
  - intros Y. now apply (proj1 (proj2 (D2 Y r2 rs' eq_refl))).
Qed.

Lemma part001_login_decisions :
  Js.truthy (Part001.password o) = true ->
  login_decisions (fun r => g (Some r)) (Part001.authenticationStage g o)
    (Part001.user o) (Js.show (Part001.password o)).
Proof.
  intros T p r1 r2 r3 rs H E.
  pose proof (part001_authentication g o p r1 r2 r3 rs T H E) as (A1 & A2).
  split; [intros N; apply (A1 N)|].
  split.
  - intros Y N. specialize (A2 Y).
    destruct (Js.btoa (Part001.user o)); [apply (proj1 A2 N) | apply A2].
  - intros Y Y'. specialize (A2 Y).
    destruct (Js.btoa (Part001.user o)) as [login64|].
    + destruct A2 as (_ & A3). specialize (A3 Y').
      destruct (Js.btoa (Js.show (Part001.password o))) as [secret64|].
      * destruct A3 as (_ & I & F). split.
        -- rewrite I. split; [intros S; repeat split; [discriminate | discriminate | exact S]
                             | intros (_ & _ & S); exact S].
        -- intros N. apply F. intros S. apply N.
           repeat split; [discriminate | discriminate | exact S].
      * destruct A3 as (_ & F). split.
        -- split; [intros R; destruct F as (R' & _); congruence
                  | intros (_ & N & _); now destruct N].
        -- intros _. exact F.
    + destruct A2 as (_ & F). split.
      * split; [intros R; destruct F as (R' & _); congruence
               | intros (N & _); now destruct N].
      * intros _. exact F.
Qed.

End Part001Refuses.

(** ** What follows for codes and for short replies *)

Ltac code_status F :=
  repeat match goal with
  | |- context [Data (?c ++ ?t)%string] =>
      lazymatch goal with
      | _ : _ (c ++ t)%string = Some c |- _ => fail
      | _ => pose proof (code_has_status _ c t F eq_refl)
      end
  end.

Lemma codes_accepted_of (status : string -> option string)
    (banner greeting initiation message : M unit) :
  first_three_only status ->
  stage_decisions status banner greeting initiation message ->
  codes_accepted banner greeting initiation message.
Proof.
  intros F D p t1 t2 rs H.
  pose proof (fun c t => code_has_status status c t F) as C.
  split; [|split; [|split; [|split; [|split]]]];
    intros E; destruct (D p _ _ H E) as (B & G & _ & _ & S).
  - apply B. now apply C.
  - apply G; rewrite C by reflexivity; [discriminate | reflexivity].
  - destruct (S _ _ eq_refl) as (G2 & _). apply G2; now apply C.
  - destruct (S _ _ eq_refl) as (_ & I & _). apply I; [now apply C|].
    left. now apply C.
  - destruct (S _ _ eq_refl) as (_ & I & _). apply I; [now apply C|].
    right. now apply C.
  - destruct (S _ _ eq_refl) as (_ & _ & M). apply M; now apply C.
Qed.

Lemma login_codes_accepted_of (status : string -> option string) (login : M unit)
    (user secret : string) :
  first_three_only status ->
  login_decisions status login user secret ->
  login_codes_accepted login user secret.
Proof.
  intros F D p t1 t2 t3 rs H U S E.
  pose proof (fun c t => code_has_status status c t F) as C.
  destruct (D p _ _ _ _ H E) as (_ & _ & A).
  apply A; [now apply C | now apply C |].
  split; [exact U|]. split; [exact S | now apply C].
Qed.

Lemma shokuhou_short_replies_fail (o : Shokuhou.clientOpts) :
  short_replies_fail leading3 Shokuhou.bannerStage (Shokuhou.greetingStage o)
    (Shokuhou.initiationStage o) (Shokuhou.messageStage o).
Proof.
  intros p b S.
  pose proof (fun c L => proj2 (proj2 leading3_first_three_only) b c S L) as N.
  split.
  - intros rs E. split; [|split; [|split]].
    + apply (shokuhou_banner_refuses p b rs E); now apply N.
    + apply (shokuhou_greeting_refuses o p b rs E); now apply N.
    + apply (shokuhou_mail_refuses o p b rs E); now apply N.
    + apply (shokuhou_data_refuses o p b rs E); now apply N.
  - intros r1 rs E. split; [|split]; intros Y.
    + apply (shokuhou_fallback_refuses o p r1 b rs E Y); now apply N.
    + apply (shokuhou_rcpt_refuses o p r1 b rs E Y); now apply N.
    + apply (shokuhou_body_refuses o p r1 b rs E Y); now apply N.
Qed.

Lemma part001_short_replies_fail g (o : Part001.clientOpts) :
  first_three_only (fun r => g (Some r)) ->
  short_replies_fail (fun r => g (Some r)) (Part001.bannerStage g o)
    (Part001.greetingStage g o) (Part001.initiationStage g o)
    (Part001.messageStage g o).
Proof.
  intros F p b S.
  pose proof (fun c L => proj2 (proj2 F) b c S L) as N. cbv beta in N.
  split.
  - intros rs E. split; [|split; [|split]].
    + apply (part001_banner_refuses g o p b rs E); now apply N.
    + apply (part001_greeting_refuses g o p b rs E); now apply N.
    + apply (part001_mail_refuses g o p b rs E); now apply N.
    + apply (part001_data_refuses g o p b rs E); now apply N.
  - intros r1 rs E. split; [|split]; intros Y.
    + apply (part001_fallback_refuses g o p r1 b rs E Y); now apply N.
    + apply (part001_rcpt_refuses g o p r1 b rs E Y); now apply N.
    + apply (part001_body_refuses g o p r1 b rs E Y); now apply N.
Qed.

Lemma part001_short_login_replies_fail g (o : Part001.clientOpts) :
  first_three_only (fun r => g (Some r)) ->
  Js.truthy (Part001.password o) = true ->
  short_login_replies_fail (fun r => g (Some r)) (Part001.authenticationStage g o).
Proof.
  intros F T p b S.
  pose proof (fun c L => proj2 (proj2 F) b c S L) as N. cbv beta in N.
  split; [|split].
  - intros rs E. apply (part001_login_refuses g o p b rs T E); now apply N.
  - intros r1 rs E Y. apply (part001_user_refuses g o p r1 b rs T E Y); now apply N.
  - intros r1 r2 rs E Y Y'.
    apply (part001_password_refuses g o p r1 r2 b rs T E Y Y'); now apply N.
Qed.

(** ** Whole sessions *)

Lemma same_end_val (r : result unit) : same_end r (Val tt) -> r = Val tt.
Proof. destruct r as [[]|ex|c]; cbn; intros H; now try contradiction. Qed.

Lemma shokuhou_accepts_codes (o : Shokuhou.clientOpts) (p : peer) :
  alike p (serve accepted_codes) -> res (Shokuhou.session o p) = Val tt.
Proof.
  intros A. apply same_end_val.
  destruct (shokuhou_session_prefix o p _ A) as (R & _). exact R.
Qed.

(** What [getStatus] gives on the bare codes. *)
Ltac bare_codes F :=
  pose proof (code_has_status _ "220" "" F eq_refl);
  pose proof (code_has_status _ "250" "" F eq_refl);
  pose proof (code_has_status _ "251" "" F eq_refl);
  pose proof (code_has_status _ "334" "" F eq_refl);
  pose proof (code_has_status _ "235" "" F eq_refl);
  pose proof (code_has_status _ "354" "" F eq_refl);
  cbn [String.append] in *; cbv beta in *.

(** Run a session against replies that are bare codes. *)
Ltac run_codes :=
  unfold serve, accepted_codes, accepted_codes_with_login; cbn [map];
  repeat (progress
    (exec; use_tests;
     repeat match goal with
     | H : ?g (Some _) = Some _ |- _ => rewrite H
     end;
     cbn [Js.loose_eq String.eqb Ascii.eqb Bool.eqb negb andb])).

Lemma part001_accepts_codes g (o : Part001.clientOpts) (p : peer) :
  first_three_only (fun r => g (Some r)) ->
  Js.truthy (Part001.password o) = false ->
  alike p (serve accepted_codes) ->
  res (Part001.session g o p) = Val tt.
Proof.
  intros F T A. apply same_end_val.
  destruct (part001_session_prefix g F o p _ A) as (R & _).
  replace (res (Part001.session g o (serve accepted_codes)))
    with (Val tt (A := unit)) in R; [exact R|].
  bare_codes F.
  unfold Part001.session. destruct (Part001.verbose o) eqn:V; run_codes; reflexivity.
Qed.

Lemma part001_accepts_codes_with_login g (o : Part001.clientOpts) (p : peer) :
  first_three_only (fun r => g (Some r)) ->
  Js.truthy (Part001.password o) = true ->
  Js.btoa (Part001.user o) <> None ->
  Js.btoa (Js.show (Part001.password o)) <> None ->
  alike p (serve accepted_codes_with_login) ->
  res (Part001.session g o p) = Val tt.
Proof.
  intros F T B1 B2 A. apply same_end_val.
  destruct (part001_session_prefix g F o p _ A) as (R & _).
  replace (res (Part001.session g o (serve accepted_codes_with_login)))
    with (Val tt (A := unit)) in R; [exact R|].
  bare_codes F.
  destruct (Js.btoa (Part001.user o)) as [login64|] eqn:E1; [|congruence].
  destruct (Js.btoa (Js.show (Part001.password o))) as [secret64|] eqn:E2; [|congruence].
  unfold Part001.session. destruct (Part001.verbose o) eqn:V; run_codes; reflexivity.
Qed.

(** C9.  Every stage decides on the first three characters of the reply
    it has read.  In [shokuhou.js] the status is
    [toString().substring(0,3)], which reads those characters only; in
    [part_001] it is [getStatus], which is not among the sources and is
    taken to read those characters only and to give no status for
    [undefined].  In both revisions: each stage goes on exactly when that
    status is the expected code and ends in its [catch] clause otherwise;
    so a reply that starts with the expected code is accepted whatever
    follows it (a greeting reply that starts with [250-] included), and a
    stage that reads a reply of fewer than three characters fails,
    whatever the peer; two peers whose replies agree on their first three
    characters get the same writes and the same end from every stage and
    from the session; a session whose replies start with the accepted
    codes completes (with a password, when [btoa] encodes the
    credentials); and a stage or a session that goes on has read only
    replies of three characters at least. *)
Theorem first_three_characters_decide
    (g : option string -> option string)
    (o : Shokuhou.clientOpts) (o' : Part001.clientOpts) :
  first_three_only (fun r => g (Some r)) ->
  g None = None ->
  first_three_only leading3 /\
  (stage_decisions leading3 Shokuhou.bannerStage (Shokuhou.greetingStage o)
     (Shokuhou.initiationStage o) (Shokuhou.messageStage o) /\
   stage_decisions (fun r => g (Some r)) (Part001.bannerStage g o')
     (Part001.greetingStage g o') (Part001.initiationStage g o')
     (Part001.messageStage g o') /\
   (Js.truthy (Part001.password o') = true ->
    login_decisions (fun r => g (Some r)) (Part001.authenticationStage g o')
      (Part001.user o') (Js.show (Part001.password o')))) /\
  (codes_accepted Shokuhou.bannerStage (Shokuhou.greetingStage o)
     (Shokuhou.initiationStage o) (Shokuhou.messageStage o) /\
   codes_accepted (Part001.bannerStage g o') (Part001.greetingStage g o')
     (Part001.initiationStage g o') (Part001.messageStage g o') /\
   (Js.truthy (Part001.password o') = true ->
    login_codes_accepted (Part001.authenticationStage g o')
      (Part001.user o') (Js.show (Part001.password o'))) /\
   (forall tail,
      res (Shokuhou.greetingStage o (serve [("250-" ++ tail)%string])) = Val tt /\
      res (Part001.greetingStage g o' (serve [("250-" ++ tail)%string])) = Val tt)) /\
  (short_replies_fail leading3 Shokuhou.bannerStage (Shokuhou.greetingStage o)
     (Shokuhou.initiationStage o) (Shokuhou.messageStage o) /\
   short_replies_fail (fun r => g (Some r)) (Part001.bannerStage g o')
     (Part001.greetingStage g o') (Part001.initiationStage g o')
     (Part001.messageStage g o') /\
   (Js.truthy (Part001.password o') = true ->
    short_login_replies_fail (fun r => g (Some r))
      (Part001.authenticationStage g o'))) /\
  (Forall prefix_only
     [Shokuhou.bannerStage; Shokuhou.greetingStage o; Shokuhou.initiationStage o;
      Shokuhou.messageStage o; Shokuhou.session o] /\
   Forall prefix_only
     [Part001.bannerStage g o'; Part001.greetingStage g o';
      Part001.authenticationStage g o'; Part001.initiationStage g o';
      Part001.messageStage g o'; Part001.session g o']) /\
  ((forall p, alike p (serve accepted_codes) ->
      res (Shokuhou.session o p) = Val tt) /\
   (forall p, Js.truthy (Part001.password o') = false ->
      alike p (serve accepted_codes) ->
      res (Part001.session g o' p) = Val tt) /\
   (forall p, Js.truthy (Part001.password o') = true ->
      Js.btoa (Part001.user o') <> None ->
      Js.btoa (Js.show (Part001.password o')) <> None ->
      alike p (serve accepted_codes_with_login) ->
      res (Part001.session g o' p) = Val tt)) /\
  (Forall reads_whole_codes
     [Shokuhou.bannerStage; Shokuhou.greetingStage o; Shokuhou.initiationStage o;
      Shokuhou.messageStage o; Shokuhou.session o] /\
   Forall reads_whole_codes
     [Part001.bannerStage g o'; Part001.greetingStage g o';
      Part001.authenticationStage g o'; Part001.initiationStage g o';
      Part001.messageStage g o'; Part001.session g o']).
Proof.
  intros F U.
  pose proof (shokuhou_stage_decisions o) as D.
  pose proof (part001_stage_decisions g o') as D'.
  pose proof (part001_login_decisions g o') as L'.
  split; [exact leading3_first_three_only|].
  split; [split; [exact D | split; [exact D' | exact L']]|].
  split.
  { split; [exact (codes_accepted_of _ _ _ _ _ leading3_first_three_only D)|].
    split; [exact (codes_accepted_of _ _ _ _ _ F D')|].
    split; [intros T; exact (login_codes_accepted_of _ _ _ _ F (L' T))|].
    intros tail.
    destruct (codes_accepted_of _ _ _ _ _ leading3_first_three_only D
                (serve [("250-" ++ tail)%string]) ("-" ++ tail)%string EmptyString []
                (Forall_nil _)) as (_ & G & _).
    destruct (codes_accepted_of _ _ _ _ _ F D'
                (serve [("250-" ++ tail)%string]) ("-" ++ tail)%string EmptyString []
                (Forall_nil _)) as (_ & G' & _).
    split; [exact (G eq_refl) | exact (G' eq_refl)]. }
  split.
  { split; [apply shokuhou_short_replies_fail|].
    split; [now apply part001_short_replies_fail|].
    intros T. now apply part001_short_login_replies_fail. }
  split.
  { split; repeat first [apply Forall_nil | apply Forall_cons];
      auto using shokuhou_banner_prefix, shokuhou_greeting_prefix,
        shokuhou_initiation_prefix, shokuhou_message_prefix, shokuhou_session_prefix,
        part001_banner_prefix, part001_greeting_prefix, part001_authentication_prefix,
        part001_initiation_prefix, part001_message_prefix, part001_session_prefix. }
  split.
  { split; [apply shokuhou_accepts_codes|].
    split; [intros p T A; now apply part001_accepts_codes|].
    intros p T B1 B2 A. now apply part001_accepts_codes_with_login. }
  split; repeat first [apply Forall_nil | apply Forall_cons];
    auto using shokuhou_banner_codes, shokuhou_greeting_codes,
      shokuhou_initiation_codes, shokuhou_message_codes, shokuhou_session_codes,
      part001_banner_codes, part001_greeting_codes, part001_authentication_codes,
      part001_initiation_codes, part001_message_codes, part001_session_codes.
Qed.

Lemma first_three_characters_decide_witness :
  failed_at at_banner (Shokuhou.bannerStage (serve ["22"])) /\
  failed_at at_banner
    (Part001.bannerStage GetStatus.getStatus opts_password (serve ["22"])) /\
  same_exchange
    (Shokuhou.session opts_plain
       (serve ["220 mail.example.test ESMTP"; "250-mail.example.test"; "550 no"]))
    (Shokuhou.session opts_plain
       (serve ["220 ready"; "250 hello"; "550 5.1.8 sender refused"])).
Proof.
  pose proof (first_three_characters_decide GetStatus.getStatus opts_plain
                opts_password getStatus_first_three_only eq_refl)
    as (_ & _ & _ & (S & S' & _) & (P & _) & _).
  split; [|split].
  - exact (proj1 (proj1 (S (serve ["22"]) "22" (le_n 3)) [] eq_refl)).
  - exact (proj1 (proj1 (S' (serve ["22"]) "22" (le_n 3)) [] eq_refl)).
  - apply (Forall_inv (Forall_inv_tail (Forall_inv_tail (Forall_inv_tail
             (Forall_inv_tail P))))).
    repeat split. repeat constructor.
Defined.

(** A multi-line greeting reply, one read: accepted on its first line. *)
Example continuation_reply_accepted :
  res (Shokuhou.greetingStage opts_plain
         (serve [("250-mail.example.test" ++ Js.CRLF ++ "250-PIPELINING" ++ Js.CRLF ++
                  "250 HELP" ++ Js.CRLF)%string])) = Val tt.
Proof. reflexivity. Qed.

Example short_reply_refused :
  failed_at at_banner (Shokuhou.bannerStage (serve ["22"])).
Proof. split; [reflexivity | exists [], "Improper response: 22"; reflexivity]. Qed.

(* ===================================================================== *)
(** * What every path of a stage does *)
(* ===================================================================== *)

Lemma errors_app (t t' : list event) : errors (t ++ t') = errors t ++ errors t'.
Proof. apply flat_map_app. Qed.

Lemma sent_app (t t' : list event) : writes (t ++ t') = writes t ++ writes t'.
Proof. apply flat_map_app. Qed.

Lemma in_followed_by (xs ys : list (list string)) (x y : list string) :
  In x xs -> In y ys -> In (x ++ y) (followed_by xs ys).
Proof.
  intros Hx Hy. unfold followed_by. apply in_flat_map. exists x. split; [assumption|].
  now apply in_map.
Qed.

Lemma behaves_bind (m k : M unit) xs ys al al' :
  behaves m xs al -> behaves k ys al' ->
  behaves (bind m (fun _ => k)) (followed_by xs ys) (al ++ al').
Proof.
  intros Hm Hk p. destruct (Hm p) as (I & R). unfold sent, bind in *.
  destruct (m p) as [[[]|ex|c] q t]; cbn [res trace] in *.
  - destruct (Hk q) as (I' & R'). unfold sent in *.
    destruct (k q) as [r q' t']; cbn [res trace] in *.
    rewrite sent_app, errors_app. destruct R as (E & S). rewrite E. cbn [app].
    split; [apply incl_app; [now apply incl_appl | now apply incl_appr]|].
    destruct r as [[]|ex|c]; auto.
    destruct R' as (E' & S'). split; [assumption | now apply in_followed_by].
  - split; [now apply incl_appl | assumption].
  - split; [now apply incl_appl | assumption].
Qed.

Ltac inside :=
  let l := fresh "l" in
  let H := fresh "H" in
  intros l H; cbn [In] in H |- *;
  repeat match goal with
  | F : _ \/ _ |- _ => destruct F
  | F : False |- _ => destruct F
  end; subst; auto 12.

Ltac every_path :=
  intros [cf rs wf]; explore; unfold sent;
  cbn [res trace writes errors flat_map app length In];
  (split; [inside | repeat split; auto 6]).

Section ShokuhouBehaves.
Variable o : Shokuhou.clientOpts.

Lemma shokuhou_connect_behaves : behaves (Shokuhou.connectStage o) [[]] [].
Proof. every_path. Qed.

Lemma shokuhou_banner_behaves : behaves Shokuhou.bannerStage [[]] [].
Proof. every_path. Qed.

Lemma shokuhou_greeting_behaves :
  behaves (Shokuhou.greetingStage o)
    [[ehlo_line (Shokuhou.domain o)];
     [ehlo_line (Shokuhou.domain o); helo_line (Shokuhou.domain o)]]
    [ehlo_line (Shokuhou.domain o); helo_line (Shokuhou.domain o)].
Proof. unfold ehlo_line, helo_line. every_path. Qed.

Lemma shokuhou_initiation_behaves :
  behaves (Shokuhou.initiationStage o)
    [[mail_line (Shokuhou.sender o); rcpt_line (Shokuhou.recipient o)]]
    [mail_line (Shokuhou.sender o); rcpt_line (Shokuhou.recipient o)].
Proof. unfold mail_line, rcpt_line. every_path. Qed.

Lemma shokuhou_message_behaves :
  behaves (Shokuhou.messageStage o)
    [[data_line; Shokuhou.message_data o]]
    [data_line; Shokuhou.message_data o].
Proof. unfold data_line. every_path. Qed.

Lemma shokuhou_quit_behaves : behaves Shokuhou.quitStage [[quit_line]] [quit_line].
Proof. unfold quit_line. every_path. Qed.

End ShokuhouBehaves.

Section Part001Behaves.
Variable g : option string -> option string.
Variable o : Part001.clientOpts.

Lemma part001_connect_behaves : behaves (Part001.connectStage o) [[]] [].
Proof. every_path. Qed.

Lemma part001_banner_behaves : behaves (Part001.bannerStage g o) [[]] [].
Proof. every_path. Qed.

Lemma part001_greeting_behaves :
  behaves (Part001.greetingStage g o)
    [[ehlo_line (Part001.domain o)];
     [ehlo_line (Part001.domain o); helo_line (Part001.domain o)]]
    [ehlo_line (Part001.domain o); helo_line (Part001.domain o)].
Proof. unfold ehlo_line, helo_line. every_path. Qed.

Lemma part001_authentication_behaves :
  behaves (Part001.authenticationStage g o)
    [if Js.truthy (Part001.password o)
     then auth_lines (Part001.user o) (Part001.password o) else []]
    (if Js.truthy (Part001.password o)
     then auth_lines (Part001.user o) (Part001.password o) else []).
Proof. unfold auth_lines, encoded. every_path. Qed.

Lemma part001_initiation_behaves :
  behaves (Part001.initiationStage g o)
    [[mail_line (Part001.sender o); rcpt_line (Part001.recipient o)]]
    [mail_line (Part001.sender o); rcpt_line (Part001.recipient o)].
Proof. unfold mail_line, rcpt_line. every_path. Qed.

Lemma part001_message_behaves :
  behaves (Part001.messageStage g o)
    [[data_line; Part001.message_data o]]
    [data_line; Part001.message_data o].
Proof. unfold data_line. every_path. Qed.

Lemma part001_quit_behaves : behaves (Part001.quitStage o) [[quit_line]] [quit_line].
Proof. unfold quit_line. every_path. Qed.

End Part001Behaves.

Lemma shokuhou_session_behaves (o : Shokuhou.clientOpts) :
  behaves (Shokuhou.session o)
    [shokuhou_lines o false; shokuhou_lines o true] (shokuhou_lines o true).
Proof.
  unfold Shokuhou.session.
  pose proof (behaves_bind _ _ _ _ _ _ (shokuhou_connect_behaves o)
    (behaves_bind _ _ _ _ _ _ shokuhou_banner_behaves
    (behaves_bind _ _ _ _ _ _ (shokuhou_greeting_behaves o)
    (behaves_bind _ _ _ _ _ _ (shokuhou_initiation_behaves o)
    (behaves_bind _ _ _ _ _ _ (shokuhou_message_behaves o)
       shokuhou_quit_behaves))))) as B.
  exact B.
Qed.

Lemma part000_session_behaves (o : Shokuhou.clientOpts) :
  behaves (Part000.session o)
    [part000_lines o false; part000_lines o true] (part000_lines o true).
Proof.
  unfold Part000.session.
  exact (behaves_bind _ _ _ _ _ _ (shokuhou_connect_behaves o)
    (behaves_bind _ _ _ _ _ _ shokuhou_banner_behaves
    (behaves_bind _ _ _ _ _ _ (shokuhou_greeting_behaves o)
       shokuhou_quit_behaves))).
Qed.

Lemma part001_session_behaves g (o : Part001.clientOpts) :
  behaves (Part001.session g o)
    [part001_lines o false; part001_lines o true] (part001_lines o true).
Proof.
  unfold Part001.session.
  pose proof (behaves_bind _ _ _ _ _ _ (part001_connect_behaves o)
    (behaves_bind _ _ _ _ _ _ (part001_banner_behaves g o)
    (behaves_bind _ _ _ _ _ _ (part001_greeting_behaves g o)
    (behaves_bind _ _ _ _ _ _ (part001_authentication_behaves g o)
    (behaves_bind _ _ _ _ _ _ (part001_initiation_behaves g o)
    (behaves_bind _ _ _ _ _ _ (part001_message_behaves g o)
       (part001_quit_behaves o))))))) as B.
  unfold part001_lines. destruct (Js.truthy (Part001.password o)); exact B.
Qed.

Lemma val_of_bind (m k : M unit) (p : peer) :
  res (bind m (fun _ => k) p) = Val tt ->
  res (m p) = Val tt /\ res (k (rest (m p))) = Val tt.
Proof.
  unfold bind. destruct (m p) as [[[]|ex|c] q t]; cbn [res rest]; try discriminate.
  destruct (k q) as [r q' t']. cbn [res]. auto.
Qed.

Lemma part001_login_encodes g (o : Part001.clientOpts) (p : peer) :
  Js.truthy (Part001.password o) = true ->
  res (Part001.authenticationStage g o p) = Val tt ->
  Js.btoa (Part001.user o) <> None /\
  Js.btoa (Js.show (Part001.password o)) <> None.
Proof.
  intros T. destruct p as [cf rs wf]. explore; cbn [res]; intros R;
    try discriminate R; split; congruence.
Qed.

(** X6.  A session that completes has written the whole transaction, every line
    once and in order, and has printed no [console.error]; when it is a
    session of [part_001] with a password, [btoa] has encoded the user
    name and the password. *)
Theorem completed_run_wrote_the_transaction
    (g : option string -> option string)
    (o : Shokuhou.clientOpts) (o' : Part001.clientOpts) (p : peer) :
  (res (Shokuhou.session o p) = Val tt ->
     errors (trace (Shokuhou.session o p)) = [] /\
     exists fallback, sent (Shokuhou.session o p) = shokuhou_lines o fallback) /\
  (res (Part000.session o p) = Val tt ->
     errors (trace (Part000.session o p)) = [] /\
     exists fallback, sent (Part000.session o p) = part000_lines o fallback) /\
  (res (Part001.session g o' p) = Val tt ->
     errors (trace (Part001.session g o' p)) = [] /\
     (exists fallback, sent (Part001.session g o' p) = part001_lines o' fallback) /\
     (Js.truthy (Part001.password o') = true ->
      Js.btoa (Part001.user o') <> None /\
      Js.btoa (Js.show (Part001.password o')) <> None)).
Proof.
  pose proof (shokuhou_session_behaves o p) as (_ & X).
  pose proof (part000_session_behaves o p) as (_ & Y).
  pose proof (part001_session_behaves g o' p) as (_ & Z).
  split; [|split].
  all: intros R;
    match goal with
    | H : match res ?x with _ => _ end |- context [?x] =>
        pose proof R as R'; rewrite R in H; destruct H as (E & I)
    end; (split; [assumption|]).
  1-2: destruct I as [<-|[<-|[]]]; [exists false | exists true]; reflexivity.
  split; [destruct I as [<-|[<-|[]]]; [exists false | exists true]; reflexivity|].
  intros T. unfold Part001.session in R'.
  do 3 (apply val_of_bind in R'; destruct R' as (_ & R')).
  apply val_of_bind in R'. destruct R' as (R' & _).
  now apply part001_login_encodes in R'.
Qed.

Lemma completed_run_wrote_the_transaction_witness :
  exists fallback,
    sent (Shokuhou.session opts_plain
            (serve ["220 ready"; "502 no EHLO"; "250 hello"; "250 ok"; "251 ok";
                    "354 go ahead"; "250 queued"])) =
    shokuhou_lines opts_plain fallback.
Proof.
  exact (proj2 (proj1 (completed_run_wrote_the_transaction GetStatus.getStatus
                         opts_plain opts_password
                         (serve ["220 ready"; "502 no EHLO"; "250 hello"; "250 ok";
                                 "251 ok"; "354 go ahead"; "250 queued"]))
                  eq_refl)).
Defined.

Lemma no_login_in_plain_transaction domain fallback sender recipient body :
  (exists rest, body = String "F" rest) ->
  ~ In ("AUTH LOGIN" ++ Js.CRLF)%string
       (transaction domain fallback [] sender recipient body).
Proof.
  intros [rest ->]. unfold transaction, ehlo_line, helo_line, mail_line, rcpt_line,
    data_line, quit_line.
  destruct fallback; cbn [app In]; intros F;
    repeat match goal with
    | H : _ \/ _ |- _ => destruct H
    | H : False |- _ => destruct H
    | H : _ = _ :> string |- _ => cbn in H; discriminate H
    end.
Qed.

(** X7.  Whatever the peer does, a session writes nothing but the lines of its
    transaction: [shokuhou.js] and [part_000] never write AUTH LOGIN, and
    neither does [part_001] when no password is configured; [part_000]
    writes nothing but EHLO, HELO and QUIT. *)
Theorem session_writes_only_its_transaction
    (g : option string -> option string)
    (o : Shokuhou.clientOpts) (o' : Part001.clientOpts) (p : peer) :
  incl (sent (Shokuhou.session o p)) (shokuhou_lines o true) /\
  incl (sent (Part000.session o p)) (part000_lines o true) /\
  incl (sent (Part001.session g o' p)) (part001_lines o' true) /\
  ~ In ("AUTH LOGIN" ++ Js.CRLF)%string (sent (Shokuhou.session o p)) /\
  (Js.truthy (Part001.password o') = false ->
   ~ In ("AUTH LOGIN" ++ Js.CRLF)%string (sent (Part001.session g o' p))).
Proof.
  pose proof (shokuhou_session_behaves o p) as (X & _).
  pose proof (part000_session_behaves o p) as (Y & _).
  pose proof (part001_session_behaves g o' p) as (Z & _).
  repeat split; try assumption.
  - intros F. apply X in F. revert F. apply no_login_in_plain_transaction.
    unfold Shokuhou.message_data. cbn. eauto.
  - intros T F. apply Z in F. revert F. unfold part001_lines. rewrite T.
    apply no_login_in_plain_transaction.
    unfold Part001.message_data. cbn. eauto.
Qed.

(* ===================================================================== *)
(** * The argument block *)
(* ===================================================================== *)

Lemma run_after_nothing {A} (x : outcome A) :
  match x with Out r q t => Out r q ([] ++ t) end = x.
Proof. now destruct x. Qed.

Lemma refused_arguments_usage
    (g : option string -> option string) (a : argv) (p : peer) :
  refused_arguments a = true ->
  Shokuhou.main a p = Out (Halt 0%Z) p usage_lines /\
  Part000.main a p = Out (Halt 0%Z) p usage_lines /\
  Part001.main g a p = Out (Halt 0%Z) p usage_lines_verbose.
Proof.
  intros B.
  destruct (shokuhou_refuses a p B) as [ex E].
  destruct (part001_refuses a p B) as [ex' E'].
  unfold Shokuhou.main, Part000.main, Part001.main, bind, try_catch.
  rewrite E, E'. repeat split.
Qed.

Lemma bad_arguments_refused (a : argv) :
  bad_arguments a = true -> refused_arguments a = true.
Proof. unfold refused_arguments. now intros ->. Qed.

(** X2.  With [--help], or without a non-empty [-u], [-r] or [-h], the script
    prints its help text and exits with code 0: it opens no connection and
    consumes nothing of the peer. *)
Theorem bad_arguments_print_usage
    (g : option string -> option string) (a : argv) (p : peer) :
  bad_arguments a = true ->
  Shokuhou.main a p = Out (Halt 0%Z) p usage_lines /\
  Part000.main a p = Out (Halt 0%Z) p usage_lines /\
  Part001.main g a p = Out (Halt 0%Z) p usage_lines_verbose.
Proof. intros B. now apply refused_arguments_usage, bad_arguments_refused. Qed.

Lemma bad_arguments_print_usage_witness :
  let a := mkArgv false (Str "alice@example.com") Undefined Undefined
             (Str "mail.example.test") Undefined Undefined false in
  Shokuhou.main a (serve ["220 ready"]) = Out (Halt 0%Z) (serve ["220 ready"]) usage_lines /\
  Part000.main a (serve ["220 ready"]) = Out (Halt 0%Z) (serve ["220 ready"]) usage_lines /\
  Part001.main GetStatus.getStatus a (serve ["220 ready"]) =
    Out (Halt 0%Z) (serve ["220 ready"]) usage_lines_verbose.
Proof.
  exact (bad_arguments_print_usage GetStatus.getStatus
           (mkArgv false (Str "alice@example.com") Undefined Undefined
              (Str "mail.example.test") Undefined Undefined false)
           (serve ["220 ready"]) eq_refl).
Defined.

Lemma shokuhou_main_runs (a : argv) (p : peer) :
  refused_arguments a = false ->
  Shokuhou.main a p = Shokuhou.session (shokuhou_options a) p /\
  Part000.main a p = Part000.session (shokuhou_options a) p.
Proof.
  intros B. unfold Shokuhou.main, Part000.main, bind, try_catch.
  rewrite (shokuhou_resolves a p B). split; apply run_after_nothing.
Qed.

Lemma part001_main_runs g (a : argv) (p : peer) :
  refused_arguments a = false ->
  Part001.main g a p = Part001.session g (part001_options a) p.
Proof.
  intros B. unfold Part001.main, bind, try_catch.
  rewrite (part001_resolves a p B). apply run_after_nothing.
Qed.

Lemma shokuhou_connects_first (o : Shokuhou.clientOpts) (p : peer) :
  hd_error (trace (Shokuhou.session o p)) =
    Some (Connect (Shokuhou.port o) (Shokuhou.host o)) /\
  hd_error (trace (Part000.session o p)) =
    Some (Connect (Shokuhou.port o) (Shokuhou.host o)).
Proof.
  split.
  - unfold Shokuhou.session.
    set (k := bind Shokuhou.bannerStage _).
    destruct p as [[ex|] rs wf]; exec; [reflexivity|].
    now destruct (k _).
  - unfold Part000.session.
    set (k := bind Shokuhou.bannerStage _).
    destruct p as [[ex|] rs wf]; exec; [reflexivity|].
    now destruct (k _).
Qed.

Lemma part001_connects_first g (o : Part001.clientOpts) (p : peer) :
  hd_error (trace (Part001.session g o p)) =
    Some (Connect (Part001.port o) (Part001.host o)).
Proof.
  unfold Part001.session.
  set (k := bind (Part001.bannerStage g _) _).
  destruct p as [[ex|] rs wf]; exec; [reflexivity|].
  now destruct (k _).
Qed.

(** X3.  With a non-empty [-u], [-r] and [-h], no [--help], and a sender
    that is a string, the script runs the session with the options read
    off the arguments: the sender is [-s] when given and not empty and
    [-u] otherwise, the port is [-o] or 25, a password is configured only
    when [-p] is not empty; and the first thing it does is to connect to
    that host and port.  When the sender is no string ([-u], or [-s],
    given more than once or with a dotted key, which [minimist] turns into
    an array or an object) the call of [split] throws, and the script
    ends with the help text and code 0 as it does for a missing
    argument. *)
Theorem good_arguments_run_the_session
    (g : option string -> option string) (a : argv) (p : peer) :
  (refused_arguments a = false ->
   Shokuhou.main a p = Shokuhou.session (shokuhou_options a) p /\
   Part000.main a p = Part000.session (shokuhou_options a) p /\
   Part001.main g a p = Part001.session g (part001_options a) p /\
   hd_error (trace (Shokuhou.main a p)) =
     Some (Connect (Shokuhou.port (shokuhou_options a)) (text_of (arg_h a))) /\
   hd_error (trace (Part000.main a p)) =
     Some (Connect (Shokuhou.port (shokuhou_options a)) (text_of (arg_h a))) /\
   hd_error (trace (Part001.main g a p)) =
     Some (Connect (Part001.port (part001_options a)) (text_of (arg_h a)))) /\
  (is_text (sender_of a) = false ->
   Shokuhou.main a p = Out (Halt 0%Z) p usage_lines /\
   Part000.main a p = Out (Halt 0%Z) p usage_lines /\
   Part001.main g a p = Out (Halt 0%Z) p usage_lines_verbose).
Proof.
  split.
  - intros B.
    destruct (shokuhou_main_runs a p B) as (S & S0).
    pose proof (part001_main_runs g a p B) as S1.
    destruct (shokuhou_connects_first (shokuhou_options a) p) as (C & C0).
    pose proof (part001_connects_first g (part001_options a) p) as C1.
    rewrite S, S0, S1. repeat split; assumption.
  - intros T. apply refused_arguments_usage. unfold refused_arguments.
    rewrite T. apply orb_true_r.
Qed.

Lemma good_arguments_run_the_session_witness :
  let a := mkArgv false (Str "alice") (Str "postmaster@example.com")
             (Str "bob@example.test") (Str "mail.example.test")
             (Str "secret") (Str "587") true in
  let p := serve ["220 ready"] in
  Shokuhou.main a p = Shokuhou.session (shokuhou_options a) p /\
  Part000.main a p = Part000.session (shokuhou_options a) p /\
  Part001.main GetStatus.getStatus a p =
    Part001.session GetStatus.getStatus (part001_options a) p /\
  hd_error (trace (Shokuhou.main a p)) =
    Some (Connect (PortStr "587") "mail.example.test") /\
  hd_error (trace (Part000.main a p)) =
    Some (Connect (PortStr "587") "mail.example.test") /\
  hd_error (trace (Part001.main GetStatus.getStatus a p)) =
    Some (Connect (PortStr "587") "mail.example.test").
Proof.
  exact (proj1 (good_arguments_run_the_session GetStatus.getStatus
                  (mkArgv false (Str "alice") (Str "postmaster@example.com")
                     (Str "bob@example.test") (Str "mail.example.test")
                     (Str "secret") (Str "587") true)
                  (serve ["220 ready"])) eq_refl).
Defined.

(** [-u a -u b -r bob@example.test -h mail.example.test]: [minimist] makes
    the array [["a", "b"]] of the two users, [split] is no method of it,
    and the script prints the help text. *)
Example repeated_user_prints_usage :
  let a := mkArgv false (Obj "a" ",b") Undefined (Str "bob@example.test")
             (Str "mail.example.test") Undefined Undefined false in
  bad_arguments a = false /\
  Shokuhou.main a (serve ["220 ready"]) = Out (Halt 0%Z) (serve ["220 ready"]) usage_lines.
Proof. split; reflexivity. Qed.

(** Login and envelope sender are kept apart: with [-u alice -s
    postmaster@example.com -p secret], [part_001] logs in as [alice] and
    sends mail from [postmaster@example.com]. *)
Example login_user_and_envelope_sender :
  let a := mkArgv false (Str "alice") (Str "postmaster@example.com")
             (Str "bob@example.test") (Str "mail.example.test")
             (Str "secret") Undefined false in
  sent (Part001.main GetStatus.getStatus a
          (serve ["220 ready"; "250 hello"; "334 VXNlcm5hbWU6"; "334 UGFzc3dvcmQ6";
                  "235 ok"; "250 ok"; "550 no such user"])) =
  [("EHLO example.com" ++ Js.CRLF)%string;
   ("AUTH LOGIN" ++ Js.CRLF)%string;
   ("YWxpY2U=" ++ Js.CRLF)%string;
   ("c2VjcmV0" ++ Js.CRLF)%string;
   ("MAIL FROM: <postmaster@example.com>" ++ Js.CRLF)%string;
   ("RCPT TO: <bob@example.test>" ++ Js.CRLF)%string].
Proof. reflexivity. Qed.

(** X4.  Whatever the arguments and the peer, a script that exits exits with
    code 0. *)
Theorem every_exit_has_code_zero
    (g : option string -> option string) (a : argv) (p : peer) (c : Z) :
  res (Shokuhou.main a p) = Halt c \/
  res (Part000.main a p) = Halt c \/
  res (Part001.main g a p) = Halt c ->
  c = 0%Z.
Proof.
  destruct (refused_arguments a) eqn:B.
  - destruct (refused_arguments_usage g a p B) as (-> & -> & ->).
    cbn [res]. intros [H|[H|H]]; congruence.
  - destruct (shokuhou_main_runs a p B) as (-> & ->).
    rewrite (part001_main_runs g a p B).
    destruct (shokuhou_session_behaves (shokuhou_options a) p) as (_ & X).
    destruct (part000_session_behaves (shokuhou_options a) p) as (_ & Y).
    destruct (part001_session_behaves g (part001_options a) p) as (_ & Z).
    intros [H|[H|H]]; rewrite H in *; tauto.
Qed.

Lemma every_exit_has_code_zero_witness :
  res (Shokuhou.main argv_plain (serve ["554 go away"])) = Halt 0%Z /\ 0%Z = 0%Z.
Proof.
  split; [reflexivity|].
  exact (every_exit_has_code_zero GetStatus.getStatus argv_plain
           (serve ["554 go away"]) 0%Z (or_introl eq_refl)).
Defined.

(* ===================================================================== *)
(** * The whole script and its rejection handler *)
(* ===================================================================== *)

Lemma handled_reports (e : engine) (m : M unit) xs al (p : peer) :
  behaves m xs al ->
  leaves_socket p (m p) \/ (exists c, res (m p) = Halt c) ->
  reports e false (ErrorHandler.handled e m p).
Proof.
  intros B L. destruct (B p) as (_ & R).
  unfold reports, ErrorHandler.handled, ErrorHandler.unhandledRejection, try_catch,
    console.
  destruct (m p) as [[[]|ex|c] q t]; cbn [res trace] in *.
  - left. destruct L as [(_ & E & _)|[c F]]; [|discriminate F].
    split; [apply R | now apply E].
  - right. exists ex. destruct L as [(_ & _ & N)|[c F]]; [|discriminate F].
    destruct (N ex eq_refl) as (_ & N' & _). cbn [trace] in N'.
    rewrite errors_app, R. split; [reflexivity|].
    split; [now exists t|]. now rewrite released_app, N'.
  - exact R.
Qed.

Lemma unconnected_or_released {A} (p : peer) (x : outcome unit) (ex' : A) :
  (connect_fault p = None -> leaves_socket p x) ->
  (forall ex, connect_fault p = Some ex -> exists t, x = Out (Halt 0%Z) p t) ->
  leaves_socket p x \/ (exists c, res x = Halt c).
Proof.
  intros L U. destruct (connect_fault p) as [ex|] eqn:C.
  - right. destruct (U ex eq_refl) as [t ->]. now exists 0%Z.
  - left. now apply L.
Qed.

(** X5.  Every run of a whole script reports on itself.  A run that exits
    does so with code 0: after the help text and no [console.error] when
    the arguments are refused, after exactly one [console.error] (that of
    the [catch] clause it ends in) otherwise.  A run that does not exit
    has either completed, with [client.end()] as the last thing it did and
    no [console.error], or its closure was rejected (the write of QUIT
    failed): then the handler that [errorHandler.js] registers has printed
    the one [console.error] of the run, and the socket is not released. *)
Theorem failure_is_reported_once_and_exits_zero
    (g : option string -> option string) (e : engine) (a : argv) (p : peer) :
  reports e (refused_arguments a) (Shokuhou.script e a p) /\
  reports e (refused_arguments a) (Part000.script e a p) /\
  reports e (refused_arguments a) (Part001.script g e a p).
Proof.
  unfold Shokuhou.script, Part000.script, Part001.script.
  destruct (refused_arguments a) eqn:B.
  - unfold ErrorHandler.handled, try_catch.
    destruct (refused_arguments_usage g a p B) as (-> & -> & ->).
    repeat split.
  - unfold ErrorHandler.handled at 1 2 3, try_catch.
    destruct (shokuhou_main_runs a p B) as (-> & ->).
    rewrite (part001_main_runs g a p B).
    split; [|split].
    + apply (handled_reports e _ _ _ p (shokuhou_session_behaves (shokuhou_options a))).
      apply (unconnected_or_released p _ tt).
      * apply shokuhou_session_releases.
      * intros ex C. eexists. exact (shokuhou_session_unconnected _ p ex C).
    + apply (handled_reports e _ _ _ p (part000_session_behaves (shokuhou_options a))).
      apply (unconnected_or_released p _ tt).
      * apply part000_session_releases.
      * intros ex C. eexists. exact (part000_session_unconnected _ p ex C).
    + apply (handled_reports e _ _ _ p (part001_session_behaves g (part001_options a))).
      apply (unconnected_or_released p _ tt).
      * apply part001_session_releases.
      * intros ex C. eexists. exact (part001_session_unconnected g _ p ex C).
Qed.

(** The write of QUIT fails: the handler prints, nothing exits, and the
    socket stays as it is. *)
Example rejected_closure_is_reported :
  let e := mkEngine (fun _ => Some "Error: write EPIPE") (fun _ => "Promise { <rejected> }") in
  let p := mkPeer None
             (map Data ["220 ready"; "250 hello"; "250 ok"; "250 ok";
                        "354 go ahead"; "250 queued"])
             [None; None; None; None; None; Some (ErrorObj "Error" "write EPIPE")] in
  let x := Shokuhou.script e argv_plain p in
  res x = Val tt /\
  errors (trace x) =
    [("Unhandled rejection: " ++ ErrorHandler.LF ++ "Error: write EPIPE" ++
      ErrorHandler.LF ++ "Stack:" ++ ErrorHandler.LF ++ "Error: write EPIPE" ++
      ErrorHandler.LF ++ "Promise:" ++ ErrorHandler.LF ++ "Promise { <rejected> }")%string] /\
  released (trace x) = false.
Proof. repeat split. Qed.

(* ===================================================================== *)
(** * The banner *)
(* ===================================================================== *)

Lemma hd_error_app {A} (l l' : list A) (a : A) :
  hd_error l = Some a -> hd_error (l ++ l') = Some a.
Proof. destruct l; [discriminate | trivial]. Qed.

Lemma sent_bind_prefix (m k : M unit) (p : peer) :
  exists more, sent (bind m (fun _ => k) p) = sent (m p) ++ more.
Proof.
  unfold sent, bind. destruct (m p) as [[[]|ex|c] q t]; cbn [trace].
  - destruct (k q) as [r q' t']. cbn [trace]. exists (writes t'). apply sent_app.
  - exists []. now rewrite app_nil_r.
  - exists []. now rewrite app_nil_r.
Qed.

Lemma shokuhou_greeting_then (o : Shokuhou.clientOpts) (k : M unit) (q : peer) :
  hd_error (sent (bind (Shokuhou.greetingStage o) (fun _ => k) q)) =
  Some (ehlo_line (Shokuhou.domain o)).
Proof.
  destruct (sent_bind_prefix (Shokuhou.greetingStage o) k q) as [more ->].
  apply hd_error_app, shokuhou_greeting_opens_with_ehlo.
Qed.

Lemma part001_greeting_then g (o : Part001.clientOpts) (k : M unit) (q : peer) :
  hd_error (sent (bind (Part001.greetingStage g o) (fun _ => k) q)) =
  Some (ehlo_line (Part001.domain o)).
Proof.
  destruct (sent_bind_prefix (Part001.greetingStage g o) k q) as [more ->].
  apply hd_error_app, part001_greeting_opens_with_ehlo.
Qed.

(** Give the session from the greeting on a name, run it up to there, and
    use what is known of the greeting. *)
Ltac up_to_greeting greeting_then :=
  match goal with
  | |- context [bind ?greeting ?k] =>
      match greeting with
      | Shokuhou.greetingStage _ => idtac
      | Part001.greetingStage _ _ => idtac
      end;
      let G := fresh "G" in
      pose proof (fun q => greeting_then (k tt) q) as G;
      cbv beta in G;
      set (after := bind greeting k) in *
  end.

Lemma shokuhou_banner_gate (o : Shokuhou.clientOpts) (p : peer) :
  banner_gate leading3 (Shokuhou.session o) (ehlo_line (Shokuhou.domain o)) p.
Proof.
  unfold banner_gate, banner_ok, Shokuhou.session, sent.
  up_to_greeting (shokuhou_greeting_then o).
  destruct p as [[ex|] [|[r| |e] rs] wf]; cbn [connect_fault replies leading3 Js.loose_eq].
  all: split; [intros C B; try discriminate C; try discriminate B
              | intros [C|B]; try congruence; try discriminate B].
  all: tests; run; try (split; reflexivity).
  all: try (specialize (G (mkPeer None rs wf)); unfold sent in G;
            destruct (after (mkPeer None rs wf)) as [r' q' t']; exact G).
Qed.

Lemma part000_banner_gate (o : Shokuhou.clientOpts) (p : peer) :
  banner_gate leading3 (Part000.session o) (ehlo_line (Shokuhou.domain o)) p.
Proof.
  unfold banner_gate, banner_ok, Part000.session, sent.
  up_to_greeting (shokuhou_greeting_then o).
  destruct p as [[ex|] [|[r| |e] rs] wf]; cbn [connect_fault replies leading3 Js.loose_eq].
  all: split; [intros C B; try discriminate C; try discriminate B
              | intros [C|B]; try congruence; try discriminate B].
  all: tests; run; try (split; reflexivity).
  all: try (specialize (G (mkPeer None rs wf)); unfold sent in G;
            destruct (after (mkPeer None rs wf)) as [r' q' t']; exact G).
Qed.

Lemma part001_banner_gate g (o : Part001.clientOpts) (p : peer) :
  g None = None ->
  banner_gate (fun r => g (Some r)) (Part001.session g o)
    (ehlo_line (Part001.domain o)) p.
Proof.
  intros U.
  unfold banner_gate, banner_ok, Part001.session, sent.
  up_to_greeting (part001_greeting_then g o).
  destruct (Part001.verbose o) eqn:V;
    destruct p as [[ex|] [|[r| |e] rs] wf]; cbn [connect_fault replies Js.loose_eq].
  all: split; [intros C B; try discriminate C; try discriminate B
              | intros [C|B]; try congruence; try discriminate B].
  all: tests; run; try rewrite U; cbn [Js.loose_eq]; run; try (split; reflexivity).
  all: try (specialize (G (mkPeer None rs wf)); unfold sent in G;
            destruct (after (mkPeer None rs wf)) as [r' q' t']; exact G).
Qed.

(** X8.  No line is written before the connection is made and a banner with
    status 220 has been read: without them the session writes nothing and
    exits with code 0; with them the first line it writes is EHLO. *)
Theorem nothing_is_written_before_a_220_banner
    (g : option string -> option string)
    (o : Shokuhou.clientOpts) (o' : Part001.clientOpts) (p : peer) :
  g None = None ->
  banner_gate leading3 (Shokuhou.session o) (ehlo_line (Shokuhou.domain o)) p /\
  banner_gate leading3 (Part000.session o) (ehlo_line (Shokuhou.domain o)) p /\
  banner_gate (fun r => g (Some r)) (Part001.session g o')
    (ehlo_line (Part001.domain o')) p.
Proof.
  intros U. split; [apply shokuhou_banner_gate|].
  split; [apply part000_banner_gate | now apply part001_banner_gate].
Qed.

Lemma nothing_is_written_before_a_220_banner_witness :
  let p := serve ["421 service not available"; "250 hello"] in
  banner_gate leading3 (Shokuhou.session opts_plain) (ehlo_line (Some "example.com")) p /\
  banner_gate leading3 (Part000.session opts_plain) (ehlo_line (Some "example.com")) p /\
  banner_gate (fun r => GetStatus.getStatus (Some r))
    (Part001.session GetStatus.getStatus opts_password)
    (ehlo_line (Some "example.com")) p.
Proof.
  exact (nothing_is_written_before_a_220_banner GetStatus.getStatus opts_plain
           opts_password (serve ["421 service not available"; "250 hello"]) eq_refl).
Defined.

(* ===================================================================== *)
(** * MAIL FROM refused *)
(* ===================================================================== *)

(** X9.  When the status of the reply to MAIL FROM is not 250 the initiation
    block stops there: RCPT TO is not written, the second reply is not
    read, and the run ends in the [catch] clause of the block. *)
Theorem refused_sender_stops_before_rcpt
    (g : option string -> option string)
    (o : Shokuhou.clientOpts) (o' : Part001.clientOpts)
    (p : peer) (r1 : string) (rs : list incoming) :
  healthy p ->
  replies p = Data r1 :: rs ->
  leading3 r1 <> Some "250" ->
  g (Some r1) <> Some "250" ->
  (sent (Shokuhou.initiationStage o p) = [mail_line (Shokuhou.sender o)] /\
   replies (rest (Shokuhou.initiationStage o p)) = rs /\
   failed_at at_initiation (Shokuhou.initiationStage o p)) /\
  (sent (Part001.initiationStage g o' p) = [mail_line (Part001.sender o')] /\
   replies (rest (Part001.initiationStage g o' p)) = rs /\
   failed_at at_initiation (Part001.initiationStage g o' p)).
Proof.
  intros H E N N'. open_peer p. subst.
  unfold mail_line, at_initiation, sent.
  destruct (Part001.verbose o') eqn:V; tests; next_write_ok.
  all: split;
    [ outcome_of (Shokuhou.initiationStage o); settle
    | outcome_of (Part001.initiationStage g o'); settle ].
Qed.

Lemma refused_sender_stops_before_rcpt_witness :
  let p := serve ["553 sender address rejected"; "250 ok"] in
  (sent (Shokuhou.initiationStage opts_plain p) = [mail_line "alice@example.com"] /\
   replies (rest (Shokuhou.initiationStage opts_plain p)) = [Data "250 ok"] /\
   failed_at at_initiation (Shokuhou.initiationStage opts_plain p)) /\
  (sent (Part001.initiationStage GetStatus.getStatus opts_password p) =
     [mail_line "alice@example.com"] /\
   replies (rest (Part001.initiationStage GetStatus.getStatus opts_password p)) =
     [Data "250 ok"] /\
   failed_at at_initiation (Part001.initiationStage GetStatus.getStatus opts_password p)).
Proof.
  exact (refused_sender_stops_before_rcpt GetStatus.getStatus opts_plain opts_password
           (serve ["553 sender address rejected"; "250 ok"])
           "553 sender address rejected" [Data "250 ok"]
           (Forall_nil _) eq_refl
           ltac:(discriminate) ltac:(discriminate)).
Defined.

(* ===================================================================== *)
(** * QUIT *)
(* ===================================================================== *)

(** X10.  The QUIT block writes QUIT and nothing else and never reads: the
    script left to the peer is untouched.  When the write goes through the
    block calls [client.end()] last and the session completes, whatever
    the server would answer; when the write fails the error leaves the
    closure as an unhandled rejection and the socket is neither ended nor
    destroyed. *)
Theorem quit_is_written_and_never_answered
    (o' : Part001.clientOpts) (p : peer) :
  let x := Shokuhou.quitStage p in
  let y := Part001.quitStage o' p in
  (sent x = [quit_line] /\ replies (rest x) = replies p /\
   sent y = [quit_line] /\ replies (rest y) = replies p) /\
  match write_faults p with
  | Some ex :: _ =>
      res x = Raise ex /\ released (trace x) = false /\
      res y = Raise ex /\ released (trace y) = false
  | _ =>
      res x = Val tt /\ ends_with End (trace x) /\
      res y = Val tt /\ ends_with End (trace y)
  end.
Proof.
  cbv zeta. destruct p as [cf rs wf]. unfold quit_line, sent.
  destruct (Part001.verbose o') eqn:V; destruct wf as [|[ex|] wf];
    run; cbn [writes flat_map app released existsb is_release orb];
    repeat split; show_ends.
Qed.

(* ===================================================================== *)
(** * The domain of a sender with several [@] *)
(* ===================================================================== *)

Lemma split_all_unfold (c : ascii) (s : string) :
  Js.split_all c s =
  before_first c s ::
  (if Nat.eqb (occurrences c s) 0 then [] else Js.split_all c (after_first c s)).
Proof.
  induction s as [|a s IH]; [reflexivity|].
  cbn [Js.split_all before_first occurrences after_first].
  destruct (Ascii.eqb a c); [reflexivity|].
  rewrite IH. reflexivity.
Qed.

Lemma domain_of_sender (s : string) :
  Js.index (Js.split "@" 2 s) 1 =
  if Nat.eqb (occurrences "@" s) 0 then None
  else Some (before_first "@" (after_first "@" s)).
Proof.
  unfold Js.split, Js.index. rewrite split_all_unfold.
  destruct (Nat.eqb (occurrences "@" s) 0); [reflexivity|].
  rewrite split_all_unfold. reflexivity.
Qed.

(** X11.  The domain the argument block stores is the text between the first
    [@] of the sender and the second, or the end of the sender when there
    is no second one; it is [undefined] exactly when the sender holds no
    [@].  What follows a second [@] is dropped. *)
Theorem domain_is_cut_at_the_second_at
    (a : argv) (p : peer) (o : Shokuhou.clientOpts) (o' : Part001.clientOpts) :
  res (Shokuhou.resolveOpts a p) = Val o ->
  res (Part001.resolveOpts a p) = Val o' ->
  Shokuhou.domain o =
    (if Nat.eqb (occurrences "@" (Shokuhou.sender o)) 0 then None
     else Some (before_first "@" (after_first "@" (Shokuhou.sender o)))) /\
  Part001.domain o' =
    (if Nat.eqb (occurrences "@" (Part001.sender o')) 0 then None
     else Some (before_first "@" (after_first "@" (Part001.sender o')))).
Proof.
  intros R R'.
  rewrite (shokuhou_resolved_domain a p o R), (part001_resolved_domain a p o' R').
  split; apply domain_of_sender.
Qed.

Lemma domain_is_cut_at_the_second_at_witness :
  Shokuhou.domain (shokuhou_options argv_two_ats) = Some "example.com" /\
  Part001.domain (part001_options argv_two_ats) = Some "example.com".
Proof.
  exact (domain_is_cut_at_the_second_at argv_two_ats (serve [])
           (shokuhou_options argv_two_ats) (part001_options argv_two_ats)
           eq_refl eq_refl).
Defined.

(* ===================================================================== *)
(** * [part_000] and [shokuhou.js] *)
(* ===================================================================== *)

Lemma quit_never_exits (q : peer) (c : Z) : res (Shokuhou.quitStage q) <> Halt c.
Proof. destruct q as [cf rs [|[ex|] wf]]; discriminate. Qed.

Lemma shokuhou_initiation_opens_with_mail (o : Shokuhou.clientOpts) (q : peer) :
  hd_error (sent (Shokuhou.initiationStage o q)) = Some (mail_line (Shokuhou.sender o)).
Proof.
  destruct q as [cf rs wf]. unfold sent, mail_line. explore; reflexivity.
Qed.

Lemma quits_where_mail_starts_after (mail : string) (m k k' : M unit) :
  (forall q, quits_where_mail_starts mail (k q) (k' q)) ->
  forall p, quits_where_mail_starts mail (bind m (fun _ => k) p) (bind m (fun _ => k') p).
Proof.
  intros H p. unfold quits_where_mail_starts, sent, bind.
  destruct (m p) as [[[]|ex|c] q t]; cbn [res trace];
    [|split; [reflexivity | discriminate] ..].
  destruct (H q) as (A & B). unfold sent in B.
  destruct (k q) as [r1 q1 t1], (k' q) as [r2 q2 t2]; cbn [res trace] in *.
  split.
  - intros c R. specialize (A c R). now injection A as -> -> ->.
  - intros R. destruct (B R) as (before & more & E1 & E2).
    exists (writes t ++ before), more.
    rewrite !sent_app, E1, E2, <- !app_assoc. split; reflexivity.
Qed.

(** X12.  [part_000] is [shokuhou.js] up to the greeting: when the run of
    [part_000] exits, the run of [shokuhou.js] against the same peer is the
    same run; when it completes, [shokuhou.js] has written the same lines
    up to QUIT, and MAIL FROM in the place of QUIT. *)
Theorem part000_is_shokuhou_up_to_the_greeting
    (o : Shokuhou.clientOpts) (p : peer) :
  quits_where_mail_starts (mail_line (Shokuhou.sender o))
    (Part000.session o p) (Shokuhou.session o p).
Proof.
  unfold Part000.session, Shokuhou.session.
  do 3 apply quits_where_mail_starts_after.
  intros q. split.
  - intros c R. exfalso. exact (quit_never_exits q c R).
  - intros _. exists [].
    destruct (sent_bind_prefix (Shokuhou.initiationStage o)
                (bind (Shokuhou.messageStage o) (fun _ => Shokuhou.quitStage)) q)
      as [more ->].
    pose proof (shokuhou_initiation_opens_with_mail o q) as M.
    destruct (sent (Shokuhou.initiationStage o q)) as [|l ls]; [discriminate|].
    injection M as ->. exists (ls ++ more). split; [|reflexivity].
    destruct q as [cf rs [|[ex|] wf]]; reflexivity.
Qed.

Example part000_stops_after_the_greeting :
  sent (Part000.main argv_plain (serve ["220 ready"; "250 hello"; "250 ok"])) =
  [ehlo_line (Some "example.com"); quit_line].
Proof. reflexivity. Qed.

(* ===================================================================== *)
(** * The refused reply in the console error *)
(* ===================================================================== *)

Ltac quoted stage :=
  intros; tests; do 2 (try next_write_ok); outcome_of stage; reflexivity.

Lemma shokuhou_quotes (o : Shokuhou.clientOpts) p r1 r2 rs :
  healthy p ->
  replies p = Data r1 :: Data r2 :: rs ->
  quotes_the_refused_reply leading3 Js.decode
    Shokuhou.bannerStage (Shokuhou.greetingStage o)
    (Shokuhou.initiationStage o) (Shokuhou.messageStage o) p r1 r2.
Proof.
  intros H E. open_peer p. subst.
  unfold quotes_the_refused_reply, quotes, at_banner, at_greeting, at_initiation,
    at_message.
  split; [quoted Shokuhou.bannerStage|].
  split; [quoted (Shokuhou.greetingStage o)|].
  split; [quoted (Shokuhou.greetingStage o)|].
  split; [quoted (Shokuhou.initiationStage o)|].
  split; [quoted (Shokuhou.initiationStage o)|].
  split; [quoted (Shokuhou.messageStage o) | quoted (Shokuhou.messageStage o)].
Qed.

Lemma part001_quotes g (o : Part001.clientOpts) p r1 r2 rs :
  healthy p ->
  replies p = Data r1 :: Data r2 :: rs ->
  quotes_the_refused_reply (fun r => g (Some r)) (fun r => Js.trim (Js.decode r))
    (Part001.bannerStage g o) (Part001.greetingStage g o)
    (Part001.initiationStage g o) (Part001.messageStage g o) p r1 r2.
Proof.
  intros H E. open_peer p. subst.
  unfold quotes_the_refused_reply, quotes, at_banner, at_greeting, at_initiation,
    at_message.
  destruct (Part001.verbose o) eqn:V.
  all: split; [quoted (Part001.bannerStage g o)|].
  all: split; [quoted (Part001.greetingStage g o)|].
  all: split; [quoted (Part001.greetingStage g o)|].
  all: split; [quoted (Part001.initiationStage g o)|].
  all: split; [quoted (Part001.initiationStage g o)|].
  all: split; [quoted (Part001.messageStage g o) | quoted (Part001.messageStage g o)].
Qed.

(** X13.  When a test on a status fails, the one [console.error] of the run
    names the block and quotes the reply that failed the test:
    [shokuhou.js] quotes its text as [toString()] decodes it, line ending
    included; [part_001] quotes that text trimmed.  The text of a reply of
    ASCII characters is the reply as it came. *)
Theorem refused_reply_is_quoted
    (g : option string -> option string)
    (o : Shokuhou.clientOpts) (o' : Part001.clientOpts)
    (p : peer) (r1 r2 : string) (rs : list incoming) :
  healthy p ->
  replies p = Data r1 :: Data r2 :: rs ->
  quotes_the_refused_reply leading3 Js.decode
    Shokuhou.bannerStage (Shokuhou.greetingStage o)
    (Shokuhou.initiationStage o) (Shokuhou.messageStage o) p r1 r2 /\
  quotes_the_refused_reply (fun r => g (Some r)) (fun r => Js.trim (Js.decode r))
    (Part001.bannerStage g o') (Part001.greetingStage g o')
    (Part001.initiationStage g o') (Part001.messageStage g o') p r1 r2 /\
  (forall r, Js.ascii_only r = true -> Js.decode r = r).
Proof.
  intros H E. split; [|split].
  - now apply shokuhou_quotes with (rs := rs).
  - now apply part001_quotes with (rs := rs).
  - exact decode_ascii.
Qed.

Lemma refused_reply_is_quoted_witness :
  let p := serve [("354 go ahead" ++ Js.CRLF)%string;
                  ("552 message too large" ++ Js.CRLF)%string] in
  quotes_the_refused_reply leading3 Js.decode
    Shokuhou.bannerStage (Shokuhou.greetingStage opts_plain)
    (Shokuhou.initiationStage opts_plain) (Shokuhou.messageStage opts_plain) p
    ("354 go ahead" ++ Js.CRLF) ("552 message too large" ++ Js.CRLF) /\
  quotes_the_refused_reply (fun r => GetStatus.getStatus (Some r))
    (fun r => Js.trim (Js.decode r))
    (Part001.bannerStage GetStatus.getStatus opts_password)
    (Part001.greetingStage GetStatus.getStatus opts_password)
    (Part001.initiationStage GetStatus.getStatus opts_password)
    (Part001.messageStage GetStatus.getStatus opts_password) p
    ("354 go ahead" ++ Js.CRLF) ("552 message too large" ++ Js.CRLF) /\
  (forall r, Js.ascii_only r = true -> Js.decode r = r).
Proof.
  exact (refused_reply_is_quoted GetStatus.getStatus opts_plain opts_password
           (serve [("354 go ahead" ++ Js.CRLF)%string;
                   ("552 message too large" ++ Js.CRLF)%string])
           ("354 go ahead" ++ Js.CRLF) ("552 message too large" ++ Js.CRLF) []
           (Forall_nil _) eq_refl).
Defined.

Example trimmed_and_untrimmed_quote :
  errors (trace (Shokuhou.messageStage opts_plain
                   (serve [("354 go ahead" ++ Js.CRLF)%string;
                           ("552 too large" ++ Js.CRLF)%string]))) =
    [("[X] An error occurred sending the message: Improper response: 552 too large"
      ++ Js.CRLF)%string] /\
  errors (trace (Part001.messageStage GetStatus.getStatus opts_password
                   (serve [("354 go ahead" ++ Js.CRLF)%string;
                           ("552 too large" ++ Js.CRLF)%string]))) =
    ["[X] An error occurred sending the message: Improper response: 552 too large"].
Proof. split; reflexivity. Qed.

(** A reply that ends with a no-break space (the bytes C2 A0) before its
    line ending: [trim] takes the space with the line ending. *)
Example no_break_space_is_trimmed :
  let reply := ("554 no" ++ String "194" (String "160" Js.CRLF))%string in
  errors (trace (Part001.bannerStage GetStatus.getStatus opts_password (serve [reply]))) =
    ["[X] An error occurred reading the server banner: Improper response: 554 no"].
Proof. reflexivity. Qed.

(** A reply with a byte that no character holds (FF): the text has U+FFFD
    (the bytes EF BF BD) in its place. *)
Example ill_formed_reply_is_quoted_decoded :
  let reply := ("554 " ++ String "255" "no")%string in
  errors (trace (Shokuhou.bannerStage (serve [reply]))) =
    [("[X] An error occurred reading the server banner: Improper response: 554 " ++
      Js.replacement ++ "no")%string].
Proof. reflexivity. Qed.

(* ===================================================================== *)
(** * The credential lines *)
(* ===================================================================== *)

Lemma b64_digit_no_line_break (n : N) : is_line_break (Js.b64_digit n) = false.
Proof.
  unfold Js.b64_digit.
  assert (L : (N.to_nat (n mod 64) < 64)%nat).
  { pose proof (N.mod_upper_bound n 64). lia. }
  remember (N.to_nat (n mod 64)) as m eqn:E. clear E.
  do 64 (destruct m as [|m]; [reflexivity|]). lia.
Qed.

Lemma base64_no_line_break_upto (n : nat) (s : string) :
  String.length s <= n -> has_line_break (Js.base64 s) = false.
Proof.
  revert s. induction n as [n IH] using lt_wf_ind. intros s L.
  destruct s as [|a [|b [|c s]]];
    cbn [Js.base64 has_line_break]; rewrite ?b64_digit_no_line_break; try reflexivity.
  cbn [orb]. apply (IH (String.length s)); cbn [String.length] in L; lia.
Qed.

Lemma base64_no_line_break (s : string) : has_line_break (Js.base64 s) = false.
Proof. now apply (base64_no_line_break_upto (String.length s)). Qed.

Lemma btoa_no_line_break (s text : string) :
  Js.btoa s = Some text -> has_line_break text = false.
Proof.
  unfold Js.btoa. destruct (Js.latin1 s) as [bytes|]; [|discriminate].
  intros [= <-]. apply base64_no_line_break.
Qed.

Lemma encoded_no_line_break (s : string) : has_line_break (encoded s) = false.
Proof.
  unfold encoded. destruct (Js.btoa s) as [text|] eqn:E; [|reflexivity].
  now apply (btoa_no_line_break s).
Qed.

(** X14.  Whatever the peer does and whatever the user name and the password
    contain, every write of the authentication block of [part_001] is one
    line: text without CR or LF, then the CRLF the script appends. *)
Theorem credential_lines_are_single_lines
    (g : option string -> option string) (o : Part001.clientOpts) (p : peer) :
  Forall single_line (sent (Part001.authenticationStage g o p)).
Proof.
  destruct (part001_authentication_behaves g o p) as (I & _).
  apply Forall_forall. intros l L. apply I in L.
  destruct (Js.truthy (Part001.password o)); [|destruct L].
  unfold auth_lines in L. cbn [In] in L.
  destruct L as [<-|[<-|[<-|[]]]]; eexists; (split; [reflexivity|]);
    [reflexivity | apply encoded_no_line_break | apply encoded_no_line_break].
Qed.

Example credentials_with_line_breaks :
  sent (Part001.authenticationStage GetStatus.getStatus
          (Part001.mkOpts ("alice" ++ Js.CRLF ++ "QUIT") "alice@example.com"
             (Some "example.com") "bob@example.test" "mail.example.test"
             (Some "secret") (PortNum 25) false)
          (serve ["334 VXNlcm5hbWU6"; "334 UGFzc3dvcmQ6"; "235 ok"])) =
  [("AUTH LOGIN" ++ Js.CRLF)%string;
   ("YWxpY2UNClFVSVQ=" ++ Js.CRLF)%string;
   ("c2VjcmV0" ++ Js.CRLF)%string].
Proof. reflexivity. Qed.

(** Characters from U+0080 to U+00FF are encoded as one byte each: the
    password whose last character is U+00E9 (the bytes C3 A9) goes out as the
    base64 text of the bytes 63 61 66 E9. *)
Example latin1_password_is_encoded :
  Js.btoa ("caf" ++ String "195" (String "169" "")) = Some "Y2Fm6Q==".
Proof. reflexivity. Qed.
